(** * qa-tools: the row-ingestion and aggregation pipelines of
    [DepositManagementSystem], embedded from the TypeScript source.

    Conventions of the embedding.
    - A JavaScript string is a [string]; one character stands for one UTF-16
      code unit below 256.
    - A JavaScript number is a [NumberValue]: a finite number by its exact
      rational value, an infinity, or [NaN]; the sign of zero is left out.
      [Number(string)], [numberFrom] and [amountFrom] give the value a cell
      writes, within the range of binary64.  What the pipelines add up is
      binary64: they take that value rounded to the nearest binary64 number
      ([Binary64.round]) and every addition and subtraction rounds again
      ([Binary64.add], [Binary64.sub]).  The calendar arithmetic of [Date]
      is on integers and is exact.
    - A [Date] is its time value in milliseconds, [None] for an invalid date;
      local time is taken to be UTC.
    - A plain object used as a dictionary is a [gmap] from strings holding
      its own properties; the properties it inherits from [Object.prototype]
      are the keys [JSObject.prototypeKeys], and [JSObject.read] tells an own
      value from an inherited one and from [undefined].  Each upload starts
      from the built-in objects as the host provides them: what an upload
      writes onto a built-in object are numeric fields that are [NaN], which
      read as falsy wherever the pipelines read them.  The order in which an
      object lists its keys is kept beside the [gmap], as the list of the
      keys in the order of their creation.
    - An upload handler that throws stores nothing: its result is [None].
    - [Array.prototype.sort] is the stable sort, computed by insertion;
      [localeCompare], [Number::toString] and the text of a built-in
      function belong to the host and are parameters. *)

From Stdlib Require Import ZArith QArith Qcanon Qround Qpower Ascii String Lia Lqa.
From stdpp Require Import base strings list gmap numbers pretty sorting.

Open Scope Z_scope.

(** ** Characters and strings *)

Module Str.

Definition code (c : ascii) : Z := Z.of_N (N_of_ascii c).

(** [\d] of a regular expression without the unicode flag: [0-9]. *)
Definition isDigit (c : ascii) : bool :=
  (48 <=? code c) && (code c <=? 57).

Definition digitValue (c : ascii) : Z := code c - 48.

Definition isHexDigit (c : ascii) : bool :=
  isDigit c
  || ((65 <=? code c) && (code c <=? 70))
  || ((97 <=? code c) && (code c <=? 102)).

Definition hexValue (c : ascii) : Z :=
  if isDigit c then code c - 48
  else if (97 <=? code c) then code c - 87
  else code c - 55.

(** StrWhiteSpaceChar, restricted to code units below 256:
    TAB, LF, VT, FF, CR, SP and NBSP. *)
Definition isWhiteSpace (c : ascii) : bool :=
  ((9 <=? code c) && (code c <=? 13)) || (code c =? 32) || (code c =? 160).

(** [String.prototype.toLowerCase] on one code unit below 256. *)
Definition lowerChar (c : ascii) : ascii :=
  if ((65 <=? code c) && (code c <=? 90))
     || ((192 <=? code c) && (code c <=? 222) && negb (code c =? 215))
  then ascii_of_N (Z.to_N (code c + 32))
  else c.

Fixpoint toLowerCase (s : string) : string :=
  match s with
  | EmptyString => EmptyString
  | String c r => String (lowerChar c) (toLowerCase r)
  end.

(** [s.split(sep)] for a one-character separator; never empty. *)
Fixpoint split (sep : ascii) (s : string) : list string :=
  match s with
  | EmptyString => [EmptyString]
  | String c r =>
      if Ascii.eqb c sep then EmptyString :: split sep r
      else match split sep r with
           | [] => [String c EmptyString]
           | p :: ps => String c p :: ps
           end
  end.

(** [s.replace(/\D/g, "")]. *)
Fixpoint digitsOnly (s : string) : string :=
  match s with
  | EmptyString => EmptyString
  | String c r => if isDigit c then String c (digitsOnly r) else digitsOnly r
  end.

Fixpoint trimStart (s : string) : string :=
  match s with
  | EmptyString => EmptyString
  | String c r => if isWhiteSpace c then trimStart r else s
  end.

Fixpoint trimEnd (s : string) : string :=
  match s with
  | EmptyString => EmptyString
  | String c r =>
      match trimEnd r with
      | EmptyString => if isWhiteSpace c then EmptyString else String c EmptyString
      | r' => String c r'
      end
  end.

Definition trim (s : string) : string := trimEnd (trimStart s).

(** The longest prefix of decimal digits, and what follows it. *)
Fixpoint spanDigits (s : string) : string * string :=
  match s with
  | EmptyString => (EmptyString, EmptyString)
  | String c r =>
      if isDigit c then
        let '(ds, rest) := spanDigits r in (String c ds, rest)
      else (EmptyString, s)
  end.

Fixpoint all (p : ascii -> bool) (s : string) : bool :=
  match s with
  | EmptyString => true
  | String c r => p c && all p r
  end.

(** The integer written by a string of digits in a base, read left to right. *)
Fixpoint digitsValue (base : Z) (value : ascii -> Z) (acc : Z) (s : string) : Z :=
  match s with
  | EmptyString => acc
  | String c r => digitsValue base value (base * acc + value c) r
  end.

Definition decimalValue (s : string) : Z := digitsValue 10 digitValue 0 s.

Definition isEmpty (s : string) : bool :=
  match s with EmptyString => true | _ => false end.

End Str.

(** ** Numbers *)

(** The values [Number(s)] can take. *)
Inductive NumberValue :=
| Finite (q : Qc)
| Infinity (negative : bool)
| NaN.

Definition Qc_ltb (x y : Qc) : bool := bool_decide (x < y)%Qc.
Definition Qc_leb (x y : Qc) : bool := bool_decide (x <= y)%Qc.

Definition Math_abs (x : Qc) : Qc := if Qc_ltb x 0 then (- x)%Qc else x.

Definition ofZ (z : Z) : Qc := Q2Qc (inject_Z z).

(** Half-way between the largest binary64 number and [2^1024]: from there
    on a mathematical value rounds to an infinity. *)
Definition overflowThreshold : Z := 2 ^ 1024 - 2 ^ 970.

(** Half of the smallest positive binary64 number, [2^-1075]: up to there a
    mathematical value rounds to zero. *)
Definition underflowThreshold : Qc := Q2Qc (Qpower (2 # 1) (-1075)).

(** The Number value for a mathematical value: the range of binary64 is
    kept, its precision is not. *)
Definition roundToNumber (q : Qc) : NumberValue :=
  if Qc_leb (ofZ overflowThreshold) (Math_abs q) then Infinity (Qc_ltb q 0)
  else if Qc_leb (Math_abs q) underflowThreshold then Finite 0%Qc
  else Finite q.

Module StringToNumber.
Import Str.

(** An optional sign: whether it is a minus, and what follows it. *)
Definition signOf (s : string) : bool * string :=
  match s with
  | String c r =>
      if code c =? 43 then (false, r)
      else if code c =? 45 then (true, r)
      else (false, s)
  | EmptyString => (false, s)
  end.

(** ExponentPart_opt at the end of a literal: [Some e], or [None] when
    what is left is not an exponent part. *)
Definition exponentPart (s : string) : option Z :=
  match s with
  | EmptyString => Some 0
  | String c r =>
      if (code c =? 101) || (code c =? 69) then
        let '(negative, r') := signOf r in
        let '(ds, rest) := spanDigits r' in
        if isEmpty ds || negb (isEmpty rest) then None
        else Some (if negative then - decimalValue ds else decimalValue ds)
      else None
  end.

(** StrUnsignedDecimalLiteral without [Infinity]: the mathematical value. *)
Definition unsignedDecimal (s : string) : option Qc :=
  let '(ip, r1) := spanDigits s in
  let '(fp, r2) :=
    match r1 with
    | String c r => if code c =? 46 then spanDigits r else (EmptyString, r1)
    | EmptyString => (EmptyString, r1)
    end in
  if isEmpty ip && isEmpty fp then None
  else
    match exponentPart r2 with
    | None => None
    | Some e =>
        Some (Q2Qc (inject_Z (decimalValue (ip ++ fp))
                    * Qpower (10 # 1) (e - Z.of_nat (String.length fp))))
    end.

(** StrDecimalLiteral: an optional sign, then [Infinity] or digits. *)
Definition strDecimalLiteral (s : string) : NumberValue :=
  let '(negative, u) := signOf s in
  if String.eqb u "Infinity" then Infinity negative
  else
    match unsignedDecimal u with
    | None => NaN
    | Some q => roundToNumber (if negative then (- q)%Qc else q)
    end.

(** NonDecimalIntegerLiteral: [0x], [0o], [0b] and their digits. *)
Definition nonDecimal (s : string) : option NumberValue :=
  match s with
  | String z (String c r) =>
      let radix (base : Z) (ok : ascii -> bool) (value : ascii -> Z) :=
        if isEmpty r || negb (all ok r) then Some NaN
        else Some (roundToNumber (ofZ (digitsValue base value 0 r))) in
      if negb (code z =? 48) then None
      else if (code c =? 120) || (code c =? 88) then radix 16 isHexDigit hexValue
      else if (code c =? 111) || (code c =? 79) then
        radix 8 (fun d => (48 <=? code d) && (code d <=? 55)) digitValue
      else if (code c =? 98) || (code c =? 66) then
        radix 2 (fun d => (48 <=? code d) && (code d <=? 49)) digitValue
      else None
  | _ => None
  end.

(** [Number(s)] for a string [s] (StringToNumber of ECMAScript). *)
Definition Number (s : string) : NumberValue :=
  let t := trim s in
  if isEmpty t then Finite 0%Qc
  else
    match nonDecimal t with
    | Some v => v
    | None => strDecimalLiteral t
    end.

End StringToNumber.

Definition Number_ofString := StringToNumber.Number.

(** [ToIntegerOrInfinity] on a finite number: truncation towards zero. *)
Definition ToIntegerOrInfinity (q : Qc) : Z :=
  if Qc_ltb q 0 then Qceiling q else Qfloor q.

(** [Number::toString] belongs to the host; the pipelines only pass its
    result on as a clinic code, a label or an identifier. *)
Class NumberPrinter := NumberToString : Qc -> string.

(** ** Binary64 arithmetic *)

Module Binary64.

(** The integer nearest to [n / d], for [d > 0]; of two integers equally
    near, the even one. *)
Definition roundHalfEven (n d : Z) : Z :=
  let f := n / d in
  match 2 * (n mod d) ?= d with
  | Lt => f
  | Gt => f + 1
  | Eq => if Z.even f then f else f + 1
  end.

(** The integral part of the binary logarithm of [n / d], for [n, d > 0]. *)
Definition exponentOf (n d : Z) : Z :=
  let k := Z.log2 n - Z.log2 d in
  if (if 0 <=? k then 2 ^ k * d <=? n else d <=? 2 ^ (- k) * n) then k else k - 1.

(** The binary64 number nearest to [n / d], for [n, d > 0]: a significand
    of at most 53 bits at the exponent of [n / d], or at the least exponent
    -1074; an infinity from [2^1024] on. *)
Definition roundPositive (n d : Z) (negative : bool) : NumberValue :=
  let e := Z.max (exponentOf n d - 52) (-1074) in
  let m := roundHalfEven (n * 2 ^ Z.max 0 (- e)) (d * 2 ^ Z.max 0 e) in
  if 2 ^ 1024 <=? m * 2 ^ e then Infinity negative
  else
    let v := Q2Qc (Qmake (m * 2 ^ Z.max 0 e) (Z.to_pos (2 ^ Z.max 0 (- e)))) in
    Finite (if negative then (- v)%Qc else v).

(** The binary64 number for a mathematical value: round to nearest, ties
    to even.  [numberFrom] and [amountFrom] give the value a cell writes; the
    number the program holds is that value rounded. *)
Definition round (q : Qc) : NumberValue :=
  match Qnum q with
  | Z0 => Finite 0%Qc
  | Zpos n => roundPositive (Zpos n) (Zpos (Qden q)) false
  | Zneg n => roundPositive (Zpos n) (Zpos (Qden q)) true
  end.

Definition neg (x : NumberValue) : NumberValue :=
  match x with
  | Finite q => Finite (- q)%Qc
  | Infinity negative => Infinity (negb negative)
  | NaN => NaN
  end.

(** [x + y]. *)
Definition add (x y : NumberValue) : NumberValue :=
  match x, y with
  | Finite a, Finite b => round (a + b)%Qc
  | Finite _, Infinity negative | Infinity negative, Finite _ => Infinity negative
  | Infinity n1, Infinity n2 => if Bool.eqb n1 n2 then Infinity n1 else NaN
  | NaN, _ | _, NaN => NaN
  end.

(** [x - y]. *)
Definition sub (x y : NumberValue) : NumberValue := add x (neg y).

(** [Math.abs(x)]. *)
Definition abs (x : NumberValue) : NumberValue :=
  match x with
  | Finite q => Finite (Math_abs q)
  | Infinity _ => Infinity false
  | NaN => NaN
  end.

(** [x < y]. *)
Definition ltb (x y : NumberValue) : bool :=
  match x, y with
  | Finite a, Finite b => Qc_ltb a b
  | Finite _, Infinity negative => negb negative
  | Infinity negative, Finite _ => negative
  | Infinity n1, Infinity n2 => n1 && negb n2
  | NaN, _ | _, NaN => false
  end.

(** Whether a number is falsy: zero and [NaN] are. *)
Definition falsy (x : NumberValue) : bool :=
  match x with
  | Finite q => bool_decide (q = 0%Qc)
  | Infinity _ => false
  | NaN => true
  end.

(** [Number::toString] on any number. *)
Definition toString `{NumberPrinter} (x : NumberValue) : string :=
  match x with
  | Finite q => NumberToString q
  | Infinity false => "Infinity"
  | Infinity true => "-Infinity"
  | NaN => "NaN"
  end.

End Binary64.

(** The text of a built-in function, [Function.prototype.toString],
    belongs to the host; the function is named by the key under which a
    plain object inherits it. *)
Class FunctionPrinter := FunctionToString : string -> string.



(** ** Dates (ECMAScript, Time Values and Time Range) *)

Module DateTime.

Definition msPerDay : Z := 86400000.

Definition Day (t : Z) : Z := t / msPerDay.
Definition TimeWithinDay (t : Z) : Z := t mod msPerDay.

Definition isLeapYear (y : Z) : bool :=
  (y mod 4 =? 0) && (negb (y mod 100 =? 0) || (y mod 400 =? 0)).

Definition DaysInYear (y : Z) : Z := if isLeapYear y then 366 else 365.

Definition DayFromYear (y : Z) : Z :=
  365 * (y - 1970) + (y - 1969) / 4 - (y - 1901) / 100 + (y - 1601) / 400.

(** The largest [y] with [DayFromYear y <= Day t]: an estimate from the
    mean length of a year, corrected by at most one. *)
Definition YearFromTime (t : Z) : Z :=
  let d := Day t in
  let y0 := 1970 + (400 * d) / 146097 in
  if DayFromYear (y0 + 1) <=? d then y0 + 1
  else if d <? DayFromYear y0 then y0 - 1
  else y0.

Definition InLeapYear (t : Z) : Z :=
  if isLeapYear (YearFromTime t) then 1 else 0.

Definition DayWithinYear (t : Z) : Z := Day t - DayFromYear (YearFromTime t).

(** Day within the year on which month [m] (0 to 11) begins; 12 stands
    for the end of the year. *)
Definition monthStart (leap m : Z) : Z :=
  match m with
  | 0 => 0
  | 1 => 31
  | 2 => 59 + leap
  | 3 => 90 + leap
  | 4 => 120 + leap
  | 5 => 151 + leap
  | 6 => 181 + leap
  | 7 => 212 + leap
  | 8 => 243 + leap
  | 9 => 273 + leap
  | 10 => 304 + leap
  | 11 => 334 + leap
  | _ => 365 + leap
  end.

Definition MonthFromTime (t : Z) : Z :=
  let d := DayWithinYear t in
  let l := InLeapYear t in
  if d <? 31 then 0
  else if d <? 59 + l then 1
  else if d <? 90 + l then 2
  else if d <? 120 + l then 3
  else if d <? 151 + l then 4
  else if d <? 181 + l then 5
  else if d <? 212 + l then 6
  else if d <? 243 + l then 7
  else if d <? 273 + l then 8
  else if d <? 304 + l then 9
  else if d <? 334 + l then 10
  else 11.

Definition DateFromTime (t : Z) : Z :=
  DayWithinYear t - monthStart (InLeapYear t) (MonthFromTime t) + 1.

Definition MakeDay (year month date : Z) : Z :=
  let ym := year + month / 12 in
  let mn := month mod 12 in
  DayFromYear ym + monthStart (if isLeapYear ym then 1 else 0) mn + date - 1.

Definition MakeDate (day time : Z) : Z := day * msPerDay + time.

Definition TimeClip (t : Z) : option Z :=
  if 8640000000000000 <? Z.abs t then None else Some t.

(** Days in month [m] (0 to 11) of year [y]. *)
Definition DaysInMonth (y m : Z) : Z :=
  let l := if isLeapYear y then 1 else 0 in
  monthStart l (m + 1) - monthStart l m.

End DateTime.

(** A [Date] object: its time value, [None] when the date is invalid. *)
Record Date := { timeValue : option Z }.

Module DateObject.
Import DateTime.

(** [new Date(year, monthIndex, day)] on finite numbers. *)
Definition create (year monthIndex day : Qc) : Date :=
  let yi := ToIntegerOrInfinity year in
  let yr := if (0 <=? yi) && (yi <=? 99) then 1900 + yi else yi in
  {| timeValue :=
      TimeClip (MakeDate (MakeDay yr (ToIntegerOrInfinity monthIndex)
                                     (ToIntegerOrInfinity day)) 0) |}.

(** [date.getMonth()]; [None] is [NaN]. *)
Definition getMonth (d : Date) : option Z := MonthFromTime <$> timeValue d.

(** [date.setMonth(month)]. *)
Definition setMonth (d : Date) (month : option Z) : Date :=
  {| timeValue :=
      match timeValue d, month with
      | Some t, Some m =>
          TimeClip (MakeDate (MakeDay (YearFromTime t) m (DateFromTime t))
                             (TimeWithinDay t))
      | _, _ => None
      end |}.

(** [date.setHours(0, 0, 0, 0)]. *)
Definition setHoursZero (d : Date) : Date :=
  {| timeValue :=
      match timeValue d with
      | Some t => TimeClip (MakeDate (Day t) 0)
      | None => None
      end |}.

(** [a <= b] on dates: a comparison of time values, false on [NaN]. *)
Definition leb (a b : Date) : bool :=
  match timeValue a, timeValue b with
  | Some x, Some y => x <=? y
  | _, _ => false
  end.

(** The date of a day of the calendar: month [m] is 0 to 11. *)
Definition ofCivil (y m d : Z) : Date :=
  {| timeValue := Some (MakeDate (MakeDay y m d) 0) |}.

End DateObject.

(** ** Cell coercion *)

(** A cell of a decoded row: text, a finite number, or anything else
    (a key that is missing reads as [undefined], which is [COther]). *)
Inductive cell :=
| CString (s : string)
| CNumber (n : Qc)
| COther.

Abbreviation AnyRow := (gmap string cell).

Definition get (row : AnyRow) (key : string) : cell := default COther (row !! key).

(** [s || d] on strings: the empty string is the one falsy string. *)
Definition orElse (s d : string) : string := if Str.isEmpty s then d else s.

Definition parseDate (dateStr : cell) : option Date :=
  match dateStr with
  | CString s =>
      if Str.isEmpty s then None
      else
        match Str.split "/" (hd EmptyString (Str.split " " s)) with
        | [dd; mm; yyyy] =>
            match Number_ofString dd, Number_ofString mm, Number_ofString yyyy with
            | Finite day, Finite month, Finite year =>
                Some (DateObject.create year (month - 1)%Qc day)
            | _, _, _ => None
            end
        | _ => None
        end
  | _ => None
  end.

Definition amountFrom (row : AnyRow) (key : string) : Qc :=
  match get row key with
  | CNumber v => v
  | CString v =>
      let digitsOnly := Str.digitsOnly v in
      if Str.isEmpty digitsOnly then 0%Qc
      else match Number_ofString digitsOnly with
           | Finite n => n
           | _ => 0%Qc
           end
  | COther => 0%Qc
  end.

Definition numberFrom (row : AnyRow) (key : string) : Qc :=
  match get row key with
  | CNumber v => v
  | CString v =>
      match Number_ofString v with
      | Finite n => n
      | _ => 0%Qc
      end
  | COther => 0%Qc
  end.

Definition stringFrom `{NumberPrinter} (row : AnyRow) (key : string) : string :=
  match get row key with
  | CString v => v
  | CNumber v => NumberToString v
  | COther => EmptyString
  end.

Definition lowerStringFrom `{NumberPrinter} (row : AnyRow) (key : string) : string :=
  Str.toLowerCase (stringFrom row key).

Definition fromDateInputValue (value : string) : option Date :=
  if Str.isEmpty value then None
  else
    match Str.split "-" value with
    | [yyyy; mm; dd] =>
        match Number_ofString yyyy, Number_ofString mm, Number_ofString dd with
        | Finite year, Finite month, Finite day =>
            Some (DateObject.setHoursZero (DateObject.create year (month - 1)%Qc day))
        | _, _, _ => None
        end
    | _ => None
    end.

(** ** Deposit pipeline *)

Module Deposit.

Record DepositInfoRow := {
  clinicCode : string;
  userId : string;
  omnicareId : string;
  userName : string;
  phoneNumber : string;
  treatmentName : string;
  expirationDate : Date;
}.

Record DateRange := { start : Date; end_ : Date }.

(** [depositDateRange], from the state variable [depositStartDate]. *)
Definition depositDateRange (depositStartDate : string) : option DateRange :=
  match fromDateInputValue depositStartDate with
  | None => None
  | Some start =>
      let end_ := start in
      let end_ :=
        DateObject.setMonth end_ ((fun m => m + 2) <$> DateObject.getMonth end_) in
      Some {| start := start; end_ := end_ |}
  end.

(** [data]: the rows of [allDepositRows] that expire inside the range. *)
Definition data (allDepositRows : list DepositInfoRow)
    (depositDateRange : option DateRange) : list DepositInfoRow :=
  match depositDateRange with
  | None => []
  | Some r =>
      List.filter
        (fun row => DateObject.leb (start r) (expirationDate row)
                    && DateObject.leb (expirationDate row) (end_ r))
        allDepositRows
  end.

Section Upload.
Context `{NumberPrinter}.

(** The [filter] callback of [handleFileUpload]. *)
Definition hasRemainingQuantity (row : AnyRow) : bool :=
  Qc_ltb 0 (numberFrom row "Remaining Quantity").

(** The [forEach] callback of [handleFileUpload]: the record it pushes,
    [None] where it returns early. *)
Definition pushed (row : AnyRow) : option DepositInfoRow :=
  let clinicCode := orElse (stringFrom row "Deposit Purchase Clinic Code") "Unknown" in
  let userId := stringFrom row "User ID" in
  let omnicareId :=
    orElse (orElse (stringFrom row "Omnicare Id") (stringFrom row "Omnicare ID"))
           EmptyString in
  let userName := stringFrom row "Name" in
  let phoneNumber := stringFrom row "Phone Number" in
  let expirationDate := parseDate (get row "Deposit Expiration Time") in
  let treatmentName := stringFrom row "Treatment Display Name" in
  match expirationDate with
  | None => None
  | Some expirationDate =>
      if Str.isEmpty userId then None
      else Some {| clinicCode := clinicCode;
                   userId := userId;
                   omnicareId := omnicareId;
                   userName := userName;
                   phoneNumber := phoneNumber;
                   treatmentName := treatmentName;
                   expirationDate := expirationDate |}
  end.

(** [processedRows] as [handleFileUpload] fills it, before it is sorted
    (by clinic code, then by expiration date). *)
Definition processedRows (jsonData : list AnyRow) : list DepositInfoRow :=
  omap pushed (List.filter hasRemainingQuantity jsonData).

End Upload.

End Deposit.

(** ** Arrays and objects of the host *)

(** [String.prototype.localeCompare] belongs to the host and its locale;
    only the sign of its result is used. *)
Class Collator := localeCompare : string -> string -> Z.

(** A comparator the language calls consistent: the strings are totally
    preordered by it. *)
Class ConsistentCollator (collator : Collator) : Prop := {
  localeCompare_antisym (a b : string) : 0 < localeCompare a b <-> localeCompare b a < 0;
  localeCompare_trans (a b c : string) :
    localeCompare a b <= 0 -> localeCompare b c <= 0 -> localeCompare a c <= 0
}.

Module JSArray.
Section Sort.
Context {A : Type} (comparefn : A -> A -> Z).

(** Where [x] goes in a sorted list: before the first element it does
    not come after. *)
Fixpoint insert (x : A) (sorted : list A) : list A :=
  match sorted with
  | [] => [x]
  | y :: rest => if 0 <? comparefn x y then y :: insert x rest else x :: sorted
  end.

(** [Array.prototype.sort(comparefn)].  The sort is stable, so for a
    consistent comparator the language fixes the result; it is computed here
    by insertion, from the last element to the first. *)
Definition sort (l : list A) : list A := foldr insert [] l.

End Sort.
End JSArray.

Module JSObject.

(** The properties of [Object.prototype], which every plain object
    inherits: eleven functions and the accessor [__proto__]. *)
Definition prototypeKeys : list string :=
  [ "constructor"; "__defineGetter__"; "__defineSetter__"; "hasOwnProperty";
    "__lookupGetter__"; "__lookupSetter__"; "isPrototypeOf"; "propertyIsEnumerable";
    "toString"; "valueOf"; "__proto__"; "toLocaleString" ]%string.

Definition inherited (key : string) : bool :=
  existsb (String.eqb key) prototypeKeys.

(** What [o[key]] reads on a plain object: an own value, a value of the
    prototype (a built-in function, or the prototype itself under
    [__proto__]), or [undefined]. *)
Inductive Lookup (V : Type) :=
| Own (v : V)
| Inherited
| Undefined.
Arguments Own {V} v.
Arguments Inherited {V}.
Arguments Undefined {V}.

Definition read {V : Type} (o : gmap string V) (key : string) : Lookup V :=
  match o !! key with
  | Some v => Own v
  | None => if inherited key then Inherited else Undefined
  end.

(** [o[key] = v] for a value [v] that is not an object: it creates or
    replaces an own property, but under [__proto__] it calls the setter of
    the prototype, which ignores such a value. *)
Definition write {V : Type} (key : string) (v : V) (o : gmap string V) : gmap string V :=
  if String.eqb key "__proto__" then o else <[key := v]> o.

(** The text an inherited value turns into when it is added to a number:
    the source text of the function, [[object Object]] for the prototype. *)
Definition inheritedText `{FunctionPrinter} (key : string) : string :=
  if String.eqb key "__proto__" then "[object Object]" else FunctionToString key.

(** An array index: the canonical numeral of an integer from 0 to
    [2^32 - 2]. *)
Definition isArrayIndex (key : string) : bool :=
  match key with
  | EmptyString => false
  | String c r =>
      Str.all Str.isDigit key
      && (negb (Str.code c =? 48) || Str.isEmpty r)
      && (Str.decimalValue key <=? 4294967294)
  end.

(** The order in which an ordinary object lists its string keys: array
    indices by ascending value, then the other keys as they were created. *)
Definition ownPropertyKeys (created : list string) : list string :=
  JSArray.sort (fun a b => Str.decimalValue a - Str.decimalValue b)
               (List.filter isArrayIndex created)
  ++ List.filter (fun key => negb (isArrayIndex key)) created.

(** [Object.entries(o)] for an object with the keys [created], in the
    order of their creation. *)
Definition entries {V : Type} (o : gmap string V) (created : list string)
    : list (string * V) :=
  omap (fun key => (fun v => (key, v)) <$> o !! key) (ownPropertyKeys created).

(** [Object.values(o)]. *)
Definition values {V : Type} (o : gmap string V) (created : list string) : list V :=
  snd <$> entries o created.

(** The keys of a dictionary filled row after row, in the order of their
    creation, when a row whose key passes [creates] creates it unless it is
    there already. *)
Definition createdKeys {R : Type} (creates : string -> bool) (keyOf : R -> string)
    (rows : list R) : list string :=
  foldl (fun keys row =>
           if creates (keyOf row) && negb (bool_decide (keyOf row ∈ keys))
           then keys ++ [keyOf row] else keys)
        [] rows.

(** [if (!o[key]) o[key] = {...}] creates the key when [o[key]] is
    [undefined]: an inherited value is truthy. *)
Definition guardedKeys {R : Type} (keyOf : R -> string) (rows : list R) : list string :=
  createdKeys (fun key => negb (inherited key)) keyOf rows.

(** [o[key] = v] with a text or a number creates any key but [__proto__]. *)
Definition writtenKeys {R : Type} (keyOf : R -> string) (rows : list R) : list string :=
  createdKeys (fun key => negb (String.eqb key "__proto__")) keyOf rows.

End JSObject.

(** ** Revenue pipeline *)

Module Revenue.

Record RevenueClinicSummary := {
  clinicCode : string;
  treatmentRetailPrice : NumberValue;
  treatmentSellingPrice : NumberValue;
  treatmentDiscount : NumberValue;
  productRetailPrice : NumberValue;
  productSellingPrice : NumberValue;
  productDiscount : NumberValue;
  total : NumberValue;
}.

Definition newSummary (clinicCode : string) : RevenueClinicSummary :=
  {| clinicCode := clinicCode;
     treatmentRetailPrice := Finite 0; treatmentSellingPrice := Finite 0;
     treatmentDiscount := Finite 0;
     productRetailPrice := Finite 0; productSellingPrice := Finite 0;
     productDiscount := Finite 0;
     total := Finite 0 |}.

Definition addTreatment (retailPrice sellingPrice discount : NumberValue)
    (s : RevenueClinicSummary) : RevenueClinicSummary :=
  {| clinicCode := clinicCode s;
     treatmentRetailPrice := Binary64.add (treatmentRetailPrice s) retailPrice;
     treatmentSellingPrice := Binary64.add (treatmentSellingPrice s) sellingPrice;
     treatmentDiscount := Binary64.add (treatmentDiscount s) discount;
     productRetailPrice := productRetailPrice s;
     productSellingPrice := productSellingPrice s;
     productDiscount := productDiscount s;
     total := total s |}.

Definition addProduct (retailPrice sellingPrice discount : NumberValue)
    (s : RevenueClinicSummary) : RevenueClinicSummary :=
  {| clinicCode := clinicCode s;
     treatmentRetailPrice := treatmentRetailPrice s;
     treatmentSellingPrice := treatmentSellingPrice s;
     treatmentDiscount := treatmentDiscount s;
     productRetailPrice := Binary64.add (productRetailPrice s) retailPrice;
     productSellingPrice := Binary64.add (productSellingPrice s) sellingPrice;
     productDiscount := Binary64.add (productDiscount s) discount;
     total := total s |}.

Definition addTotal (finalPrice : NumberValue) (s : RevenueClinicSummary)
    : RevenueClinicSummary :=
  {| clinicCode := clinicCode s;
     treatmentRetailPrice := treatmentRetailPrice s;
     treatmentSellingPrice := treatmentSellingPrice s;
     treatmentDiscount := treatmentDiscount s;
     productRetailPrice := productRetailPrice s;
     productSellingPrice := productSellingPrice s;
     productDiscount := productDiscount s;
     total := Binary64.add (total s) finalPrice |}.

Section Upload.
Context `{NumberPrinter}.

(** The [forEach] callback of [handleRevenueUpload], on [clinicMap].
    [clinicMap[clinicCode]] is truthy when it is a summary and when it is
    inherited; in the second case no summary is created, the [+=] that
    follow write [NaN] onto the built-in object, and [clinicMap] keeps its
    own properties as they were. *)
Definition forEachRow (clinicMap : gmap string RevenueClinicSummary)
    (row : AnyRow) : gmap string RevenueClinicSummary :=
  let clinicCode := orElse (stringFrom row "Clinic Code") "Unknown" in
  let itemType := lowerStringFrom row "Purchase Item Type" in
  let retailPrice := Binary64.round (numberFrom row "Total Retail Price") in
  let sellingPrice := Binary64.round (numberFrom row "Total Selling Price") in
  let discount := Binary64.round (numberFrom row "Total Discount") in
  let finalPrice := Binary64.round (numberFrom row "Total Final Price") in
  let clinicMap :=
    match JSObject.read clinicMap clinicCode with
    | JSObject.Undefined => <[clinicCode := newSummary clinicCode]> clinicMap
    | JSObject.Own _ | JSObject.Inherited => clinicMap
    end in
  let clinicMap :=
    if String.eqb itemType "treatment" then
      alter (addTreatment retailPrice sellingPrice discount) clinicCode clinicMap
    else if String.eqb itemType "product" then
      alter (addProduct retailPrice sellingPrice discount) clinicCode clinicMap
    else clinicMap in
  alter (addTotal finalPrice) clinicCode clinicMap.

(** [clinicMap] once [handleRevenueUpload] has seen every row; the
    state [revenueData] lists its values, sorted by clinic code. *)
Definition clinicMap (jsonData : list AnyRow) : gmap string RevenueClinicSummary :=
  foldl forEachRow ∅ jsonData.

End Upload.

(** The record [totals] holds: the fields of a summary, summed. *)
Module Totals.
Record RevenueTotals := {
  treatmentRetailPrice : NumberValue;
  treatmentSellingPrice : NumberValue;
  treatmentDiscount : NumberValue;
  productRetailPrice : NumberValue;
  productSellingPrice : NumberValue;
  productDiscount : NumberValue;
  total : NumberValue;
}.
End Totals.
Abbreviation RevenueTotals := Totals.RevenueTotals.

(** [totals]: [null] without data, else the field-wise sum, clinic after
    clinic. *)
Definition totals (revenueData : list RevenueClinicSummary) : option RevenueTotals :=
  if (length revenueData =? 0)%nat then None
  else
    Some (foldl
      (fun acc clinic =>
         {| Totals.treatmentRetailPrice :=
              Binary64.add (Totals.treatmentRetailPrice acc) (treatmentRetailPrice clinic);
            Totals.treatmentSellingPrice :=
              Binary64.add (Totals.treatmentSellingPrice acc) (treatmentSellingPrice clinic);
            Totals.treatmentDiscount :=
              Binary64.add (Totals.treatmentDiscount acc) (treatmentDiscount clinic);
            Totals.productRetailPrice :=
              Binary64.add (Totals.productRetailPrice acc) (productRetailPrice clinic);
            Totals.productSellingPrice :=
              Binary64.add (Totals.productSellingPrice acc) (productSellingPrice clinic);
            Totals.productDiscount :=
              Binary64.add (Totals.productDiscount acc) (productDiscount clinic);
            Totals.total := Binary64.add (Totals.total acc) (total clinic) |})
      {| Totals.treatmentRetailPrice := Finite 0; Totals.treatmentSellingPrice := Finite 0;
         Totals.treatmentDiscount := Finite 0; Totals.productRetailPrice := Finite 0;
         Totals.productSellingPrice := Finite 0; Totals.productDiscount := Finite 0;
         Totals.total := Finite 0 |}
      revenueData).

(** "Checksum 2" of the totals row: [a + b - c - d], from left to right. *)
Definition checksum2 (totals : RevenueTotals) : NumberValue :=
  Binary64.sub
    (Binary64.sub
       (Binary64.add (Totals.treatmentSellingPrice totals)
                     (Totals.productSellingPrice totals))
       (Totals.treatmentDiscount totals))
    (Totals.productDiscount totals).

(** The literal [0.01]: the binary64 number nearest to 1/100. *)
Definition tolerance : NumberValue := Binary64.round (Q2Qc (1 # 100)).

(** The test behind "Validation". *)
Definition withinTolerance (totals : RevenueTotals) : bool :=
  Binary64.ltb (Binary64.abs (Binary64.sub (Totals.total totals) (checksum2 totals)))
               tolerance.

(** The text shown next to "Validation:". *)
Definition validation (totals : RevenueTotals) : string :=
  if withinTolerance totals then "PASS" else "FAIL".

End Revenue.

(** ** Deposit-purchase pipeline *)

Module DepositPurchase.

Record DepositPurchaseClinicSummary := {
  clinicCode : string;
  totalRetailPrice : NumberValue;
  totalSellingPrice : NumberValue;
  totalDiscount : NumberValue;
  total : NumberValue;
}.

Definition newSummary (clinicCode : string) : DepositPurchaseClinicSummary :=
  {| clinicCode := clinicCode;
     totalRetailPrice := Finite 0; totalSellingPrice := Finite 0;
     totalDiscount := Finite 0; total := Finite 0 |}.

Definition addRow (retailPrice sellingPrice discount finalPrice : NumberValue)
    (s : DepositPurchaseClinicSummary) : DepositPurchaseClinicSummary :=
  {| clinicCode := clinicCode s;
     totalRetailPrice := Binary64.add (totalRetailPrice s) retailPrice;
     totalSellingPrice := Binary64.add (totalSellingPrice s) sellingPrice;
     totalDiscount := Binary64.add (totalDiscount s) discount;
     total := Binary64.add (total s) finalPrice |}.

Section Upload.
Context `{NumberPrinter}.

(** The [forEach] callback of [handleDepositPurchaseUpload]; an inherited
    [clinicMap[clinicCode]] is treated as in the revenue pipeline. *)
Definition forEachRow (clinicMap : gmap string DepositPurchaseClinicSummary)
    (row : AnyRow) : gmap string DepositPurchaseClinicSummary :=
  let clinicCode := orElse (stringFrom row "Clinic Code") "Unknown" in
  let retailPrice := Binary64.round (numberFrom row "Total Retail Price") in
  let sellingPrice := Binary64.round (numberFrom row "Total Selling Price") in
  let discount := Binary64.round (numberFrom row "Total Discount") in
  let finalPrice := Binary64.round (numberFrom row "Total Final Price") in
  let clinicMap :=
    match JSObject.read clinicMap clinicCode with
    | JSObject.Undefined => <[clinicCode := newSummary clinicCode]> clinicMap
    | JSObject.Own _ | JSObject.Inherited => clinicMap
    end in
  alter (addRow retailPrice sellingPrice discount finalPrice) clinicCode clinicMap.

Definition clinicMap (jsonData : list AnyRow)
    : gmap string DepositPurchaseClinicSummary :=
  foldl forEachRow ∅ jsonData.

End Upload.

End DepositPurchase.

(** ** Cash-in pipeline *)

Module CashIn.

(** What [paymentMethodTotals] holds under a label: a number, or the
    text that adding a number to an inherited value leaves. *)
Inductive Entry :=
| Amount (n : NumberValue)
| Text (s : string).

Record CashInClinicSummary := {
  clinicCode : string;
  paymentMethodTotals : gmap string Entry;
  deposit : NumberValue;
  voucher : NumberValue;
  nonDepositVoucher : NumberValue;
  total : NumberValue;
}.

Definition newSummary (clinicCode : string) : CashInClinicSummary :=
  {| clinicCode := clinicCode;
     paymentMethodTotals := ∅;
     deposit := Finite 0; voucher := Finite 0; nonDepositVoucher := Finite 0;
     total := Finite 0 |}.

Definition isVoucher (paymentMethod : string) : bool :=
  String.eqb paymentMethod "Clinic Voucher - Value"
  || String.eqb paymentMethod "Clinic Voucher - Treatment".

Section Upload.
Context `{NumberPrinter} `{FunctionPrinter}.

(** [(current || 0) + amount]: [undefined], zero, [NaN] and the empty text
    are falsy; a text or an inherited value makes [+] a concatenation. *)
Definition increased (paymentMethod : string) (current : JSObject.Lookup Entry)
    (amount : NumberValue) : Entry :=
  match current with
  | JSObject.Own (Amount n) =>
      Amount (Binary64.add (if Binary64.falsy n then Finite 0 else n) amount)
  | JSObject.Own (Text t) =>
      if Str.isEmpty t then Amount (Binary64.add (Finite 0) amount)
      else Text (t ++ Binary64.toString amount)
  | JSObject.Inherited =>
      Text (JSObject.inheritedText paymentMethod ++ Binary64.toString amount)
  | JSObject.Undefined => Amount (Binary64.add (Finite 0) amount)
  end.

(** What one row does to the summary of its clinic. *)
Definition addPayment (paymentMethod : string) (amount : NumberValue)
    (s : CashInClinicSummary) : CashInClinicSummary :=
  {| clinicCode := clinicCode s;
     paymentMethodTotals :=
       JSObject.write paymentMethod
         (increased paymentMethod (JSObject.read (paymentMethodTotals s) paymentMethod)
                    amount)
         (paymentMethodTotals s);
     deposit :=
       if String.eqb paymentMethod "Treatment Deposit"
       then Binary64.add (deposit s) amount else deposit s;
     voucher :=
       if isVoucher paymentMethod then Binary64.add (voucher s) amount else voucher s;
     nonDepositVoucher := nonDepositVoucher s;
     total := Binary64.add (total s) amount |}.

(** The [forEach] callback of [handleCashinUpload].  When
    [clinicMap[clinicCode]] is inherited no summary is created, the built-in
    object has no [paymentMethodTotals], and reading a label of [undefined]
    throws: [None]. *)
Definition forEachRow (clinicMap : gmap string CashInClinicSummary)
    (row : AnyRow) : option (gmap string CashInClinicSummary) :=
  let clinicCode := orElse (stringFrom row "Clinic Code") "Unknown" in
  let paymentMethod := orElse (stringFrom row "Payment Method") "Unknown" in
  let amount := Binary64.round (amountFrom row "Amount") in
  let clinicMap :=
    match JSObject.read clinicMap clinicCode with
    | JSObject.Undefined => <[clinicCode := newSummary clinicCode]> clinicMap
    | JSObject.Own _ | JSObject.Inherited => clinicMap
    end in
  match JSObject.read clinicMap clinicCode with
  | JSObject.Own _ => Some (alter (addPayment paymentMethod amount) clinicCode clinicMap)
  | JSObject.Inherited | JSObject.Undefined => None
  end.

(** [clinicMap] once [forEach] has run; [None] when a row threw. *)
Definition clinicMap (jsonData : list AnyRow) : option (gmap string CashInClinicSummary) :=
  foldl (fun clinicMap row =>
           match clinicMap with
           | Some clinicMap => forEachRow clinicMap row
           | None => None
           end)
        (Some ∅) jsonData.

End Upload.

(** The callback of the final [map]: the derived field. *)
Definition withNonDepositVoucher (clinic : CashInClinicSummary) : CashInClinicSummary :=
  let nonDepositVoucher :=
    Binary64.sub (Binary64.sub (total clinic) (deposit clinic)) (voucher clinic) in
  {| clinicCode := clinicCode clinic;
     paymentMethodTotals := paymentMethodTotals clinic;
     deposit := deposit clinic;
     voucher := voucher clinic;
     nonDepositVoucher := nonDepositVoucher;
     total := total clinic |}.

Section Output.
Context `{NumberPrinter} `{FunctionPrinter}.

(** [processedData], clinic by clinic: the values of [clinicMap] through
    the final [map] (the source then sorts them by clinic code). *)
Definition processedData (jsonData : list AnyRow)
    : option (gmap string CashInClinicSummary) :=
  match clinicMap jsonData with
  | Some clinicMap => Some (withNonDepositVoucher <$> clinicMap)
  | None => None
  end.

End Output.


End CashIn.

(** ** The pipelines, as the specification words them *)

(** One step of a clinic aggregator: the summary of the row's clinic,
    created on its first row, takes the row's contribution. *)
Definition upsert {V R : Type} (key : R -> string) (init : string -> V)
    (effect : R -> V -> V) (m : gmap string V) (r : R) : gmap string V :=
  <[key r := effect r (default (init (key r)) (m !! key r))]> m.

(** A numeral of a date-input value: one to 300 decimal digits. *)
Definition isNumeral (s : string) : bool :=
  negb (Str.isEmpty s) && Str.all Str.isDigit s && (String.length s <=? 300)%nat.

(** The part of a string before its first space. *)
Definition beforeSpace (s : string) : string := hd EmptyString (Str.split " " s).

(** Two digits, a slash, two digits, a slash, four digits. *)
Definition isDDMMYYYY (s : string) : bool :=
  match list_ascii_of_string s with
  | [d1; d2; s1; m1; m2; s2; y1; y2; y3; y4] =>
      Str.isDigit d1 && Str.isDigit d2 && (Str.code s1 =? 47)
      && Str.isDigit m1 && Str.isDigit m2 && (Str.code s2 =? 47)
      && Str.isDigit y1 && Str.isDigit y2 && Str.isDigit y3 && Str.isDigit y4
  | _ => false
  end.


(** The three classes of a revenue row. *)
Inductive ItemClass := Treatment | Product | Unclassified.

Definition classify (itemType : string) : ItemClass :=
  if String.eqb itemType "treatment" then Treatment
  else if String.eqb itemType "product" then Product
  else Unclassified.


(** What one row adds to the summary of its clinic, pipeline by pipeline. *)
Module RowEffect.
Section Effects.
Context `{NumberPrinter} `{FunctionPrinter}.

Definition clinicOf (row : AnyRow) : string :=
  orElse (stringFrom row "Clinic Code") "Unknown".

Definition revenue (row : AnyRow) (s : Revenue.RevenueClinicSummary)
    : Revenue.RevenueClinicSummary :=
  let retailPrice := Binary64.round (numberFrom row "Total Retail Price") in
  let sellingPrice := Binary64.round (numberFrom row "Total Selling Price") in
  let discount := Binary64.round (numberFrom row "Total Discount") in
  Revenue.addTotal (Binary64.round (numberFrom row "Total Final Price"))
    match classify (lowerStringFrom row "Purchase Item Type") with
    | Treatment => Revenue.addTreatment retailPrice sellingPrice discount s
    | Product => Revenue.addProduct retailPrice sellingPrice discount s
    | Unclassified => s
    end.

Definition depositPurchase (row : AnyRow)
    (s : DepositPurchase.DepositPurchaseClinicSummary)
    : DepositPurchase.DepositPurchaseClinicSummary :=
  DepositPurchase.addRow
    (Binary64.round (numberFrom row "Total Retail Price"))
    (Binary64.round (numberFrom row "Total Selling Price"))
    (Binary64.round (numberFrom row "Total Discount"))
    (Binary64.round (numberFrom row "Total Final Price")) s.

Definition paymentMethodOf (row : AnyRow) : string :=
  orElse (stringFrom row "Payment Method") "Unknown".

Definition cashIn (row : AnyRow) (s : CashIn.CashInClinicSummary)
    : CashIn.CashInClinicSummary :=
  CashIn.addPayment (paymentMethodOf row) (Binary64.round (amountFrom row "Amount")) s.

(** The rows whose clinic code a plain object does not inherit: the rows
    that reach a summary. *)
Definition counted (jsonData : list AnyRow) : list AnyRow :=
  List.filter (fun row => negb (JSObject.inherited (clinicOf row))) jsonData.

End Effects.
End RowEffect.

(** ** Inputs of the worked examples *)

Module Examples.

(** A printer to run examples with: decimal digits of the integral
    part, as the host prints the integers used below. *)
Definition printer : NumberPrinter := fun q => pretty (Qfloor q).

(** The text of the built-in functions, as the common hosts give it. *)
Definition functionPrinter : FunctionPrinter :=
  fun key =>
    if String.eqb key "constructor" then "function Object() { [native code] }"%string
    else ("function " ++ key ++ "() { [native code] }")%string.

(** Grand totals with the given selling prices, discounts and total. *)
Definition revenueTotalsOf
    (treatmentSellingPrice productSellingPrice treatmentDiscount productDiscount
       total : NumberValue) : Revenue.RevenueTotals :=
  {| Revenue.Totals.treatmentRetailPrice := treatmentSellingPrice;
     Revenue.Totals.treatmentSellingPrice := treatmentSellingPrice;
     Revenue.Totals.treatmentDiscount := treatmentDiscount;
     Revenue.Totals.productRetailPrice := productSellingPrice;
     Revenue.Totals.productSellingPrice := productSellingPrice;
     Revenue.Totals.productDiscount := productDiscount;
     Revenue.Totals.total := total |}.

(** Grand totals with subtotals 500 + 300 - 50 - 20 and a given total. *)
Definition revenueTotals (total : Qc) : Revenue.RevenueTotals :=
  {| Revenue.Totals.treatmentRetailPrice := Finite (ofZ 600);
     Revenue.Totals.treatmentSellingPrice := Finite (ofZ 500);
     Revenue.Totals.treatmentDiscount := Finite (ofZ 50);
     Revenue.Totals.productRetailPrice := Finite (ofZ 400);
     Revenue.Totals.productSellingPrice := Finite (ofZ 300);
     Revenue.Totals.productDiscount := Finite (ofZ 20);
     Revenue.Totals.total := Finite total |}.

(** A clinic with total 1000, deposit 300 and voucher 200, as the
    accumulation leaves it. *)
Definition cashInRows : list AnyRow :=
  [ {[ "Clinic Code" := CString "JKT"; "Payment Method" := CString "Treatment Deposit";
       "Amount" := CNumber (ofZ 300) ]};
    {[ "Clinic Code" := CString "JKT"; "Payment Method" := CString "Cash";
       "Amount" := CString "Rp500" ]};
    {[ "Clinic Code" := CString "JKT";
       "Payment Method" := CString "Clinic Voucher - Value";
       "Amount" := CString "200" ]} ].

(** What the cash-in handler makes of them, clinic by clinic. *)
Definition cashInOutput : gmap string CashIn.CashInClinicSummary :=
  default ∅ (@CashIn.processedData printer functionPrinter cashInRows).

Definition cashInClinic : CashIn.CashInClinicSummary :=
  default (CashIn.newSummary "JKT") (cashInOutput !! "JKT"%string).

(** A deposit row with nothing but the three fields that decide whether
    it is kept. *)
Definition bareDepositRow : AnyRow :=
  {[ "Remaining Quantity" := CNumber (ofZ 1); "User ID" := CString "u-17";
     "Deposit Expiration Time" := CString "15/03/2024 10:30:00" ]}.

(** Two normalized deposit records, expiring on 15 and on 16 March 2024. *)
Definition depositRecord (userId : string) (day : Z) : Deposit.DepositInfoRow :=
  {| Deposit.clinicCode := "JKT"; Deposit.userId := userId;
     Deposit.omnicareId := ""; Deposit.userName := ""; Deposit.phoneNumber := "";
     Deposit.treatmentName := "Facial";
     Deposit.expirationDate := DateObject.ofCivil 2024 2 day |}.

Definition depositRecords : list Deposit.DepositInfoRow :=
  [depositRecord "u-15" 15; depositRecord "u-16" 16].

(** A revenue row: a treatment sold by clinic JKT. *)
Definition revenueRow : AnyRow :=
  {[ "Clinic Code" := CString "JKT"; "Purchase Item Type" := CString "Treatment";
     "Total Retail Price" := CNumber (ofZ 100); "Total Selling Price" := CString "90";
     "Total Discount" := CNumber (ofZ 10); "Total Final Price" := CNumber (ofZ 80) ]}.

(** The same sale under the clinic code "constructor", a key every plain
    object inherits. *)
Definition inheritedCodeRow : AnyRow :=
  {[ "Clinic Code" := CString "constructor"; "Purchase Item Type" := CString "Treatment";
     "Total Retail Price" := CNumber (ofZ 100); "Total Selling Price" := CString "90";
     "Total Discount" := CNumber (ofZ 10); "Total Final Price" := CNumber (ofZ 80) ]}.

End Examples.

(** ** Formatting dates *)

Module Text.

Definition digitChar (d : Z) : ascii := ascii_of_N (Z.to_N (48 + d)).

(** The decimal digits of [n >= 0] in front of [acc], least significant
    digit first; [fuel] bounds the number of digits. *)
Fixpoint decimalDigits (fuel : nat) (n : Z) (acc : string) : string :=
  match fuel with
  | O => acc
  | S fuel' =>
      let acc' := String (digitChar (n mod 10)) acc in
      if n <? 10 then acc' else decimalDigits fuel' (n / 10) acc'
  end.

(** [Number::toString] on an integer below 10^21 in magnitude: its decimal
    digits, after a minus sign when it is negative. *)
Definition integerToString (n : Z) : string :=
  if n <? 0 then String "-" (decimalDigits (S (Z.to_nat (Z.log2 (- n)))) (- n) EmptyString)
  else decimalDigits (S (Z.to_nat (Z.log2 n))) n EmptyString.

(** [String(x)] for what a getter of a date returns: an integer, or [NaN]. *)
Definition ofDateField (x : option Z) : string :=
  match x with
  | Some n => integerToString n
  | None => "NaN"
  end.

Fixpoint repeatChar (n : nat) (c : ascii) : string :=
  match n with
  | O => EmptyString
  | S n' => String c (repeatChar n' c)
  end.

(** [s.padStart(targetLength, fill)] for a one-character filler. *)
Definition padStart (targetLength : nat) (fill : ascii) (s : string) : string :=
  (repeatChar (targetLength - String.length s) fill ++ s)%string.

End Text.

Module DateGetters.

Definition getDate (d : Date) : option Z := DateTime.DateFromTime <$> timeValue d.
Definition getFullYear (d : Date) : option Z := DateTime.YearFromTime <$> timeValue d.

End DateGetters.

(** [formatDate]: [None] is [null] or [undefined]. *)
Definition formatDate (date : option Date) : string :=
  match date with
  | None => "N/A"
  | Some date =>
      let day := Text.padStart 2 "0" (Text.ofDateField (DateGetters.getDate date)) in
      let month :=
        Text.padStart 2 "0"
          (Text.ofDateField ((fun m => m + 1) <$> DateObject.getMonth date)) in
      let year := DateGetters.getFullYear date in
      (day ++ String "/" (month ++ String "/" (Text.ofDateField year)))%string
  end.

Definition toDateInputValue (date : Date) : string :=
  let yyyy := DateGetters.getFullYear date in
  let mm :=
    Text.padStart 2 "0"
      (Text.ofDateField ((fun m => m + 1) <$> DateObject.getMonth date)) in
  let dd := Text.padStart 2 "0" (Text.ofDateField (DateGetters.getDate date)) in
  (Text.ofDateField yyyy ++ String "-" (mm ++ String "-" dd))%string.

(** A deposit record whose expiration date is a valid date. *)
Definition validDate (r : Deposit.DepositInfoRow) : Prop :=
  is_Some (timeValue (Deposit.expirationDate r)).

(** The number [n / 10^k], as the grammar of numeric literals computes
    the value of [k] decimals. *)
Definition scaled (n k : Z) : Qc := Q2Qc (inject_Z n * Qpower (10 # 1) (- k)).

(** ** Sums over the rows of an upload *)

(** The sum of what [f] reads in each row. *)
Definition sumOf {R : Type} (f : R -> Qc) (rows : list R) : Qc :=
  foldr (fun row acc => (f row + acc)%Qc) 0%Qc rows.

Section Rows.
Context `{NumberPrinter}.

(** The rows of a clinic. *)
Definition rowsOf (code : string) (jsonData : list AnyRow) : list AnyRow :=
  List.filter (fun row => String.eqb (RowEffect.clinicOf row) code) jsonData.

Definition itemClass (row : AnyRow) : ItemClass :=
  classify (lowerStringFrom row "Purchase Item Type").

Definition isTreatment (row : AnyRow) : bool :=
  match itemClass row with Treatment => true | _ => false end.

Definition isProduct (row : AnyRow) : bool :=
  match itemClass row with Product => true | _ => false end.

(** What [f] reads in the rows of one class, 0 in the others. *)
Definition inClass (c : ItemClass) (f : AnyRow -> Qc) (row : AnyRow) : Qc :=
  match itemClass row, c with
  | Treatment, Treatment | Product, Product | Unclassified, Unclassified => f row
  | _, _ => 0%Qc
  end.

(** By how much the final price of a revenue row exceeds what its class
    contributes to the second checksum: selling price less discount for a
    treatment or a product, nothing for another row. *)
Definition rowDiscrepancy (row : AnyRow) : Qc :=
  match itemClass row with
  | Unclassified => numberFrom row "Total Final Price"
  | _ =>
      (numberFrom row "Total Final Price"
       - (numberFrom row "Total Selling Price" - numberFrom row "Total Discount"))%Qc
  end.

(** Whether a cash-in row is neither a deposit nor a voucher payment. *)
Definition isOtherPayment (row : AnyRow) : bool :=
  negb (String.eqb (RowEffect.paymentMethodOf row) "Treatment Deposit")
  && negb (CashIn.isVoucher (RowEffect.paymentMethodOf row)).

(** The rows that carry a payment-method label. *)
Definition labelRows (label : string) (rows : list AnyRow) : list AnyRow :=
  List.filter (fun row => String.eqb (RowEffect.paymentMethodOf row) label) rows.

(** Whether no payment method of the rows is a key every plain object
    inherits. *)
Definition plainMethods (jsonData : list AnyRow) : bool :=
  forallb (fun row => negb (JSObject.inherited (RowEffect.paymentMethodOf row))) jsonData.

(** Whether no clinic code of the rows is such a key. *)
Definition plainClinics (jsonData : list AnyRow) : bool :=
  forallb (fun row => negb (JSObject.inherited (RowEffect.clinicOf row))) jsonData.

End Rows.

(** ** Whole amounts *)

(** A whole number. *)
Definition integral (q : Qc) : bool := (Qden q =? 1)%positive.

(** Whether the cells of the rows in the given columns are whole numbers
    whose magnitudes add up to [2^53] at most.  Binary64 holds every
    integer up to [2^53], so no sum of such cells is rounded.  The amounts
    are rupiah, which the source takes to have no decimals. *)
Definition wholeAmounts (columns : list (AnyRow -> Qc)) (rows : list AnyRow) : bool :=
  forallb (fun row => forallb (fun column => integral (column row)) columns) rows
  && Qc_leb (sumOf (fun row => sumOf (fun column => Math_abs (column row)) columns) rows)
            (ofZ (2 ^ 53)).

(** The four price columns of a revenue or deposit-purchase upload. *)
Definition retailPriceOf (row : AnyRow) : Qc := numberFrom row "Total Retail Price".
Definition sellingPriceOf (row : AnyRow) : Qc := numberFrom row "Total Selling Price".
Definition discountOf (row : AnyRow) : Qc := numberFrom row "Total Discount".
Definition finalPriceOf (row : AnyRow) : Qc := numberFrom row "Total Final Price".

Definition priceColumns : list (AnyRow -> Qc) :=
  [retailPriceOf; sellingPriceOf; discountOf; finalPriceOf].

(** The amount column of a cash-in upload. *)
Definition amountOf (row : AnyRow) : Qc := amountFrom row "Amount".

Definition amountColumns : list (AnyRow -> Qc) := [amountOf].


(** ** The summaries, as sums over the rows of a clinic *)

Module Sums.
Section Sums.
Context `{NumberPrinter}.

Definition revenue (code : string) (rows : list AnyRow) : Revenue.RevenueClinicSummary :=
  {| Revenue.clinicCode := code;
     Revenue.treatmentRetailPrice := Finite (sumOf (inClass Treatment retailPriceOf) rows);
     Revenue.treatmentSellingPrice := Finite (sumOf (inClass Treatment sellingPriceOf) rows);
     Revenue.treatmentDiscount := Finite (sumOf (inClass Treatment discountOf) rows);
     Revenue.productRetailPrice := Finite (sumOf (inClass Product retailPriceOf) rows);
     Revenue.productSellingPrice := Finite (sumOf (inClass Product sellingPriceOf) rows);
     Revenue.productDiscount := Finite (sumOf (inClass Product discountOf) rows);
     Revenue.total := Finite (sumOf finalPriceOf rows) |}.

Definition depositPurchase (code : string) (rows : list AnyRow)
    : DepositPurchase.DepositPurchaseClinicSummary :=
  {| DepositPurchase.clinicCode := code;
     DepositPurchase.totalRetailPrice := Finite (sumOf retailPriceOf rows);
     DepositPurchase.totalSellingPrice := Finite (sumOf sellingPriceOf rows);
     DepositPurchase.totalDiscount := Finite (sumOf discountOf rows);
     DepositPurchase.total := Finite (sumOf finalPriceOf rows) |}.

(** The amounts of the rows, label by label. *)
Definition amountsByLabel (rows : list AnyRow) : gmap string Qc :=
  foldl (upsert RowEffect.paymentMethodOf (fun _ => 0%Qc)
                (fun row q => (q + amountOf row)%Qc))
        ∅ rows.

(** The rows paid by deposit, by voucher, and the others. *)
Definition depositRows (rows : list AnyRow) : list AnyRow :=
  List.filter (fun row => String.eqb (RowEffect.paymentMethodOf row) "Treatment Deposit")
              rows.

Definition voucherRows (rows : list AnyRow) : list AnyRow :=
  List.filter (fun row => CashIn.isVoucher (RowEffect.paymentMethodOf row)) rows.

Definition otherRows (rows : list AnyRow) : list AnyRow :=
  List.filter isOtherPayment rows.

(** The summary of a clinic as the pipeline puts it out. *)
Definition cashIn (code : string) (rows : list AnyRow) : CashIn.CashInClinicSummary :=
  {| CashIn.clinicCode := code;
     CashIn.paymentMethodTotals :=
       (fun q => CashIn.Amount (Finite q)) <$> amountsByLabel rows;
     CashIn.deposit := Finite (sumOf amountOf (depositRows rows));
     CashIn.voucher := Finite (sumOf amountOf (voucherRows rows));
     CashIn.nonDepositVoucher := Finite (sumOf amountOf (otherRows rows));
     CashIn.total := Finite (sumOf amountOf rows) |}.

End Sums.
End Sums.

(** ** What the upload handlers store, and the totals derived from it *)

Module State.
Section Upload.
Context `{NumberPrinter} `{FunctionPrinter} `{Collator}.

(** The comparator of [handleFileUpload]: the clinic codes, then the
    expiration times; a difference that is [NaN] counts as 0 in a sort. *)
Definition compareDeposits (a b : Deposit.DepositInfoRow) : Z :=
  let clinicCompare := localeCompare (Deposit.clinicCode a) (Deposit.clinicCode b) in
  if negb (clinicCompare =? 0) then clinicCompare
  else
    match timeValue (Deposit.expirationDate a), timeValue (Deposit.expirationDate b) with
    | Some x, Some y => x - y
    | _, _ => 0
    end.

(** [allDepositRows] after [handleFileUpload]. *)
Definition allDepositRows (jsonData : list AnyRow) : list Deposit.DepositInfoRow :=
  JSArray.sort compareDeposits (Deposit.processedRows jsonData).

(** The keys of [clinicMap], as the rows created them. *)
Definition clinicKeys (jsonData : list AnyRow) : list string :=
  JSObject.guardedKeys RowEffect.clinicOf jsonData.

(** [revenueData] after [handleRevenueUpload]. *)
Definition revenueData (jsonData : list AnyRow) : list Revenue.RevenueClinicSummary :=
  JSArray.sort
    (fun a b => localeCompare (Revenue.clinicCode a) (Revenue.clinicCode b))
    (JSObject.values (Revenue.clinicMap jsonData) (clinicKeys jsonData)).

(** [depositPurchaseData] after [handleDepositPurchaseUpload]. *)
Definition depositPurchaseData (jsonData : list AnyRow)
    : list DepositPurchase.DepositPurchaseClinicSummary :=
  JSArray.sort
    (fun a b => localeCompare (DepositPurchase.clinicCode a) (DepositPurchase.clinicCode b))
    (JSObject.values (DepositPurchase.clinicMap jsonData) (clinicKeys jsonData)).

(** What [handleCashinUpload] passes to [setCashinData]; [None] when a
    row threw, and the handler reports an error instead. *)
Definition cashinData (jsonData : list AnyRow)
    : option (list CashIn.CashInClinicSummary) :=
  match CashIn.clinicMap jsonData with
  | Some clinicMap =>
      Some (JSArray.sort
              (fun a b => localeCompare (CashIn.clinicCode a) (CashIn.clinicCode b))
              (CashIn.withNonDepositVoucher
                 <$> JSObject.values clinicMap (clinicKeys jsonData)))
  | None => None
  end.

(** [methods] in a row of the cash-in table: the entries of the
    [paymentMethodTotals] of a clinic, by label.  The labels were created by
    the rows of the clinic, in their order. *)
Definition methods (jsonData : list AnyRow) (clinic : CashIn.CashInClinicSummary)
    : list (string * CashIn.Entry) :=
  JSArray.sort
    (fun a b => localeCompare (fst a) (fst b))
    (JSObject.entries (CashIn.paymentMethodTotals clinic)
       (JSObject.writtenKeys RowEffect.paymentMethodOf
          (rowsOf (CashIn.clinicCode clinic) jsonData))).

End Upload.
End State.

Module DepositPurchaseTotals.

Record Totals := {
  totalRetailPrice : NumberValue;
  totalSellingPrice : NumberValue;
  totalDiscount : NumberValue;
  total : NumberValue;
}.

(** [depositPurchaseTotals]: [null] without data, else the field-wise sum. *)
Definition depositPurchaseTotals
    (depositPurchaseData : list DepositPurchase.DepositPurchaseClinicSummary)
    : option Totals :=
  if (length depositPurchaseData =? 0)%nat then None
  else
    Some (foldl
      (fun acc clinic =>
         {| totalRetailPrice :=
              Binary64.add (totalRetailPrice acc) (DepositPurchase.totalRetailPrice clinic);
            totalSellingPrice :=
              Binary64.add (totalSellingPrice acc) (DepositPurchase.totalSellingPrice clinic);
            totalDiscount :=
              Binary64.add (totalDiscount acc) (DepositPurchase.totalDiscount clinic);
            total := Binary64.add (total acc) (DepositPurchase.total clinic) |})
      {| totalRetailPrice := Finite 0; totalSellingPrice := Finite 0;
         totalDiscount := Finite 0; total := Finite 0 |}
      depositPurchaseData).

End DepositPurchaseTotals.

Module CashInTotals.

Record Totals := {
  nonDepositVoucher : NumberValue;
  total : NumberValue;
}.

(** [cashinTotals]: [null] without data, else the two sums. *)
Definition cashinTotals (cashinData : list CashIn.CashInClinicSummary) : option Totals :=
  if (length cashinData =? 0)%nat then None
  else
    Some (foldl
      (fun acc clinic =>
         {| nonDepositVoucher :=
              Binary64.add (nonDepositVoucher acc) (CashIn.nonDepositVoucher clinic);
            total := Binary64.add (total acc) (CashIn.total clinic) |})
      {| nonDepositVoucher := Finite 0; total := Finite 0 |}
      cashinData).

End CashInTotals.

(** ** Inputs of further worked examples *)

Module Samples.

(** The order of the code units, as a collator. *)
Fixpoint codeUnitCompare (a b : string) : Z :=
  match a, b with
  | EmptyString, EmptyString => 0
  | EmptyString, String _ _ => -1
  | String _ _, EmptyString => 1
  | String x a', String y b' =>
      if Str.code x =? Str.code y then codeUnitCompare a' b' else Str.code x - Str.code y
  end.

Definition collator : Collator := codeUnitCompare.

(** Revenue rows of two clinics and of a row without a clinic code. *)
Definition revenueRow (clinic itemType : string) (retail selling discount final : Z)
    : AnyRow :=
  {[ "Clinic Code" := CString clinic; "Purchase Item Type" := CString itemType;
     "Total Retail Price" := CNumber (ofZ retail);
     "Total Selling Price" := CNumber (ofZ selling);
     "Total Discount" := CNumber (ofZ discount);
     "Total Final Price" := CNumber (ofZ final) ]}.

Definition revenueRows : list AnyRow :=
  [ revenueRow "SBY" "Treatment" 100 90 10 80;
    revenueRow "JKT" "Product" 50 50 5 45;
    revenueRow "" "Treatment" 30 30 0 30;
    revenueRow "JKT" "treatment" 200 180 20 160;
    revenueRow "12" "Voucher" 10 10 0 10 ].

(** Three sales of one clinic, the first of [2^53]: past that number
    binary64 keeps the even integers only. *)
Definition largeRevenueRows : list AnyRow :=
  [ revenueRow "JKT" "Treatment" (2 ^ 53) (2 ^ 53) 0 (2 ^ 53);
    revenueRow "JKT" "Treatment" 1 1 0 1;
    revenueRow "JKT" "Treatment" 1 1 0 1 ].

(** A cash-in row. *)
Definition cashInRow (clinic paymentMethod : string) (amount : Z) : AnyRow :=
  {[ "Clinic Code" := CString clinic; "Payment Method" := CString paymentMethod;
     "Amount" := CNumber (ofZ amount) ]}.

Definition cashInRows : list AnyRow :=
  [ cashInRow "SBY" "Cash" 700;
    cashInRow "JKT" "Treatment Deposit" 300;
    cashInRow "JKT" "Cash" 500;
    cashInRow "JKT" "Clinic Voucher - Value" 200;
    cashInRow "SBY" "Clinic Voucher - Treatment" 50;
    cashInRow "JKT" "Cash" 25 ].

(** Payments of one clinic, the first of [2^53]. *)
Definition largeCashInRows : list AnyRow :=
  [ cashInRow "JKT" "Cash" (2 ^ 53);
    cashInRow "JKT" "Transfer" 1;
    cashInRow "JKT" "Transfer" 1 ].

(** Two payments under the label "constructor". *)
Definition inheritedLabelRows : list AnyRow :=
  [ cashInRow "JKT" "constructor" 57; cashInRow "JKT" "constructor" 3 ].

(** The summary the cash-in handler puts out for clinic JKT. *)
Definition cashInClinic (jsonData : list AnyRow) : CashIn.CashInClinicSummary :=
  default (CashIn.newSummary "JKT")
    (default ∅ (@CashIn.processedData Examples.printer Examples.functionPrinter jsonData)
       !! "JKT"%string).

(** Deposit rows of two clinics. *)
Definition depositRow (clinic user expiration : string) : AnyRow :=
  {[ "Deposit Purchase Clinic Code" := CString clinic;
     "Remaining Quantity" := CNumber (ofZ 1); "User ID" := CString user;
     "Deposit Expiration Time" := CString expiration ]}.

Definition depositRows : list AnyRow :=
  [ depositRow "SBY" "u-1" "20/03/2024 10:00:00";
    depositRow "JKT" "u-2" "25/03/2024";
    depositRow "JKT" "u-3" "16/02/2024 23:59:59";
    depositRow "JKT" "u-4" "01/01/2024" ].

End Samples.

(** ** Proof automation *)

(** Statements on [Qc] read on [Q], where [lra] decides them. *)
Ltac to_Q := unfold Qclt, Qcle in *; simpl in *; rewrite ?Qred_correct in *.

(** A string of characters known to be digits is a string of digits. *)
Ltac digits :=
  cbn [Str.all];
  repeat match goal with
         | H : Str.isDigit ?c = true |- context [Str.isDigit ?c] => rewrite H
         end;
  reflexivity.

(** The twelve cases of a month index [m], from [H : 0 <= m < 12]. *)
Ltac each_month H :=
  match type of H with
  | 0 <= ?m < 12 =>
      let C := fresh "C" in
      assert (C : m = 0 \/ m = 1 \/ m = 2 \/ m = 3 \/ m = 4 \/ m = 5 \/ m = 6
                  \/ m = 7 \/ m = 8 \/ m = 9 \/ m = 10 \/ m = 11) by lia;
      destruct C as
        [-> | [-> | [-> | [-> | [-> | [-> | [-> | [-> | [-> | [-> | [-> | ->]]]]]]]]]]]
  end.

(** Case analysis on the comparisons of the goal, closing what [lia] can. *)
Ltac decide_tests :=
  repeat match goal with
         | |- context [?a <? ?b] => destruct (Z.ltb_spec a b); try lia
         | |- context [?a <=? ?b] => destruct (Z.leb_spec a b); try lia
         end.

(** Two numbers that evaluate to the same value. *)
Ltac number_eq :=
  vm_compute;
  repeat match goal with
         | |- Some _ = Some _ => f_equal
         | |- Finite _ = Finite _ => f_equal
         | |- CashIn.Amount _ = CashIn.Amount _ => f_equal
         end;
  first [reflexivity | apply Qc_is_canon; reflexivity].

(** * Properties *)

(** ** Order and arithmetic on numbers *)

Lemma Qc_ltb_true (x y : Qc) : Qc_ltb x y = true <-> (x < y)%Qc.
Proof. unfold Qc_ltb. apply bool_decide_eq_true. Qed.

Lemma Qc_ltb_false (x y : Qc) : Qc_ltb x y = false <-> ~ (x < y)%Qc.
Proof. unfold Qc_ltb. apply bool_decide_eq_false. Qed.

Lemma Qc_leb_true (x y : Qc) : Qc_leb x y = true <-> (x <= y)%Qc.
Proof. unfold Qc_leb. apply bool_decide_eq_true. Qed.

Lemma Qc_leb_false (x y : Qc) : Qc_leb x y = false <-> ~ (x <= y)%Qc.
Proof. unfold Qc_leb. apply bool_decide_eq_false. Qed.

Lemma Math_abs_lt (x t : Qc) : (Math_abs x < t)%Qc <-> (- t < x /\ x < t)%Qc.
Proof.
  unfold Math_abs. destruct (Qc_ltb x 0) eqn:E.
  - apply Qc_ltb_true in E. to_Q. lra.
  - apply Qc_ltb_false in E. to_Q. lra.
Qed.

Lemma Math_abs_nonneg (x : Qc) : (0 <= Math_abs x)%Qc.
Proof.
  unfold Math_abs. destruct (Qc_ltb x 0) eqn:E.
  - apply Qc_ltb_true in E. to_Q. lra.
  - apply Qc_ltb_false in E. to_Q. lra.
Qed.


(** ** Dictionaries and folds *)

(** Creating the entry of a key when it is missing and then updating it in
    place is one insertion. *)
Lemma alter_after_init {V} (m : gmap string V) (k : string) (z : V) (f : V -> V) :
  alter f k (match m !! k with None => <[k:=z]> m | Some _ => m end)
  = <[k := f (default z (m !! k))]> m.
Proof.
  apply map_eq. intros i. destruct (decide (k = i)) as [->|Hne].
  - destruct (m !! i) eqn:E; simpl.
    + rewrite lookup_alter_eq, lookup_insert_eq, E. reflexivity.
    + rewrite lookup_alter_eq, !lookup_insert_eq. reflexivity.
  - destruct (m !! k) eqn:E; simpl.
    + rewrite lookup_alter_ne, lookup_insert_ne by done. reflexivity.
    + rewrite lookup_alter_ne, !lookup_insert_ne by done. reflexivity.
Qed.

Lemma foldl_permutation {A B} (f : A -> B -> A) :
  (forall a x y, f (f a x) y = f (f a y) x) ->
  forall l l', l ≡ₚ l' -> forall a, foldl f a l = foldl f a l'.
Proof.
  intros Hf l l' Hp. induction Hp; intros a; simpl.
  - reflexivity.
  - apply IHHp.
  - rewrite Hf. reflexivity.
  - rewrite IHHp1. apply IHHp2.
Qed.

Lemma foldl_snoc {A B} (f : A -> B -> A) (a : A) (l : list B) (x : B) :
  foldl f a (l ++ [x]) = f (foldl f a l) x.
Proof. revert a. induction l as [|y l IH]; intros a; simpl; [reflexivity | apply IH]. Qed.
(** ** Deposit normalizer *)

Lemma isEmpty_true (s : string) : Str.isEmpty s = true <-> s = EmptyString.
Proof. destruct s; simpl; split; congruence. Qed.

Lemma isEmpty_false (s : string) : Str.isEmpty s = false <-> s <> EmptyString.
Proof. destruct s; simpl; split; congruence. Qed.

(** C4. A raw row yields a retained record exactly when its "Remaining
    Quantity" read by [numberFrom] is above 0, its "User ID" read by
    [stringFrom] is not empty and its "Deposit Expiration Time" parses;
    the normalized rows are the records of exactly those rows, whatever
    the other fields hold: a blank clinic code reads "Unknown", the other
    blank fields stay blank. *)
Theorem deposit_inclusion `{NumberPrinter} :
  (forall row : AnyRow,
     (Deposit.hasRemainingQuantity row = true /\ is_Some (Deposit.pushed row))
     <-> ((0 < numberFrom row "Remaining Quantity")%Qc
          /\ stringFrom row "User ID" <> EmptyString
          /\ is_Some (parseDate (get row "Deposit Expiration Time"))))
  /\ (forall (jsonData : list AnyRow) (record : Deposit.DepositInfoRow),
        record ∈ Deposit.processedRows jsonData
        <-> exists row expirationDate,
              row ∈ jsonData
              /\ (0 < numberFrom row "Remaining Quantity")%Qc
              /\ stringFrom row "User ID" <> EmptyString
              /\ parseDate (get row "Deposit Expiration Time") = Some expirationDate
              /\ record =
                   {| Deposit.clinicCode :=
                        orElse (stringFrom row "Deposit Purchase Clinic Code") "Unknown";
                      Deposit.userId := stringFrom row "User ID";
                      Deposit.omnicareId :=
                        orElse (stringFrom row "Omnicare Id") (stringFrom row "Omnicare ID");
                      Deposit.userName := stringFrom row "Name";
                      Deposit.phoneNumber := stringFrom row "Phone Number";
                      Deposit.treatmentName := stringFrom row "Treatment Display Name";
                      Deposit.expirationDate := expirationDate |}).
Proof.
  assert (Hpushed : forall row record,
    Deposit.pushed row = Some record
    <-> exists expirationDate,
          stringFrom row "User ID" <> EmptyString
          /\ parseDate (get row "Deposit Expiration Time") = Some expirationDate
          /\ record =
               {| Deposit.clinicCode :=
                    orElse (stringFrom row "Deposit Purchase Clinic Code") "Unknown";
                  Deposit.userId := stringFrom row "User ID";
                  Deposit.omnicareId :=
                    orElse (stringFrom row "Omnicare Id") (stringFrom row "Omnicare ID");
                  Deposit.userName := stringFrom row "Name";
                  Deposit.phoneNumber := stringFrom row "Phone Number";
                  Deposit.treatmentName := stringFrom row "Treatment Display Name";
                  Deposit.expirationDate := expirationDate |}).
  { intros row record. unfold Deposit.pushed.
    assert (Ho : forall a b, orElse (orElse a b) EmptyString = orElse a b).
    { intros a b. unfold orElse. destruct a, b; reflexivity. }
    rewrite Ho.
    destruct (parseDate (get row "Deposit Expiration Time")) as [d|].
    - destruct (Str.isEmpty (stringFrom row "User ID")) eqn:E.
      + apply isEmpty_true in E. split; [discriminate |].
        intros (d' & Hu & _). contradiction.
      + apply isEmpty_false in E. split.
        * intros [= <-]. exists d. auto.
        * intros (d' & _ & [= <-] & ->). reflexivity.
    - split; [discriminate |]. intros (d' & _ & Hd & _). discriminate. }
  split.
  - intros row. unfold Deposit.hasRemainingQuantity. rewrite Qc_ltb_true. split.
    + intros [Hq [record Hr]]. apply Hpushed in Hr as (d & Hu & Hd & _).
      rewrite Hd. eauto.
    + intros (Hq & Hu & [d Hd]). split; [exact Hq |].
      eexists. apply Hpushed. eauto.
  - intros jsonData record. unfold Deposit.processedRows.
    rewrite list_elem_of_omap. split.
    + intros (row & Hin & Hr). rewrite list_elem_of_In, filter_In in Hin.
      destruct Hin as [Hin Hq]. apply Qc_ltb_true in Hq.
      apply Hpushed in Hr as (d & Hu & Hd & ->).
      exists row, d. rewrite list_elem_of_In. auto.
    + intros (row & d & Hin & Hq & Hu & Hd & ->). exists row. split.
      * rewrite list_elem_of_In, filter_In. rewrite <- list_elem_of_In.
        split; [exact Hin | apply Qc_ltb_true; exact Hq].
      * apply Hpushed. eauto.
Qed.

Lemma deposit_inclusion_witness :
  ((0 < numberFrom Examples.bareDepositRow "Remaining Quantity")%Qc
   /\ @stringFrom Examples.printer Examples.bareDepositRow "User ID" <> EmptyString
   /\ is_Some (parseDate (get Examples.bareDepositRow "Deposit Expiration Time")))
  /\ is_Some (@Deposit.pushed Examples.printer Examples.bareDepositRow).
Proof.
  assert (Hc : (0 < numberFrom Examples.bareDepositRow "Remaining Quantity")%Qc
               /\ @stringFrom Examples.printer Examples.bareDepositRow "User ID"
                  <> EmptyString
               /\ is_Some (parseDate (get Examples.bareDepositRow "Deposit Expiration Time"))).
  { split; [vm_compute; reflexivity |]. split; [discriminate |].
    vm_compute. eexists. reflexivity. }
  split; [exact Hc |].
  destruct (@deposit_inclusion Examples.printer) as [Hrow _].
  apply (Hrow Examples.bareDepositRow). exact Hc.
Defined.

(** A row with only the three deciding fields is kept, with the clinic
    code "Unknown" and the other fields blank. *)
Example deposit_bare_row_kept :
  @Deposit.processedRows Examples.printer [Examples.bareDepositRow]
  = [ {| Deposit.clinicCode := "Unknown"; Deposit.userId := "u-17";
         Deposit.omnicareId := ""; Deposit.userName := ""; Deposit.phoneNumber := "";
         Deposit.treatmentName := "";
         Deposit.expirationDate := DateObject.ofCivil 2024 2 15 |} ].
Proof. vm_compute. reflexivity. Qed.

(** ** Digit strings and [Number] *)

Section DigitStrings.
Import Str.

Lemma isDigit_code c : isDigit c = true <-> 48 <= code c <= 57.
Proof. unfold isDigit. rewrite andb_true_iff, !Z.leb_le. tauto. Qed.

Lemma isDigit_not_whiteSpace c : isDigit c = true -> isWhiteSpace c = false.
Proof.
  rewrite isDigit_code. intros Hc. unfold isWhiteSpace.
  rewrite !orb_false_iff, andb_false_iff, !Z.leb_gt, !Z.eqb_neq. lia.
Qed.

Lemma trimEnd_digits s : all isDigit s = true -> trimEnd s = s.
Proof.
  induction s as [|c r IH]; simpl; [reflexivity |].
  rewrite andb_true_iff. intros [Hc Hr]. rewrite (IH Hr).
  destruct r; [| reflexivity].
  rewrite (isDigit_not_whiteSpace _ Hc). reflexivity.
Qed.

Lemma trim_digits s : all isDigit s = true -> trim s = s.
Proof.
  intros Hs. unfold trim.
  assert (trimStart s = s) as ->.
  { destruct s as [|c r]; simpl in *; [reflexivity |].
    apply andb_true_iff in Hs as [Hc _].
    rewrite (isDigit_not_whiteSpace _ Hc). reflexivity. }
  apply trimEnd_digits. exact Hs.
Qed.

Lemma spanDigits_digits s : all isDigit s = true -> spanDigits s = (s, EmptyString).
Proof.
  induction s as [|c r IH]; simpl; [reflexivity |].
  rewrite andb_true_iff. intros [Hc Hr]. rewrite Hc, (IH Hr). reflexivity.
Qed.

Lemma digitsOnly_all s : all isDigit (digitsOnly s) = true.
Proof.
  induction s as [|c r IH]; simpl; [reflexivity |].
  destruct (isDigit c) eqn:E; simpl; [rewrite E |]; exact IH.
Qed.

Lemma append_empty (s : string) : (s ++ "")%string = s.
Proof.
  induction s as [|a s IH]; [reflexivity |].
  change (String a (s ++ "")%string = String a s). rewrite IH. reflexivity.
Qed.

Lemma Number_digits (d : string) :
  d <> EmptyString -> all isDigit d = true ->
  Number_ofString d = roundToNumber (ofZ (decimalValue d)).
Proof.
  intros Hne Hd. unfold Number_ofString, StringToNumber.Number.
  rewrite (trim_digits _ Hd).
  destruct d as [|c r]; [contradiction |]. simpl isEmpty. cbv iota.
  pose proof Hd as Hd'. simpl in Hd'. apply andb_true_iff in Hd' as [Hc Hr].
  pose proof (proj1 (isDigit_code c) Hc) as Hcode.
  assert (StringToNumber.nonDecimal (String c r) = None) as ->.
  { unfold StringToNumber.nonDecimal. destruct r as [|c2 r2]; [reflexivity |].
    simpl in Hr. apply andb_true_iff in Hr as [Hc2 _].
    apply isDigit_code in Hc2.
    destruct (code c =? 48); simpl; [| reflexivity].
    replace (code c2 =? 120) with false by (symmetry; apply Z.eqb_neq; lia).
    replace (code c2 =? 88) with false by (symmetry; apply Z.eqb_neq; lia).
    replace (code c2 =? 111) with false by (symmetry; apply Z.eqb_neq; lia).
    replace (code c2 =? 79) with false by (symmetry; apply Z.eqb_neq; lia).
    replace (code c2 =? 98) with false by (symmetry; apply Z.eqb_neq; lia).
    replace (code c2 =? 66) with false by (symmetry; apply Z.eqb_neq; lia).
    reflexivity. }
  unfold StringToNumber.strDecimalLiteral, StringToNumber.signOf.
  replace (code c =? 43) with false by (symmetry; apply Z.eqb_neq; lia).
  replace (code c =? 45) with false by (symmetry; apply Z.eqb_neq; lia).
  assert (String.eqb (String c r) "Infinity" = false) as ->.
  { apply String.eqb_neq. intros [= -> _]. change (code "I") with 73 in Hcode. lia. }
  unfold StringToNumber.unsignedDecimal.
  rewrite (spanDigits_digits _ Hd). simpl isEmpty. simpl andb. cbv iota.
  unfold StringToNumber.exponentPart. rewrite append_empty.
  f_equal. unfold ofZ. apply Qc_is_canon. simpl. rewrite !Qred_correct.
  simpl. ring.
Qed.

Lemma ofZ_le (a b : Z) : (ofZ a <= ofZ b)%Qc <-> a <= b.
Proof.
  unfold Qcle, ofZ. simpl. rewrite !Qred_correct, <- Zle_Qle. reflexivity.
Qed.

Lemma ofZ_lt (a b : Z) : (ofZ a < ofZ b)%Qc <-> a < b.
Proof.
  unfold Qclt, ofZ. simpl. rewrite !Qred_correct, <- Zlt_Qlt. reflexivity.
Qed.

Lemma ofZ_0 : ofZ 0 = 0%Qc.
Proof. apply Qc_is_canon. reflexivity. Qed.

Lemma Math_abs_ofZ (v : Z) : 0 <= v -> Math_abs (ofZ v) = ofZ v.
Proof.
  intros Hv. unfold Math_abs.
  assert (Qc_ltb (ofZ v) 0 = false) as ->; [| reflexivity].
  apply Qc_ltb_false. rewrite <- ofZ_0, ofZ_lt. lia.
Qed.

Lemma underflowThreshold_lt_1 : (underflowThreshold < ofZ 1)%Qc.
Proof. vm_compute. reflexivity. Qed.

Lemma digitsValue_nonneg (s : string) (acc : Z) :
  all isDigit s = true -> 0 <= acc -> 0 <= digitsValue 10 digitValue acc s.
Proof.
  revert acc. induction s as [|c r IH]; intros acc; simpl; [intros _ Ha; exact Ha |].
  rewrite andb_true_iff. intros [Hc Hr] Ha. apply IH; [exact Hr |].
  apply isDigit_code in Hc. unfold digitValue. lia.
Qed.

Lemma decimalValue_nonneg (s : string) : all isDigit s = true -> 0 <= decimalValue s.
Proof. intros Hs. apply digitsValue_nonneg; [exact Hs | lia]. Qed.

Lemma roundToNumber_ofZ (v : Z) :
  0 <= v ->
  roundToNumber (ofZ v)
  = if overflowThreshold <=? v then Infinity false else Finite (ofZ v).
Proof.
  intros Hv. unfold roundToNumber. rewrite (Math_abs_ofZ _ Hv).
  destruct (Z.leb_spec overflowThreshold v) as [Ho|Ho].
  - assert (Qc_leb (ofZ overflowThreshold) (ofZ v) = true) as ->
      by (apply Qc_leb_true, ofZ_le; exact Ho).
    f_equal. apply Qc_ltb_false. rewrite <- ofZ_0, ofZ_lt. lia.
  - assert (Qc_leb (ofZ overflowThreshold) (ofZ v) = false) as ->
      by (apply Qc_leb_false; rewrite ofZ_le; lia).
    destruct (Qc_leb (ofZ v) underflowThreshold) eqn:E; [| reflexivity].
    apply Qc_leb_true in E. f_equal.
    assert (v < 1); [| replace v with 0 by lia; symmetry; apply ofZ_0].
    apply ofZ_lt. eapply Qcle_lt_trans; [exact E | apply underflowThreshold_lt_1].
Qed.

Lemma overflowThreshold_pos : 0 < overflowThreshold.
Proof. reflexivity. Qed.

Lemma get_insert (row : AnyRow) (key : string) (c : cell) :
  get (<[key := c]> row) key = c.
Proof. unfold get. rewrite lookup_insert_eq. reflexivity. Qed.

(** [amountFrom] on text: the integer its digits write, or 0 when that
    integer is too large for a finite number. *)
Lemma amountFrom_string (row : AnyRow) (key s : string) :
  get row key = CString s ->
  amountFrom row key
  = if decimalValue (digitsOnly s) <? overflowThreshold
    then ofZ (decimalValue (digitsOnly s)) else 0%Qc.
Proof.
  intros Hg. unfold amountFrom. rewrite Hg.
  pose proof (digitsOnly_all s) as Hd.
  destruct (digitsOnly s) as [|c r] eqn:E.
  - simpl. symmetry. apply ofZ_0.
  - simpl isEmpty. cbv iota. rewrite (Number_digits (String c r)) by (congruence || exact Hd).
    rewrite roundToNumber_ofZ by (apply decimalValue_nonneg; exact Hd).
    destruct (Z.leb_spec overflowThreshold (decimalValue (String c r))) as [Ho|Ho];
      destruct (Z.ltb_spec (decimalValue (String c r)) overflowThreshold) as [Hl|Hl];
      try reflexivity; lia.
Qed.

Lemma digitsOnly_filter (s : string) :
  list_ascii_of_string (digitsOnly s)
  = List.filter isDigit (list_ascii_of_string s).
Proof.
  induction s as [|c r IH]; simpl; [reflexivity |].
  destruct (isDigit c); simpl; rewrite IH; reflexivity.
Qed.

End DigitStrings.

(** ** Currency amounts *)

(** C6. [amountFrom] hands a numeric cell on unchanged.  From a text cell
    it keeps the digits and nothing else, in their order, and returns what
    [Number] makes of them: the integer they write in decimal (shown here
    up to 2^53, the range in which a number holds every integer), never a
    negative amount, and 0 when there is no digit at all or when [Number]
    gives no finite value.  "Rp310.000", "310.000" and the number 310000
    all give 310000.  Any other cell, or a missing one, gives 0: the
    function has a value on every row and key. *)
Theorem amountFrom_coercion :
  (forall (row : AnyRow) (key : string) (n : Qc),
     amountFrom (<[key := CNumber n]> row) key = n)
  /\ (forall (row : AnyRow) (key s : string),
        let digits := Str.digitsOnly s in
        let amount := amountFrom (<[key := CString s]> row) key in
        list_ascii_of_string digits
        = List.filter Str.isDigit (list_ascii_of_string s)
        /\ amount
           = (if Str.isEmpty digits then 0%Qc
              else match Number_ofString digits with
                   | Finite n => n
                   | _ => 0%Qc
                   end)
        /\ (Str.decimalValue digits <= 2 ^ 53 -> amount = ofZ (Str.decimalValue digits))
        /\ (digits = EmptyString -> amount = 0%Qc)
        /\ (0 <= amount)%Qc)
  /\ (forall (row : AnyRow) (key : string),
        amountFrom (<[key := COther]> row) key = 0%Qc
        /\ amountFrom (delete key row) key = 0%Qc)
  /\ amountFrom {[ "Amount"%string := CString "Rp310.000" ]} "Amount" = ofZ 310000
  /\ amountFrom {[ "Amount"%string := CString "310.000" ]} "Amount" = ofZ 310000
  /\ amountFrom {[ "Amount"%string := CNumber (ofZ 310000) ]} "Amount" = ofZ 310000
  /\ amountFrom {[ "Amount"%string := CString "" ]} "Amount" = 0%Qc
  /\ amountFrom {[ "Amount"%string := CString "Rp -.," ]} "Amount" = 0%Qc.
Proof.
  split; [| split; [| split]].
  - intros row key n. unfold amountFrom. rewrite get_insert. reflexivity.
  - intros row key s digits amount.
    assert (Hv : amount
                 = if Str.decimalValue digits <? overflowThreshold
                   then ofZ (Str.decimalValue digits) else 0%Qc)
      by (apply amountFrom_string, get_insert).
    pose proof (decimalValue_nonneg digits (digitsOnly_all s)) as Hnn.
    split; [apply digitsOnly_filter |].
    split; [unfold amount, amountFrom; rewrite get_insert; reflexivity |].
    split; [| split].
    + intros Hle. rewrite Hv.
      assert (2 ^ 53 < overflowThreshold) by reflexivity.
      destruct (Z.ltb_spec (Str.decimalValue digits) overflowThreshold);
        [reflexivity | lia].
    + intros He. rewrite Hv, He. simpl. apply ofZ_0.
    + rewrite Hv. destruct (Str.decimalValue digits <? overflowThreshold).
      * rewrite <- ofZ_0. apply ofZ_le. exact Hnn.
      * apply Qcle_refl.
  - intros row key. unfold amountFrom, get.
    rewrite lookup_insert_eq, lookup_delete_eq. split; reflexivity.
  - repeat split; apply Qc_is_canon; vm_compute; reflexivity.
Qed.

Lemma amountFrom_coercion_witness :
  Str.decimalValue (Str.digitsOnly "Rp310.000") <= 2 ^ 53
  /\ amountFrom {[ "Amount"%string := CString "Rp310.000" ]} "Amount"
     = ofZ (Str.decimalValue (Str.digitsOnly "Rp310.000"))
  /\ Str.decimalValue (Str.digitsOnly "Rp310.000") = 310000.
Proof.
  assert (Hle : Str.decimalValue (Str.digitsOnly "Rp310.000") <= 2 ^ 53)
    by (vm_compute; discriminate).
  split; [exact Hle |]. split; [| reflexivity].
  destruct amountFrom_coercion as (_ & Htext & _).
  destruct (Htext ∅ "Amount"%string "Rp310.000"%string) as (_ & _ & Hexact & _).
  apply Hexact. exact Hle.
Defined.

(** C10. A numeric cell keeps its sign through [amountFrom]: the number
    -500 gives -500.  A text cell loses its minus sign with every other
    character that is not a digit, so "-500" and "(500)" give 500 and no
    text cell gives a negative amount. *)
Theorem amountFrom_sign_asymmetry :
  (forall (row : AnyRow) (key : string) (n : Qc),
     amountFrom (<[key := CNumber n]> row) key = n)
  /\ amountFrom {[ "Amount"%string := CNumber (ofZ (-500)) ]} "Amount" = ofZ (-500)
  /\ (forall (row : AnyRow) (key s : string),
        (0 <= amountFrom (<[key := CString s]> row) key)%Qc)
  /\ (forall s : string,
        Str.digitsOnly (String "-" s) = Str.digitsOnly s
        /\ amountFrom {[ "Amount"%string := CString (String "-" s) ]} "Amount"
           = amountFrom {[ "Amount"%string := CString s ]} "Amount")
  /\ amountFrom {[ "Amount"%string := CString "-500" ]} "Amount" = ofZ 500
  /\ amountFrom {[ "Amount"%string := CString "(500)" ]} "Amount" = ofZ 500.
Proof.
  split; [| split; [| split; [| split]]].
  - intros row key n. unfold amountFrom. rewrite get_insert. reflexivity.
  - apply Qc_is_canon. vm_compute. reflexivity.
  - intros row key s. rewrite (amountFrom_string _ key s) by apply get_insert.
    destruct (Str.decimalValue (Str.digitsOnly s) <? overflowThreshold).
    + rewrite <- ofZ_0. apply ofZ_le, decimalValue_nonneg, digitsOnly_all.
    + apply Qcle_refl.
  - intros s. split; [reflexivity |].
    rewrite (amountFrom_string _ "Amount" (String "-" s)) by apply get_insert.
    rewrite (amountFrom_string _ "Amount" s) by apply get_insert.
    reflexivity.
  - split; apply Qc_is_canon; vm_compute; reflexivity.
Qed.

(** ** Dates in cells *)

Section DateCells.
Import Str.

Lemma parseDate_Some (v : cell) (d : Date) :
  parseDate v = Some d
  <-> exists s dd mm yyyy day month year,
        v = CString s
        /\ split "/" (beforeSpace s) = [dd; mm; yyyy]
        /\ Number_ofString dd = Finite day
        /\ Number_ofString mm = Finite month
        /\ Number_ofString yyyy = Finite year
        /\ d = DateObject.create year (month - 1)%Qc day.
Proof.
  split.
  - destruct v as [s| |]; simpl; try discriminate.
    destruct (isEmpty s); [discriminate |]. fold (beforeSpace s).
    destruct (split "/" (beforeSpace s)) as [|dd [|mm [|yyyy [|]]]] eqn:Hs;
      try discriminate.
    destruct (Number_ofString dd) as [day| |] eqn:Hd; try discriminate;
      destruct (Number_ofString mm) as [month| |] eqn:Hm; try discriminate;
      destruct (Number_ofString yyyy) as [year| |] eqn:Hy; try discriminate.
    intros [= <-]. exists s, dd, mm, yyyy, day, month, year. repeat split; assumption.
  - intros (s & dd & mm & yyyy & day & month & year & -> & Hs & Hd & Hm & Hy & ->).
    simpl. fold (beforeSpace s). destruct s as [|c r].
    + discriminate Hs.
    + simpl isEmpty. cbv iota. rewrite Hs, Hd, Hm, Hy. reflexivity.
Qed.

Lemma isDigit_eqb (c : ascii) (n : Z) (k : ascii) :
  isDigit c = true -> code k = n -> (n < 48 \/ 57 < n) -> Ascii.eqb c k = false.
Proof.
  intros Hc Hk Hn. apply isDigit_code in Hc.
  destruct (Ascii.eqb_spec c k) as [->|]; [lia | reflexivity].
Qed.

(** A number written with at most 300 digits is finite. *)
Lemma digitsValue_bound (s : string) (acc : Z) :
  all isDigit s = true -> 0 <= acc ->
  digitsValue 10 digitValue acc s < (acc + 1) * 10 ^ Z.of_nat (String.length s).
Proof.
  revert acc. induction s as [|c r IH]; intros acc Hs Ha.
  - simpl. lia.
  - simpl in Hs. apply andb_true_iff in Hs as [Hc Hr]. apply isDigit_code in Hc.
    simpl digitsValue. 
    change (String.length (String c r)) with (S (String.length r)).
    rewrite Nat2Z.inj_succ, Z.pow_succ_r by lia.
    eapply Z.lt_le_trans; [apply IH; [exact Hr | unfold digitValue; lia] |].
    unfold digitValue.
    assert (0 < 10 ^ Z.of_nat (String.length r)) by (apply Z.pow_pos_nonneg; lia).
    nia.
Qed.

Lemma Number_short_digits (d : string) :
  d <> EmptyString -> all isDigit d = true -> (String.length d <= 300)%nat ->
  Number_ofString d = Finite (ofZ (decimalValue d)).
Proof.
  intros Hne Hd Hl. rewrite (Number_digits d Hne Hd).
  rewrite roundToNumber_ofZ by (apply decimalValue_nonneg; exact Hd).
  destruct (Z.leb_spec overflowThreshold (decimalValue d)) as [Ho|]; [| reflexivity].
  exfalso. pose proof (digitsValue_bound d 0 Hd ltac:(lia)) as Hb.
  fold (decimalValue d) in Hb.
  assert (10 ^ Z.of_nat (String.length d) <= 10 ^ 300)
    by (apply Z.pow_le_mono_r; lia).
  assert (10 ^ 300 < overflowThreshold) by reflexivity.
  lia.
Qed.

Lemma code_inj (a b : ascii) : code a = code b -> a = b.
Proof.
  unfold code. intros Hc. apply N2Z.inj in Hc.
  rewrite <- (ascii_N_embedding a), <- (ascii_N_embedding b), Hc. reflexivity.
Qed.






End DateCells.




(** ** Calendar arithmetic *)

Section Calendar.
Import DateTime.

Lemma isLeapYear_spec (y : Z) :
  isLeapYear y = true <-> (y mod 4 = 0 /\ (y mod 100 <> 0 \/ y mod 400 = 0)).
Proof.
  unfold isLeapYear.
  rewrite andb_true_iff, orb_true_iff, negb_true_iff, !Z.eqb_eq, Z.eqb_neq.
  tauto.
Qed.

Lemma DayFromYear_succ (y : Z) : DayFromYear (y + 1) = DayFromYear y + DaysInYear y.
Proof.
  unfold DayFromYear, DaysInYear.
  destruct (isLeapYear y) eqn:E.
  - apply isLeapYear_spec in E. Z.div_mod_to_equations. lia.
  - assert (~ (y mod 4 = 0 /\ (y mod 100 <> 0 \/ y mod 400 = 0)))
      by (rewrite <- isLeapYear_spec; congruence).
    Z.div_mod_to_equations. lia.
Qed.

Lemma DayFromYear_estimate (y : Z) :
  146097 * (y - 1970) - 600 <= 400 * DayFromYear y <= 146097 * (y - 1970) + 600.
Proof. unfold DayFromYear. Z.div_mod_to_equations. lia. Qed.

(** [YearFromTime t] is the year of [t]: the largest year that does not
    begin after the day of [t]. *)
Lemma YearFromTime_spec (t : Z) :
  DayFromYear (YearFromTime t) <= Day t < DayFromYear (YearFromTime t + 1).
Proof.
  unfold YearFromTime. set (d := Day t). set (y0 := 1970 + 400 * d / 146097).
  assert (Hy0 : 146097 * (y0 - 1970) <= 400 * d < 146097 * (y0 - 1970) + 146097)
    by (unfold y0; Z.div_mod_to_equations; lia).
  pose proof (DayFromYear_estimate (y0 - 1)) as E1.
  pose proof (DayFromYear_estimate (y0 + 1 + 1)) as E2.
  destruct (Z.leb_spec (DayFromYear (y0 + 1)) d) as [H1|H1]; [lia |].
  destruct (Z.ltb_spec d (DayFromYear y0)) as [H2|H2].
  - replace (y0 - 1 + 1) with y0 by lia. lia.
  - lia.
Qed.

Lemma YearFromTime_within (y t : Z) :
  DayFromYear y <= Day t < DayFromYear (y + 1) -> YearFromTime t = y.
Proof.
  intros Hd. unfold YearFromTime.
  pose proof (DayFromYear_succ y) as Hs.
  pose proof (DayFromYear_succ (y + 1)) as Hs1.
  pose proof (DayFromYear_succ (y - 1)) as Hp.
  replace (y - 1 + 1) with y in Hp by lia.
  assert (365 <= DaysInYear y <= 366) by (unfold DaysInYear; destruct (isLeapYear y); lia).
  assert (365 <= DaysInYear (y + 1) <= 366)
    by (unfold DaysInYear; destruct (isLeapYear (y + 1)); lia).
  assert (365 <= DaysInYear (y - 1) <= 366)
    by (unfold DaysInYear; destruct (isLeapYear (y - 1)); lia).
  set (d := Day t) in *.
  assert (Hy0 : y - 1 <= 1970 + 400 * d / 146097 <= y + 1).
  { unfold DayFromYear in *. Z.div_mod_to_equations. lia. }
  set (y0 := 1970 + 400 * d / 146097) in *.
  assert (Hc : y0 = y - 1 \/ y0 = y \/ y0 = y + 1) by lia.
  destruct Hc as [-> | [-> | ->]].
  - replace (y - 1 + 1) with y by lia.
    destruct (Z.leb_spec (DayFromYear y) d); lia.
  - destruct (Z.leb_spec (DayFromYear (y + 1)) d); [lia |].
    destruct (Z.ltb_spec d (DayFromYear y)); lia.
  - destruct (Z.leb_spec (DayFromYear (y + 1 + 1)) d); [lia |].
    destruct (Z.ltb_spec d (DayFromYear (y + 1))); lia.
Qed.

Lemma Day_MakeDate (d : Z) : Day (MakeDate d 0) = d.
Proof. unfold Day, MakeDate, msPerDay. rewrite Z.add_0_r. apply Z.div_mul. lia. Qed.

Lemma TimeWithinDay_MakeDate (d : Z) : TimeWithinDay (MakeDate d 0) = 0.
Proof.
  unfold TimeWithinDay, MakeDate, msPerDay. rewrite Z.add_0_r. apply Z.mod_mul. lia.
Qed.

Lemma MakeDay_in_year (y m d : Z) :
  0 <= m < 12 ->
  MakeDay y m d = DayFromYear y + monthStart (if isLeapYear y then 1 else 0) m + d - 1.
Proof.
  intros Hm. unfold MakeDay.
  rewrite Z.div_small, Z.mod_small, Z.add_0_r by lia. reflexivity.
Qed.

Lemma monthStart_bounds (l m : Z) : 0 <= l <= 1 -> 0 <= m < 12 -> 0 <= monthStart l m <= 335.
Proof. intros Hl Hm. each_month Hm; simpl; lia. Qed.

Lemma DayFromYear_range (y : Z) :
  -270000 <= y <= 270001 -> -99400000 <= DayFromYear y <= 99400000.
Proof. intros Hy. unfold DayFromYear. Z.div_mod_to_equations. lia. Qed.

Lemma TimeClip_MakeDay (y m d : Z) :
  -270000 <= y <= 270001 -> 0 <= m < 12 -> -400 <= d <= 400 ->
  TimeClip (MakeDate (MakeDay y m d) 0) = Some (MakeDate (MakeDay y m d) 0).
Proof.
  intros Hy Hm Hd. unfold TimeClip.
  assert (Z.abs (MakeDate (MakeDay y m d) 0) <= 8640000000000000);
    [| decide_tests; reflexivity].
  rewrite (MakeDay_in_year y m d Hm). unfold MakeDate, msPerDay.
  pose proof (DayFromYear_range y Hy).
  assert (0 <= monthStart (if isLeapYear y then 1 else 0) m <= 335)
    by (apply monthStart_bounds; [destruct (isLeapYear y); lia | exact Hm]).
  lia.
Qed.

(** The day of the calendar read back from its time value. *)
Lemma civil_of_MakeDay (y m d : Z) :
  0 <= m < 12 -> 1 <= d <= DaysInMonth y m ->
  let t := MakeDate (MakeDay y m d) 0 in
  YearFromTime t = y /\ MonthFromTime t = m /\ DateFromTime t = d.
Proof.
  intros Hm Hd t.
  assert (HD : Day t = DayFromYear y + monthStart (if isLeapYear y then 1 else 0) m + d - 1).
  { unfold t. rewrite Day_MakeDate. apply MakeDay_in_year. exact Hm. }
  assert (Hy : YearFromTime t = y).
  { apply YearFromTime_within. rewrite HD, DayFromYear_succ.
    unfold DaysInMonth, DaysInYear in *.
    each_month Hm; destruct (isLeapYear y); simpl in *; lia. }
  assert (Hw : DayWithinYear t = monthStart (if isLeapYear y then 1 else 0) m + d - 1).
  { unfold DayWithinYear. rewrite Hy, HD. lia. }
  assert (Hmo : MonthFromTime t = m).
  { unfold MonthFromTime, InLeapYear. rewrite Hy, Hw. unfold DaysInMonth in Hd.
    each_month Hm; destruct (isLeapYear y); simpl in *; decide_tests. }
  split; [exact Hy |]. split; [exact Hmo |].
  unfold DateFromTime, InLeapYear. rewrite Hmo, Hy, Hw. lia.
Qed.

Lemma DaysInMonth_bounds (y m : Z) : 0 <= m < 12 -> 28 <= DaysInMonth y m <= 31.
Proof.
  intros Hm. unfold DaysInMonth.
  each_month Hm; destruct (isLeapYear y); simpl; lia.
Qed.

(** [setMonth(getMonth() + 2)] on a day of the calendar. *)
Lemma setMonth_plus_two (y m d : Z) :
  -270000 <= y <= 270000 -> 0 <= m < 12 -> 1 <= d <= DaysInMonth y m ->
  let start := DateObject.ofCivil y m d in
  let y' := y + (m + 2) / 12 in
  let m' := (m + 2) mod 12 in
  DateObject.setMonth start ((fun k => k + 2) <$> DateObject.getMonth start)
  = if d <=? DaysInMonth y' m' then DateObject.ofCivil y' m' d
    else DateObject.ofCivil y' (m' + 1) (d - DaysInMonth y' m').
Proof.
  intros Hy Hm Hd start y' m'.
  destruct (civil_of_MakeDay y m d Hm Hd) as (Hyear & Hmonth & Hdate).
  pose proof (DaysInMonth_bounds y m Hm) as Hb.
  unfold DateObject.setMonth, DateObject.getMonth, start, DateObject.ofCivil; simpl.
  rewrite Hyear, Hmonth, Hdate, TimeWithinDay_MakeDate.
  assert (Hm' : 0 <= m' < 12) by (unfold m'; apply Z.mod_pos_bound; lia).
  assert (HE : MakeDay y (m + 2) d = MakeDay y' m' d).
  { unfold MakeDay. fold y' m'.
    rewrite (Z.div_small m'), (Z.mod_small m'), Z.add_0_r by lia. reflexivity. }
  rewrite HE.
  assert (Hy' : -270000 <= y' <= 270001)
    by (unfold y'; Z.div_mod_to_equations; lia).
  pose proof (DaysInMonth_bounds y' m' Hm') as Hb'.
  rewrite TimeClip_MakeDay by lia.
  destruct (Z.leb_spec d (DaysInMonth y' m')) as [Hle|Hgt]; [reflexivity |].
  f_equal. f_equal. f_equal. clear HE Hyear Hmonth Hdate. clearbody y' m'.
  unfold DaysInMonth in *.
  each_month Hm'; destruct (isLeapYear y') eqn:E; simpl monthStart in *; try lia;
    rewrite !MakeDay_in_year by lia; rewrite E; simpl monthStart; lia.
Qed.

End Calendar.

(** ** Date-input values *)

Section DateInput.
Import Str.

Lemma split_no_separator (sep : ascii) (s : string) :
  all (fun c => negb (Ascii.eqb c sep)) s = true -> split sep s = [s].
Proof.
  induction s as [|c r IH]; simpl; [reflexivity |].
  rewrite andb_true_iff, negb_true_iff. intros [Hc Hr].
  rewrite Hc, (IH Hr). reflexivity.
Qed.

Lemma split_append (sep : ascii) (s rest : string) :
  all (fun c => negb (Ascii.eqb c sep)) s = true ->
  split sep (s ++ String sep rest) = s :: split sep rest.
Proof.
  induction s as [|c r IH]; intros Hs.
  - change (EmptyString ++ String sep rest)%string with (String sep rest).
    simpl. rewrite Ascii.eqb_refl. reflexivity.
  - simpl in Hs. apply andb_true_iff in Hs as [Hc Hr]. apply negb_true_iff in Hc.
    change (String c r ++ String sep rest)%string
      with (String c (r ++ String sep rest)).
    simpl. rewrite Hc, (IH Hr). reflexivity.
Qed.

Lemma digits_no_dash (s : string) :
  all isDigit s = true -> all (fun c => negb (Ascii.eqb c "-")) s = true.
Proof.
  induction s as [|c r IH]; simpl; [reflexivity |].
  rewrite andb_true_iff. intros [Hc Hr]. rewrite (IH Hr), andb_true_r.
  apply negb_true_iff. apply (isDigit_eqb c 45); [exact Hc | reflexivity | lia].
Qed.

Lemma ToIntegerOrInfinity_ofZ (v : Z) : ToIntegerOrInfinity (ofZ v) = v.
Proof.
  unfold ToIntegerOrInfinity, ofZ. simpl this.
  assert (Hf : Qfloor (Qred (inject_Z v)) = v)
    by (rewrite (Qfloor_comp _ _ (Qred_correct _)); apply Qfloor_Z).
  assert (Hc : Qceiling (Qred (inject_Z v)) = v)
    by (rewrite (Qceiling_comp _ _ (Qred_correct _)); apply Qceiling_Z).
  rewrite Hf, Hc. destruct (Qc_ltb _ _); reflexivity.
Qed.

Lemma ofZ_minus_1 (v : Z) : (ofZ v - 1)%Qc = ofZ (v - 1).
Proof.
  apply Qc_is_canon. unfold ofZ. simpl. rewrite !Qred_correct.
  unfold Z.sub. rewrite inject_Z_plus. reflexivity.
Qed.

Lemma isEmpty_append (a b : string) : a <> EmptyString -> isEmpty (a ++ b) = false.
Proof. destruct a; [contradiction | reflexivity]. Qed.

(** The start date read from a date-input value "YYYY-MM-DD". *)
Lemma fromDateInputValue_digits (yyyy mm dd : string) :
  yyyy <> EmptyString -> mm <> EmptyString -> dd <> EmptyString ->
  all isDigit yyyy = true -> all isDigit mm = true -> all isDigit dd = true ->
  (String.length yyyy <= 300)%nat -> (String.length mm <= 300)%nat ->
  (String.length dd <= 300)%nat ->
  let y := decimalValue yyyy in
  let m := decimalValue mm in
  let d := decimalValue dd in
  100 <= y <= 270000 -> 1 <= m <= 12 -> 1 <= d <= DateTime.DaysInMonth y (m - 1) ->
  fromDateInputValue (yyyy ++ String "-" (mm ++ String "-" dd))
  = Some (DateObject.ofCivil y (m - 1) d).
Proof.
  intros Ny Nm Nd Dy Dm Dd Ly Lm Ld y m d Hy Hm Hd.
  unfold fromDateInputValue. rewrite (isEmpty_append _ _ Ny).
  rewrite (split_append "-" yyyy _ (digits_no_dash _ Dy)).
  rewrite (split_append "-" mm _ (digits_no_dash _ Dm)).
  rewrite (split_no_separator "-" dd (digits_no_dash _ Dd)).
  rewrite (Number_short_digits yyyy Ny Dy Ly), (Number_short_digits mm Nm Dm Lm),
    (Number_short_digits dd Nd Dd Ld).
  fold y m d. rewrite ofZ_minus_1.
  unfold DateObject.create. rewrite !ToIntegerOrInfinity_ofZ.
  assert ((0 <=? y) && (y <=? 99) = false) as ->
    by (apply andb_false_iff; right; apply Z.leb_gt; lia).
  pose proof (DaysInMonth_bounds y (m - 1) ltac:(lia)) as Hb.
  rewrite TimeClip_MakeDay by lia.
  unfold DateObject.setHoursZero. cbn [timeValue].
  rewrite Day_MakeDate, TimeClip_MakeDay by lia. reflexivity.
Qed.

Lemma isNumeral_true (s : string) :
  isNumeral s = true
  <-> s <> EmptyString /\ all isDigit s = true /\ (String.length s <= 300)%nat.
Proof.
  unfold isNumeral.
  rewrite !andb_true_iff, negb_true_iff, isEmpty_false, Nat.leb_le. tauto.
Qed.

End DateInput.

(** ** Deposit expiry window *)

Lemma Date_leb_true (a b : Date) :
  DateObject.leb a b = true
  <-> exists x y, timeValue a = Some x /\ timeValue b = Some y /\ x <= y.
Proof.
  unfold DateObject.leb. destruct (timeValue a) as [x|], (timeValue b) as [y|].
  - rewrite Z.leb_le. split.
    + intros Hle. exists x, y. auto.
    + intros (x' & y' & [= <-] & [= <-] & Hle). exact Hle.
  - split; [discriminate | intros (x' & y' & _ & Hy & _); discriminate].
  - split; [discriminate | intros (x' & y' & Hx & _); discriminate].
  - split; [discriminate | intros (x' & y' & Hx & _); discriminate].
Qed.

(** C3. The window of the deposit list ends two calendar months after its
    start: [setMonth(getMonth() + 2)] takes the day d of month m of year y
    to day d of the month two months later (in the next year from November
    and December), and, when that month has fewer than d days, as many days
    into the month after it as d exceeds its length; so it is for the range
    computed from a start date written YYYY-MM-DD.  A record is listed
    exactly when its expiration date lies between start and end, both
    included; without a start date nothing is listed.  For the start
    2024-01-15 the end is 2024-03-15, a record expiring on 2024-03-15 is
    listed and one expiring on 2024-03-16 is not. *)
Theorem deposit_expiry_window :
  (forall y m d : Z,
     -270000 <= y <= 270000 -> 0 <= m < 12 -> 1 <= d <= DateTime.DaysInMonth y m ->
     let start := DateObject.ofCivil y m d in
     let y' := y + (m + 2) / 12 in
     let m' := (m + 2) mod 12 in
     DateObject.setMonth start ((fun k => k + 2) <$> DateObject.getMonth start)
     = if d <=? DateTime.DaysInMonth y' m' then DateObject.ofCivil y' m' d
       else DateObject.ofCivil y' (m' + 1) (d - DateTime.DaysInMonth y' m'))
  /\ (forall y m d : Z,
        0 <= m < 12 -> 1 <= d <= DateTime.DaysInMonth y m ->
        let t := DateTime.MakeDate (DateTime.MakeDay y m d) 0 in
        timeValue (DateObject.ofCivil y m d) = Some t
        /\ DateTime.YearFromTime t = y
        /\ DateTime.MonthFromTime t = m
        /\ DateTime.DateFromTime t = d)
  /\ (forall yyyy mm dd : string,
        isNumeral yyyy = true -> isNumeral mm = true -> isNumeral dd = true ->
        let y := Str.decimalValue yyyy in
        let m := Str.decimalValue mm - 1 in
        let d := Str.decimalValue dd in
        100 <= y <= 270000 -> 0 <= m < 12 -> 1 <= d <= DateTime.DaysInMonth y m ->
        let y' := y + (m + 2) / 12 in
        let m' := (m + 2) mod 12 in
        Deposit.depositDateRange (yyyy ++ String "-" (mm ++ String "-" dd))
        = Some {| Deposit.start := DateObject.ofCivil y m d;
                  Deposit.end_ :=
                    if d <=? DateTime.DaysInMonth y' m' then DateObject.ofCivil y' m' d
                    else DateObject.ofCivil y' (m' + 1)
                           (d - DateTime.DaysInMonth y' m') |})
  /\ (forall depositStartDate : string,
        Deposit.depositDateRange depositStartDate
        = match fromDateInputValue depositStartDate with
          | Some start =>
              Some {| Deposit.start := start;
                      Deposit.end_ :=
                        DateObject.setMonth start
                          ((fun k => k + 2) <$> DateObject.getMonth start) |}
          | None => None
          end)
  /\ (forall (allDepositRows : list Deposit.DepositInfoRow) (range : Deposit.DateRange)
             (row : Deposit.DepositInfoRow),
        row ∈ Deposit.data allDepositRows (Some range)
        <-> row ∈ allDepositRows
            /\ exists s x e,
                 timeValue (Deposit.start range) = Some s
                 /\ timeValue (Deposit.expirationDate row) = Some x
                 /\ timeValue (Deposit.end_ range) = Some e
                 /\ s <= x <= e)
  /\ (forall allDepositRows : list Deposit.DepositInfoRow,
        Deposit.data allDepositRows None = [])
  /\ Deposit.depositDateRange "2024-01-15"
     = Some {| Deposit.start := DateObject.ofCivil 2024 0 15;
               Deposit.end_ := DateObject.ofCivil 2024 2 15 |}
  /\ Deposit.data Examples.depositRecords (Deposit.depositDateRange "2024-01-15")
     = [Examples.depositRecord "u-15" 15]
  /\ Deposit.depositDateRange "2024-01-31"
     = Some {| Deposit.start := DateObject.ofCivil 2024 0 31;
               Deposit.end_ := DateObject.ofCivil 2024 2 31 |}
  /\ Deposit.depositDateRange "2023-12-31"
     = Some {| Deposit.start := DateObject.ofCivil 2023 11 31;
               Deposit.end_ := DateObject.ofCivil 2024 2 2 |}.
Proof.
  split; [exact setMonth_plus_two |].
  split; [intros y m d Hm Hd t; split; [reflexivity | apply civil_of_MakeDay; assumption] |].
  split.
  { intros yyyy mm dd Hyyyy Hmm Hdd y m d Hy Hm Hd y' m'.
    apply isNumeral_true in Hyyyy as (Ny & Dy & Ly).
    apply isNumeral_true in Hmm as (Nm & Dm & Lm).
    apply isNumeral_true in Hdd as (Nd & Dd & Ld).
    unfold Deposit.depositDateRange.
    rewrite (fromDateInputValue_digits yyyy mm dd Ny Nm Nd Dy Dm Dd Ly Lm Ld)
      by (fold y d; unfold m in *; lia || assumption).
    fold y d. change (Str.decimalValue mm - 1) with m.
    rewrite (setMonth_plus_two y m d) by lia. reflexivity. }
  split; [intros depositStartDate; unfold Deposit.depositDateRange;
          destruct (fromDateInputValue depositStartDate); reflexivity |].
  split.
  { intros allDepositRows range row. unfold Deposit.data.
    rewrite list_elem_of_In, filter_In, <- list_elem_of_In, andb_true_iff, !Date_leb_true.
    split.
    - intros (Hin & (s & x & Hs & Hx & Hsx) & (x' & e & Hx' & He & Hxe)).
      split; [exact Hin |]. exists s, x, e.
      rewrite Hx in Hx'. injection Hx' as <-. auto.
    - intros (Hin & s & x & e & Hs & Hx & He & Hsx & Hxe).
      split; [exact Hin |]. split; [exists s, x | exists x, e]; auto. }
  split; [reflexivity |].
  repeat split; vm_compute; reflexivity.
Qed.

Lemma deposit_expiry_window_witness :
  (-270000 <= 2024 <= 270000 /\ 0 <= 0 < 12 /\ 1 <= 15 <= DateTime.DaysInMonth 2024 0)
  /\ DateObject.setMonth (DateObject.ofCivil 2024 0 15)
       ((fun k => k + 2) <$> DateObject.getMonth (DateObject.ofCivil 2024 0 15))
     = DateObject.ofCivil 2024 2 15.
Proof.
  assert (H1 : -270000 <= 2024 <= 270000) by lia.
  assert (H2 : 0 <= 0 < 12) by lia.
  assert (H3 : 1 <= 15 <= DateTime.DaysInMonth 2024 0) by (vm_compute; split; discriminate).
  split; [auto |].
  destruct deposit_expiry_window as (Hend & _).
  exact (Hend 2024 0 15 H1 H2 H3).
Defined.

(** ** The clinic dictionaries, row after row *)

Lemma sumOf_snoc {R} (f : R -> Qc) (rows : list R) (row : R) :
  sumOf f (rows ++ [row]) = (sumOf f rows + f row)%Qc.
Proof.
  induction rows as [|r rows IH]; simpl.
  - ring.
  - rewrite IH. ring.
Qed.

Lemma sumOf_Permutation {R} (f : R -> Qc) (l l' : list R) :
  l ≡ₚ l' -> sumOf f l = sumOf f l'.
Proof.
  induction 1 as [|x l l' _ IH|x y l|l l' l'' _ IH1 _ IH2]; simpl.
  - reflexivity.
  - rewrite IH. reflexivity.
  - ring.
  - congruence.
Qed.

Lemma sumOf_fmap {R S} (g : R -> S) (f : S -> Qc) (l : list R) :
  sumOf f (g <$> l) = sumOf (fun x => f (g x)) l.
Proof. induction l as [|x l IH]; csimpl; [reflexivity |]. rewrite IH. reflexivity. Qed.

Lemma sumOf_ext {R} (f g : R -> Qc) (l : list R) :
  (forall x, f x = g x) -> sumOf f l = sumOf g l.
Proof. intros E. induction l as [|x l IH]; simpl; [reflexivity |]. rewrite E, IH. reflexivity. Qed.

Lemma filter_snoc {R} (p : R -> bool) (rows : list R) (row : R) :
  List.filter p (rows ++ [row])
  = List.filter p rows ++ (if p row then [row] else []).
Proof. rewrite List.filter_app. reflexivity. Qed.

(** * The pipelines on binary64 numbers *)

(** ** Whole numbers in binary64 *)

Lemma ofZ_this (n : Z) : this (ofZ n) = inject_Z n.
Proof. unfold ofZ, Q2Qc. simpl. apply Qred_identity. simpl. apply Z.gcd_1_r. Qed.

Lemma integral_ofZ (n : Z) : integral (ofZ n) = true.
Proof. unfold integral. rewrite ofZ_this. reflexivity. Qed.

Lemma integral_spec (q : Qc) : integral q = true -> q = ofZ (Qnum q).
Proof.
  unfold integral. intros Hd. apply Pos.eqb_eq in Hd.
  apply Qc_is_canon. rewrite ofZ_this. destruct q as [[n d] Hq]. simpl in *.
  subst d. reflexivity.
Qed.

Lemma ofZ_plus (a b : Z) : (ofZ a + ofZ b)%Qc = ofZ (a + b).
Proof.
  apply Qc_is_canon. unfold Qcplus. rewrite !ofZ_this. simpl.
  rewrite Qred_correct. unfold Qeq, inject_Z. simpl. lia.
Qed.

Lemma ofZ_opp (a : Z) : (- ofZ a)%Qc = ofZ (- a).
Proof.
  apply Qc_is_canon. unfold Qcopp. rewrite !ofZ_this. simpl.
  rewrite Qred_correct. reflexivity.
Qed.

Lemma Math_abs_ofZ_abs (a : Z) : Math_abs (ofZ a) = ofZ (Z.abs a).
Proof.
  unfold Math_abs. destruct (Qc_ltb (ofZ a) 0) eqn:E.
  - apply Qc_ltb_true in E. rewrite <- ofZ_0 in E. rewrite ofZ_lt in E.
    rewrite ofZ_opp. f_equal. lia.
  - apply Qc_ltb_false in E. rewrite <- ofZ_0 in E. rewrite ofZ_lt in E.
    f_equal. lia.
Qed.

Lemma integral_plus (a b : Qc) :
  integral a = true -> integral b = true -> integral (a + b) = true.
Proof.
  intros Ha Hb. rewrite (integral_spec a Ha), (integral_spec b Hb), ofZ_plus.
  apply integral_ofZ.
Qed.

Lemma integral_opp (a : Qc) : integral a = true -> integral (- a) = true.
Proof. intros Ha. rewrite (integral_spec a Ha), ofZ_opp. apply integral_ofZ. Qed.

Lemma integral_0 : integral 0 = true.
Proof. reflexivity. Qed.

Lemma roundHalfEven_whole (n : Z) : Binary64.roundHalfEven n 1 = n.
Proof.
  unfold Binary64.roundHalfEven. rewrite Z.mod_1_r, Z.div_1_r. reflexivity.
Qed.

(** A positive integer below [2^53] is a binary64 number. *)
Lemma roundPositive_whole (n : Z) (negative : bool) :
  0 < n <= 2 ^ 53 ->
  Binary64.roundPositive n 1 negative
  = Finite (if negative then (- ofZ n)%Qc else ofZ n).
Proof.
  intros Hn. destruct (Z.eq_dec n (2 ^ 53)) as [->|Hne].
  { destruct negative; vm_compute; f_equal; apply Qc_is_canon; reflexivity. }
  assert (Hlog : 0 <= Z.log2 n < 53).
  { split; [apply Z.log2_nonneg |]. apply Z.log2_lt_pow2; lia. }
  assert (Hspec := Z.log2_spec n ltac:(lia)).
  unfold Binary64.roundPositive, Binary64.exponentOf.
  change (Z.log2 1) with 0. rewrite Z.sub_0_r.
  destruct (Z.leb_spec 0 (Z.log2 n)) as [_|]; [| lia].
  destruct (Z.leb_spec (2 ^ Z.log2 n * 1) n) as [_|]; [| lia].
  set (k := Z.log2 n) in *.
  rewrite (Z.max_l (k - 52) (-1074)) by lia.
  rewrite (Z.max_l 0 (k - 52)) by lia.
  rewrite (Z.max_r 0 (- (k - 52))) by lia.
  change (1 * 2 ^ 0) with 1. rewrite roundHalfEven_whole.
  set (s := 2 ^ (- (k - 52))).
  assert (Hs : 0 < s) by (apply Z.pow_pos_nonneg; lia).
  assert (Hsmall : (n * s * 2 ^ (k - 52) <=? 2 ^ 1024 - 1) = true).
  { apply Z.leb_le. destruct (Z.eq_dec k 52) as [E|N].
    - subst s. rewrite E. simpl (2 ^ (52 - 52)). simpl (2 ^ (- (52 - 52))).
      assert (2 ^ 53 < 2 ^ 1024) by (apply Z.pow_lt_mono_r; lia). lia.
    - rewrite (Z.pow_neg_r 2 (k - 52)) by lia.
      assert (0 < 2 ^ 1024) by (apply Z.pow_pos_nonneg; lia). lia. }
  destruct (Z.leb_spec (2 ^ 1024) (n * s * 2 ^ (k - 52))) as [Hbig|_].
  { apply Z.leb_le in Hsmall. lia. }
  assert (Hv : Q2Qc (n * s * 2 ^ 0 # Z.to_pos s) = ofZ n).
  { apply Qc_is_canon. simpl. rewrite !Qred_correct. unfold Qeq, inject_Z. simpl.
    rewrite Z2Pos.id by exact Hs. lia. }
  rewrite Hv. reflexivity.
Qed.

Lemma round_ofZ (n : Z) :
  - 2 ^ 53 <= n <= 2 ^ 53 -> Binary64.round (ofZ n) = Finite (ofZ n).
Proof.
  intros Hn. unfold Binary64.round. rewrite ofZ_this. simpl.
  destruct n as [|p|p].
  - reflexivity.
  - apply (roundPositive_whole (Z.pos p) false). lia.
  - rewrite (roundPositive_whole (Z.pos p) true) by lia.
    rewrite ofZ_opp. reflexivity.
Qed.

(** A whole number of magnitude [2^53] at most is a binary64 number. *)
Lemma round_whole (q : Qc) :
  integral q = true -> (Math_abs q <= ofZ (2 ^ 53))%Qc -> Binary64.round q = Finite q.
Proof.
  intros Hq Hb. rewrite (integral_spec q Hq) in *.
  rewrite Math_abs_ofZ_abs in Hb. rewrite ofZ_le in Hb.
  apply round_ofZ. lia.
Qed.

(** The sum of two whole numbers is exact as long as it stays within
    [2^53]. *)
Lemma add_whole (a b : Qc) :
  integral a = true -> integral b = true -> (Math_abs (a + b) <= ofZ (2 ^ 53))%Qc ->
  Binary64.add (Finite a) (Finite b) = Finite (a + b).
Proof. intros Ha Hb Hab. simpl. apply round_whole; [apply integral_plus |]; assumption. Qed.

Lemma sub_whole (a b : Qc) :
  integral a = true -> integral b = true -> (Math_abs (a - b) <= ofZ (2 ^ 53))%Qc ->
  Binary64.sub (Finite a) (Finite b) = Finite (a - b).
Proof.
  intros Ha Hb Hab. unfold Binary64.sub. simpl.
  apply round_whole; [apply integral_plus; [| apply integral_opp] |]; assumption.
Qed.

(** ** Sums of whole amounts *)

Lemma Math_abs_triangle (a b : Qc) : (Math_abs (a + b) <= Math_abs a + Math_abs b)%Qc.
Proof.
  unfold Math_abs.
  destruct (Qc_ltb (a + b) 0) eqn:Eab, (Qc_ltb a 0) eqn:Ea, (Qc_ltb b 0) eqn:Eb;
    rewrite ?Qc_ltb_true, ?Qc_ltb_false in *; to_Q; lra.
Qed.

Lemma Math_abs_opp (a : Qc) : Math_abs (- a) = Math_abs a.
Proof.
  unfold Math_abs.
  destruct (Qc_ltb (- a) 0) eqn:Ea, (Qc_ltb a 0) eqn:Eb;
    rewrite ?Qc_ltb_true, ?Qc_ltb_false in *; apply Qc_is_canon; to_Q; lra.
Qed.

Lemma Math_abs_0 : Math_abs 0 = 0%Qc.
Proof. reflexivity. Qed.

Lemma Qcle_plus (a b c d : Qc) : (a <= b -> c <= d -> a + c <= b + d)%Qc.
Proof. intros. to_Q. lra. Qed.

Lemma sumOf_cons {R} (f : R -> Qc) (x : R) (l : list R) :
  sumOf f (x :: l) = (f x + sumOf f l)%Qc.
Proof. reflexivity. Qed.

Lemma sumOf_plus {R} (f g : R -> Qc) (l : list R) :
  sumOf (fun x => f x + g x)%Qc l = (sumOf f l + sumOf g l)%Qc.
Proof. induction l as [|x l IH]; simpl; [ring |]. rewrite IH. ring. Qed.

Lemma sumOf_filter {R} (p : R -> bool) (f : R -> Qc) (l : list R) :
  sumOf (fun r => if p r then f r else 0%Qc) l = sumOf f (List.filter p l).
Proof.
  induction l as [|x l IH]; simpl; [reflexivity |].
  rewrite IH. destruct (p x); simpl; ring.
Qed.

Lemma sumOf_zero {R} (f : R -> Qc) (l : list R) :
  (forall x, In x l -> f x = 0%Qc) -> sumOf f l = 0%Qc.
Proof.
  induction l as [|x l IH]; simpl; intros Hz; [reflexivity |].
  rewrite (Hz x), IH by auto. ring.
Qed.

Lemma sumOf_ext_in {R} (f g : R -> Qc) (l : list R) :
  (forall x, In x l -> f x = g x) -> sumOf f l = sumOf g l.
Proof.
  induction l as [|x l IH]; simpl; intros E; [reflexivity |].
  rewrite (E x), IH by auto. reflexivity.
Qed.

Lemma sumOf_nonneg {R} (f : R -> Qc) (l : list R) :
  (forall x, 0 <= f x)%Qc -> (0 <= sumOf f l)%Qc.
Proof.
  intros Hf. induction l as [|x l IH]; simpl; [apply Qcle_refl |].
  specialize (Hf x). to_Q. lra.
Qed.

Lemma sumOf_le {R} (f g : R -> Qc) (l : list R) :
  (forall x, f x <= g x)%Qc -> (sumOf f l <= sumOf g l)%Qc.
Proof.
  intros Hf. induction l as [|x l IH]; simpl; [apply Qcle_refl |].
  apply Qcle_plus; [apply Hf | exact IH].
Qed.

Lemma sumOf_filter_le {R} (p : R -> bool) (f : R -> Qc) (l : list R) :
  (forall x, 0 <= f x)%Qc -> (sumOf f (List.filter p l) <= sumOf f l)%Qc.
Proof.
  intros Hf. induction l as [|x l IH]; simpl; [apply Qcle_refl |].
  destruct (p x); simpl.
  - apply Qcle_plus; [apply Qcle_refl | exact IH].
  - specialize (Hf x). to_Q. lra.
Qed.

Lemma Math_abs_sumOf {R} (f : R -> Qc) (l : list R) :
  (Math_abs (sumOf f l) <= sumOf (fun x => Math_abs (f x)) l)%Qc.
Proof.
  induction l as [|x l IH]; simpl; [rewrite Math_abs_0; apply Qcle_refl |].
  eapply Qcle_trans; [apply Math_abs_triangle |].
  apply Qcle_plus; [apply Qcle_refl | exact IH].
Qed.

Lemma integral_sumOf {R} (f : R -> Qc) (l : list R) :
  Forall (fun x => integral (f x) = true) l -> integral (sumOf f l) = true.
Proof.
  induction 1 as [|x l Hx _ IH]; simpl; [reflexivity |].
  apply integral_plus; assumption.
Qed.

Lemma Forall_filter_list {A} (P : A -> Prop) (p : A -> bool) (l : list A) :
  Forall P l -> Forall P (List.filter p l).
Proof.
  induction 1 as [|x l Hx _ IH]; simpl; [constructor |].
  destruct (p x); [constructor |]; assumption.
Qed.

(** Each key of a list without repetition takes the rows that carry it:
    the sums key by key add up to the sum over all the rows. *)
Lemma sumOf_indicator (keys : list string) (k : string) (a : Qc) :
  NoDup keys -> k ∈ keys ->
  sumOf (fun k' => if String.eqb k k' then a else 0%Qc) keys = a.
Proof.
  induction 1 as [|k' keys Hk' Hn IH]; intros Hin; [inversion Hin |].
  simpl. destruct (String.eqb_spec k k') as [<-|Hne].
  - rewrite sumOf_zero; [ring |].
    intros x Hx. destruct (String.eqb_spec k x) as [<-|]; [| reflexivity].
    exfalso. apply Hk', list_elem_of_In, Hx.
  - rewrite IH; [ring |]. apply elem_of_cons in Hin as [E|Hin]; [congruence | exact Hin].
Qed.

Lemma sumOf_by_key {R} (key : R -> string) (keys : list string) (c : R -> Qc)
    (rows : list R) :
  NoDup keys -> (forall row, row ∈ rows -> key row ∈ keys) ->
  sumOf (fun k => sumOf c (List.filter (fun row => String.eqb (key row) k) rows)) keys
  = sumOf c rows.
Proof.
  intros Hn. induction rows as [|row rows IH]; intros Hin; simpl.
  - apply sumOf_zero. reflexivity.
  - rewrite <- IH by (intros r Hr; apply Hin; right; exact Hr).
    rewrite <- (sumOf_indicator keys (key row) (c row) Hn (Hin row ltac:(left))).
    rewrite <- sumOf_plus. apply sumOf_ext. intros k.
    destruct (String.eqb (key row) k); simpl; ring.
Qed.

(** What [wholeAmounts] says of one column. *)
Lemma wholeAmounts_column (columns : list (AnyRow -> Qc)) (rows : list AnyRow)
    (c : AnyRow -> Qc) :
  wholeAmounts columns rows = true -> In c columns ->
  Forall (fun row => integral (c row) = true) rows
  /\ (sumOf (fun row => Math_abs (c row)) rows <= ofZ (2 ^ 53))%Qc.
Proof.
  unfold wholeAmounts. intros Hw Hc. apply andb_true_iff in Hw as [Hi Hb].
  apply Qc_leb_true in Hb. split.
  - rewrite forallb_forall in Hi. apply Forall_forall. intros row Hrow.
    apply list_elem_of_In in Hrow. specialize (Hi row Hrow).
    rewrite forallb_forall in Hi. apply Hi, Hc.
  - eapply Qcle_trans; [| exact Hb]. apply sumOf_le. intros row.
    clear -Hc. induction columns as [|c' cs IH]; [destruct Hc |].
    simpl. destruct Hc as [->|Hc].
    + assert (H0 := sumOf_nonneg (fun column => Math_abs (column row)) cs
                      (fun column => Math_abs_nonneg _)).
      to_Q. lra.
    + specialize (IH Hc). assert (H0 := Math_abs_nonneg (c' row)). to_Q. lra.
Qed.

Lemma wholeAmounts_filter (columns : list (AnyRow -> Qc)) (p : AnyRow -> bool)
    (rows : list AnyRow) :
  wholeAmounts columns rows = true -> wholeAmounts columns (List.filter p rows) = true.
Proof.
  unfold wholeAmounts. intros Hw. apply andb_true_iff in Hw as [Hi Hb].
  apply andb_true_iff. split.
  - rewrite forallb_forall in *. intros row Hrow. apply filter_In in Hrow as [Hrow _].
    apply Hi, Hrow.
  - apply Qc_leb_true in Hb. apply Qc_leb_true.
    eapply Qcle_trans; [| exact Hb]. apply sumOf_filter_le.
    intros row. apply sumOf_nonneg. intros column. apply Math_abs_nonneg.
Qed.

Lemma wholeAmounts_Permutation (columns : list (AnyRow -> Qc)) (rows rows' : list AnyRow) :
  rows ≡ₚ rows' -> wholeAmounts columns rows = wholeAmounts columns rows'.
Proof.
  intros Hp. unfold wholeAmounts. f_equal.
  - apply eq_true_iff_eq. rewrite !forallb_forall. split; intros Hf row Hrow; apply Hf.
    + apply list_elem_of_In. rewrite Hp. apply list_elem_of_In, Hrow.
    + apply list_elem_of_In. rewrite <- Hp. apply list_elem_of_In, Hrow.
  - rewrite (sumOf_Permutation _ _ _ Hp). reflexivity.
Qed.

(** ** A dictionary filled row after row *)

Lemma alter_absent {V} (f : V -> V) (m : gmap string V) (k : string) :
  m !! k = None -> alter f k m = m.
Proof.
  intros Hk. apply map_eq. intros i. destruct (decide (k = i)) as [<-|Hne].
  - rewrite lookup_alter_eq, Hk. reflexivity.
  - apply lookup_alter_ne. exact Hne.
Qed.

Lemma default_Some {V} (d v : V) (o : option V) : o = Some v -> default d o = v.
Proof. intros ->. reflexivity. Qed.

Section UpsertFold.
Context {V R : Type} (key : R -> string) (init : string -> V) (effect : R -> V -> V).

Lemma run_snoc (rows : list R) (row : R) :
  foldl (upsert key init effect) ∅ (rows ++ [row])
  = <[key row := effect row (default (init (key row))
                                      (foldl (upsert key init effect) ∅ rows !! key row))]>
      (foldl (upsert key init effect) ∅ rows).
Proof. rewrite foldl_snoc. reflexivity. Qed.

(** The keys are the clinic codes of the rows. *)
Lemma run_is_Some (rows : list R) (k : string) :
  is_Some (foldl (upsert key init effect) ∅ rows !! k)
  <-> exists row, row ∈ rows /\ key row = k.
Proof.
  induction rows as [|row rows IH] using rev_ind.
  - simpl. rewrite lookup_empty. split.
    + intros [? [=]].
    + intros (r & Hr & _). inversion Hr.
  - rewrite run_snoc. destruct (decide (key row = k)) as [<-|Hne].
    + rewrite lookup_insert_eq. split; [| eauto].
      intros _. exists row. split; [apply elem_of_app; right; apply list_elem_of_singleton |];
        reflexivity.
    + rewrite lookup_insert_ne by exact Hne. rewrite IH. split.
      * intros (r & Hr & Hk). exists r. split; [apply elem_of_app; left; exact Hr | exact Hk].
      * intros (r & Hr & Hk). apply elem_of_app in Hr as [Hr|Hr]; [eauto |].
        apply list_elem_of_singleton in Hr. subst r. contradiction.
Qed.

(** What holds of a new summary and is kept by every row holds of every
    summary. *)
Lemma run_invariant (Inv : string -> V -> Prop) (rows : list R) :
  (forall k, Inv k (init k)) ->
  (forall row v, Inv (key row) v -> Inv (key row) (effect row v)) ->
  forall k v, foldl (upsert key init effect) ∅ rows !! k = Some v -> Inv k v.
Proof.
  intros Hinit Hstep. induction rows as [|row rows IH] using rev_ind; intros k v.
  - simpl. rewrite lookup_empty. discriminate.
  - rewrite run_snoc. destruct (decide (key row = k)) as [<-|Hne].
    + rewrite lookup_insert_eq. intros [= <-]. apply Hstep.
      destruct (foldl (upsert key init effect) ∅ rows !! key row) as [v0|] eqn:E; simpl;
        [apply IH; exact E | apply Hinit].
    + rewrite lookup_insert_ne by exact Hne. apply IH.
Qed.

(** The summary under a key is what the rows that carry the key, in their
    order, make of a new summary. *)
Lemma run_lookup (rows : list R) (k : string) :
  foldl (upsert key init effect) ∅ rows !! k
  = match List.filter (fun row => String.eqb (key row) k) rows with
    | [] => None
    | l => Some (foldl (fun v row => effect row v) (init k) l)
    end.
Proof.
  induction rows as [|row rows IH] using rev_ind; [apply lookup_empty |].
  rewrite run_snoc, filter_snoc.
  destruct (String.eqb_spec (key row) k) as [<-|Hne].
  - rewrite lookup_insert_eq, IH.
    set (l := List.filter (fun r => String.eqb (key r) (key row)) rows).
    assert (E : match l ++ [row] with
                | [] => None
                | l' => Some (foldl (fun v r => effect r v) (init (key row)) l')
                end
                = Some (foldl (fun v r => effect r v) (init (key row)) (l ++ [row])))
      by (destruct l; reflexivity).
    rewrite E, foldl_snoc. destruct l; reflexivity.
  - rewrite lookup_insert_ne by exact Hne. rewrite app_nil_r. exact IH.
Qed.

End UpsertFold.

(** Where every addition is exact, the rows can be taken in any order. *)
Section UpsertOrder.
Context {V R : Type} (key : R -> string) (init : string -> V) (effect : R -> V -> V).
Hypothesis effect_comm :
  forall r1 r2 s, effect r2 (effect r1 s) = effect r1 (effect r2 s).

Lemma upsert_comm (m : gmap string V) (r1 r2 : R) :
  upsert key init effect (upsert key init effect m r1) r2
  = upsert key init effect (upsert key init effect m r2) r1.
Proof.
  unfold upsert. destruct (decide (key r1 = key r2)) as [E|Hne].
  - rewrite E, !lookup_insert_eq, !insert_insert_eq. simpl.
    rewrite effect_comm. reflexivity.
  - rewrite (lookup_insert_ne _ (key r1) (key r2)) by exact Hne.
    rewrite (lookup_insert_ne _ (key r2) (key r1)) by congruence.
    apply insert_insert_ne. congruence.
Qed.

Lemma upsert_permutation (l l' : list R) :
  l ≡ₚ l' ->
  foldl (upsert key init effect) ∅ l = foldl (upsert key init effect) ∅ l'.
Proof.
  intros Hp. apply foldl_permutation; [| exact Hp].
  intros m x y. apply upsert_comm.
Qed.
End UpsertOrder.

(** A field that takes the amounts of some of the rows, one binary64
    addition per row, holds their sum when the amounts are whole. *)
Section Field.
Context {V R : Type} (step : V -> R -> V) (f : V -> NumberValue).
Context (x : R -> NumberValue) (c : R -> Qc) (p : R -> bool).
Hypothesis f_step :
  forall v r, f (step v r) = if p r then Binary64.add (f v) (x r) else f v.

Lemma foldl_field_whole (l : list R) (v : V) (a : Qc) :
  f v = Finite a -> integral a = true ->
  Forall (fun r => integral (c r) = true /\ x r = Finite (c r)) l ->
  (Math_abs a + sumOf (fun r => Math_abs (c r)) l <= ofZ (2 ^ 53))%Qc ->
  f (foldl step v l) = Finite (a + sumOf (fun r => if p r then c r else 0) l)%Qc.
Proof.
  intros Hv Ha Hl. revert v a Hv Ha.
  induction Hl as [|r l [Hr Hx] _ IH]; intros v a Hv Ha Hb; simpl in *.
  - rewrite Hv. f_equal. ring.
  - assert (H0 := sumOf_nonneg (fun r => Math_abs (c r)) l (fun r => Math_abs_nonneg _)).
    assert (H1 := Math_abs_nonneg (c r)).
    assert (H2 := Math_abs_triangle a (c r)).
    destruct (p r) eqn:Hp.
    + rewrite (IH (step v r) (a + c r)%Qc).
      * f_equal. ring.
      * rewrite f_step, Hp, Hv, Hx. apply add_whole; [assumption.. |]. to_Q. lra.
      * apply integral_plus; assumption.
      * to_Q. lra.
    + rewrite (IH (step v r) a).
      * f_equal. ring.
      * rewrite f_step, Hp. exact Hv.
      * exact Ha.
      * to_Q. lra.
Qed.

End Field.

(** The cells of a column of whole amounts are binary64 numbers. *)
Lemma round_column (c : AnyRow -> Qc) (rows : list AnyRow) :
  Forall (fun row => integral (c row) = true) rows ->
  (sumOf (fun row => Math_abs (c row)) rows <= ofZ (2 ^ 53))%Qc ->
  Forall (fun row => integral (c row) = true /\ Binary64.round (c row) = Finite (c row))
         rows.
Proof.
  induction 1 as [|row rows Hrow _ IH]; intros Hb; simpl in *; [constructor |].
  assert (H0 := sumOf_nonneg (fun r => Math_abs (c r)) rows (fun r => Math_abs_nonneg _)).
  assert (H1 := Math_abs_nonneg (c row)).
  constructor.
  - split; [exact Hrow |]. apply round_whole; [exact Hrow |]. to_Q. lra.
  - apply IH. to_Q. lra.
Qed.

(** ** Each callback as one insertion *)

Lemma alter_present {V} (f : V -> V) (m : gmap string V) (k : string) (v : V) :
  m !! k = Some v -> alter f k m = <[k := f v]> m.
Proof.
  intros Hk. apply map_eq. intros i. destruct (decide (k = i)) as [<-|Hne].
  - rewrite lookup_alter_eq, lookup_insert_eq, Hk. reflexivity.
  - rewrite lookup_alter_ne, lookup_insert_ne by exact Hne. reflexivity.
Qed.

(** The guard [if (!o[key]) o[key] = z] followed by an update in place:
    one insertion, or nothing when the key is inherited. *)
Lemma guard_then_alter {V} (m : gmap string V) (k : string) (z : V) (f : V -> V) :
  alter f k (match JSObject.read m k with
             | JSObject.Undefined => <[k := z]> m
             | _ => m
             end)
  = match JSObject.read m k with
    | JSObject.Inherited => m
    | _ => <[k := f (default z (m !! k))]> m
    end.
Proof.
  unfold JSObject.read. destruct (m !! k) as [v|] eqn:E; simpl.
  - apply alter_present. exact E.
  - destruct (JSObject.inherited k).
    + apply alter_absent. exact E.
    + rewrite (alter_present f _ k z) by apply lookup_insert_eq.
      apply insert_insert_eq.
Qed.


Section Callbacks.
Context `{NumberPrinter} `{FunctionPrinter}.

Lemma revenue_forEachRow_upsert (m : gmap string Revenue.RevenueClinicSummary)
    (row : AnyRow) :
  Revenue.forEachRow m row
  = match JSObject.read m (RowEffect.clinicOf row) with
    | JSObject.Inherited => m
    | _ => upsert RowEffect.clinicOf Revenue.newSummary RowEffect.revenue m row
    end.
Proof.
  unfold upsert, Revenue.forEachRow, RowEffect.revenue, classify.
  fold (RowEffect.clinicOf row).
  destruct (String.eqb (lowerStringFrom row "Purchase Item Type") "treatment");
    [| destruct (String.eqb (lowerStringFrom row "Purchase Item Type") "product")];
    rewrite ?alter_alter_eq, guard_then_alter; reflexivity.
Qed.

Lemma depositPurchase_forEachRow_upsert
    (m : gmap string DepositPurchase.DepositPurchaseClinicSummary) (row : AnyRow) :
  DepositPurchase.forEachRow m row
  = match JSObject.read m (RowEffect.clinicOf row) with
    | JSObject.Inherited => m
    | _ => upsert RowEffect.clinicOf DepositPurchase.newSummary
                  RowEffect.depositPurchase m row
    end.
Proof. unfold upsert, DepositPurchase.forEachRow. apply guard_then_alter. Qed.

Lemma cashIn_forEachRow_upsert (m : gmap string CashIn.CashInClinicSummary)
    (row : AnyRow) :
  CashIn.forEachRow m row
  = match JSObject.read m (RowEffect.clinicOf row) with
    | JSObject.Inherited => None
    | _ => Some (upsert RowEffect.clinicOf CashIn.newSummary RowEffect.cashIn m row)
    end.
Proof.
  unfold upsert, CashIn.forEachRow, RowEffect.cashIn.
  fold (RowEffect.clinicOf row). fold (RowEffect.paymentMethodOf row).
  set (k := RowEffect.clinicOf row).
  set (f := CashIn.addPayment _ _).
  assert (Hg := guard_then_alter m k (CashIn.newSummary k) f).
  unfold JSObject.read in *. destruct (m !! k) as [v|] eqn:E; simpl in *.
  - rewrite E. f_equal. exact Hg.
  - destruct (JSObject.inherited k) eqn:Hk.
    + rewrite E. reflexivity.
    + rewrite lookup_insert_eq. f_equal. exact Hg.
Qed.

End Callbacks.

(** A dictionary behind the guard holds the rows whose key is not
    inherited. *)
Section Guarded.
Context `{NumberPrinter}.
Context {V : Type} (init : string -> V) (effect : AnyRow -> V -> V).

Lemma counted_snoc (rows : list AnyRow) (row : AnyRow) :
  RowEffect.counted (rows ++ [row])
  = RowEffect.counted rows
    ++ (if JSObject.inherited (RowEffect.clinicOf row) then [] else [row]).
Proof.
  unfold RowEffect.counted. rewrite filter_snoc.
  destruct (JSObject.inherited (RowEffect.clinicOf row)); reflexivity.
Qed.

Lemma counted_elem_of (rows : list AnyRow) (row : AnyRow) :
  row ∈ RowEffect.counted rows
  <-> row ∈ rows /\ JSObject.inherited (RowEffect.clinicOf row) = false.
Proof.
  unfold RowEffect.counted. rewrite !list_elem_of_In, filter_In, negb_true_iff.
  reflexivity.
Qed.

Lemma counted_lookup_inherited (rows : list AnyRow) (k : string) :
  JSObject.inherited k = true ->
  foldl (upsert RowEffect.clinicOf init effect) ∅ (RowEffect.counted rows) !! k = None.
Proof.
  intros Hk. apply eq_None_not_Some. rewrite run_is_Some.
  intros (row & Hrow & <-). apply counted_elem_of in Hrow as [_ Hrow]. congruence.
Qed.

Lemma guarded_step (m : gmap string V) (rows : list AnyRow) (row : AnyRow) :
  m = foldl (upsert RowEffect.clinicOf init effect) ∅ (RowEffect.counted rows) ->
  match JSObject.read m (RowEffect.clinicOf row) with
  | JSObject.Inherited => m
  | _ => upsert RowEffect.clinicOf init effect m row
  end
  = foldl (upsert RowEffect.clinicOf init effect) ∅ (RowEffect.counted (rows ++ [row])).
Proof.
  intros ->. rewrite counted_snoc. unfold JSObject.read.
  destruct (JSObject.inherited (RowEffect.clinicOf row)) eqn:Hk.
  - rewrite (counted_lookup_inherited rows _ Hk), app_nil_r. reflexivity.
  - rewrite foldl_snoc.
    destruct (foldl _ _ _ !! RowEffect.clinicOf row); reflexivity.
Qed.

Lemma guarded_fold (each : gmap string V -> AnyRow -> gmap string V)
    (rows : list AnyRow) :
  (forall m row,
     each m row
     = match JSObject.read m (RowEffect.clinicOf row) with
       | JSObject.Inherited => m
       | _ => upsert RowEffect.clinicOf init effect m row
       end) ->
  foldl each ∅ rows
  = foldl (upsert RowEffect.clinicOf init effect) ∅ (RowEffect.counted rows).
Proof.
  intros Heach. induction rows as [|row rows IH] using rev_ind; [reflexivity |].
  rewrite foldl_snoc, Heach. apply guarded_step. exact IH.
Qed.

End Guarded.

Section ClinicMaps.
Context `{NumberPrinter} `{FunctionPrinter}.

Lemma revenue_clinicMap_upsert (rows : list AnyRow) :
  Revenue.clinicMap rows
  = foldl (upsert RowEffect.clinicOf Revenue.newSummary RowEffect.revenue) ∅
          (RowEffect.counted rows).
Proof. apply guarded_fold. apply revenue_forEachRow_upsert. Qed.

Lemma depositPurchase_clinicMap_upsert (rows : list AnyRow) :
  DepositPurchase.clinicMap rows
  = foldl (upsert RowEffect.clinicOf DepositPurchase.newSummary
                  RowEffect.depositPurchase) ∅ (RowEffect.counted rows).
Proof. apply guarded_fold. apply depositPurchase_forEachRow_upsert. Qed.

Lemma plainClinics_counted (rows : list AnyRow) :
  plainClinics rows = true -> RowEffect.counted rows = rows.
Proof.
  unfold plainClinics, RowEffect.counted. intros Hp.
  induction rows as [|row rows IH]; [reflexivity |].
  simpl in *. apply andb_true_iff in Hp as [Hrow Hp].
  rewrite Hrow, IH by exact Hp. reflexivity.
Qed.

Lemma plainClinics_snoc (rows : list AnyRow) (row : AnyRow) :
  plainClinics (rows ++ [row])
  = plainClinics rows && negb (JSObject.inherited (RowEffect.clinicOf row)).
Proof. unfold plainClinics. rewrite forallb_app. simpl. rewrite andb_true_r. reflexivity. Qed.

(** The cash-in upload fails when a clinic code is inherited, and else
    holds every row. *)
Lemma cashIn_clinicMap_upsert (rows : list AnyRow) :
  CashIn.clinicMap rows
  = if plainClinics rows
    then Some (foldl (upsert RowEffect.clinicOf CashIn.newSummary RowEffect.cashIn) ∅ rows)
    else None.
Proof.
  unfold CashIn.clinicMap. induction rows as [|row rows IH] using rev_ind; [reflexivity |].
  rewrite foldl_snoc, IH, plainClinics_snoc.
  destruct (plainClinics rows) eqn:Hp; [| reflexivity]. simpl.
  rewrite cashIn_forEachRow_upsert.
  assert (Hs := guarded_step CashIn.newSummary RowEffect.cashIn _ rows row
                  ltac:(rewrite (plainClinics_counted rows Hp); reflexivity)).
  rewrite counted_snoc, (plainClinics_counted rows Hp) in Hs.
  unfold JSObject.read in *.
  destruct (JSObject.inherited (RowEffect.clinicOf row)) eqn:Hk; simpl.
  - assert (Hn := counted_lookup_inherited CashIn.newSummary RowEffect.cashIn rows _ Hk).
    rewrite (plainClinics_counted rows Hp) in Hn. rewrite Hn. reflexivity.
  - rewrite foldl_snoc.
    destruct (foldl _ _ _ !! RowEffect.clinicOf row); reflexivity.
Qed.

End ClinicMaps.

(** ** The summary of a clinic, field by field *)

Lemma field_of_rows {V} (step : V -> AnyRow -> V) (f : V -> NumberValue)
    (c : AnyRow -> Qc) (p : AnyRow -> bool) (l : list AnyRow) (v : V) :
  (forall v r, f (step v r)
               = if p r then Binary64.add (f v) (Binary64.round (c r)) else f v) ->
  f v = Finite 0 ->
  Forall (fun row => integral (c row) = true) l ->
  (sumOf (fun row => Math_abs (c row)) l <= ofZ (2 ^ 53))%Qc ->
  f (foldl step v l) = Finite (sumOf (fun r => if p r then c r else 0%Qc) l).
Proof.
  intros Hstep Hv Hi Hb.
  rewrite (foldl_field_whole step f (fun r => Binary64.round (c r)) c p Hstep l v 0%Qc Hv
             integral_0 (round_column c l Hi Hb)).
  - f_equal. ring.
  - rewrite Math_abs_0. to_Q. lra.
Qed.

Lemma foldl_unchanged {V R A} (step : V -> R -> V) (f : V -> A) (l : list R) (v : V) :
  (forall v r, f (step v r) = f v) -> f (foldl step v l) = f v.
Proof.
  intros Hstep. revert v. induction l as [|r l IH]; intros v; simpl; [reflexivity |].
  rewrite IH. apply Hstep.
Qed.

Lemma abs_sumOf_some {R} (c : R -> Qc) (p : R -> bool) (l : list R) :
  (Math_abs (sumOf (fun r => if p r then c r else 0%Qc) l)
   <= sumOf (fun r => Math_abs (c r)) l)%Qc.
Proof.
  eapply Qcle_trans; [apply Math_abs_sumOf |]. apply sumOf_le. intros r.
  destruct (p r); [apply Qcle_refl |]. rewrite Math_abs_0. apply Math_abs_nonneg.
Qed.

Lemma integral_sumOf_some {R} (c : R -> Qc) (p : R -> bool) (l : list R) :
  Forall (fun r => integral (c r) = true) l ->
  integral (sumOf (fun r => if p r then c r else 0%Qc) l) = true.
Proof.
  intros Hi. apply integral_sumOf. eapply Forall_impl; [exact Hi |].
  intros r Hr. simpl. destruct (p r); [exact Hr | reflexivity].
Qed.

Section ClosedForms.
Context `{NumberPrinter} `{FunctionPrinter}.

Lemma inClass_Treatment (c : AnyRow -> Qc) (rows : list AnyRow) :
  sumOf (fun r => if isTreatment r then c r else 0%Qc) rows
  = sumOf (inClass Treatment c) rows.
Proof.
  apply sumOf_ext. intros r. unfold isTreatment, inClass. destruct (itemClass r); reflexivity.
Qed.

Lemma inClass_Product (c : AnyRow -> Qc) (rows : list AnyRow) :
  sumOf (fun r => if isProduct r then c r else 0%Qc) rows = sumOf (inClass Product c) rows.
Proof.
  apply sumOf_ext. intros r. unfold isProduct, inClass. destruct (itemClass r); reflexivity.
Qed.

Lemma revenue_summary_eq (s s' : Revenue.RevenueClinicSummary) :
  Revenue.clinicCode s = Revenue.clinicCode s' ->
  Revenue.treatmentRetailPrice s = Revenue.treatmentRetailPrice s' ->
  Revenue.treatmentSellingPrice s = Revenue.treatmentSellingPrice s' ->
  Revenue.treatmentDiscount s = Revenue.treatmentDiscount s' ->
  Revenue.productRetailPrice s = Revenue.productRetailPrice s' ->
  Revenue.productSellingPrice s = Revenue.productSellingPrice s' ->
  Revenue.productDiscount s = Revenue.productDiscount s' ->
  Revenue.total s = Revenue.total s' ->
  s = s'.
Proof. destruct s, s'; simpl; intros; subst; reflexivity. Qed.

(** What a revenue row adds to each field of the summary of its clinic. *)
Lemma revenue_fields (v : Revenue.RevenueClinicSummary) (row : AnyRow) :
  let w := RowEffect.revenue row v in
  let add (p : bool) (x : NumberValue) (c : AnyRow -> Qc) :=
    if p then Binary64.add x (Binary64.round (c row)) else x in
  Revenue.clinicCode w = Revenue.clinicCode v
  /\ Revenue.treatmentRetailPrice w
     = add (isTreatment row) (Revenue.treatmentRetailPrice v) retailPriceOf
  /\ Revenue.treatmentSellingPrice w
     = add (isTreatment row) (Revenue.treatmentSellingPrice v) sellingPriceOf
  /\ Revenue.treatmentDiscount w
     = add (isTreatment row) (Revenue.treatmentDiscount v) discountOf
  /\ Revenue.productRetailPrice w
     = add (isProduct row) (Revenue.productRetailPrice v) retailPriceOf
  /\ Revenue.productSellingPrice w
     = add (isProduct row) (Revenue.productSellingPrice v) sellingPriceOf
  /\ Revenue.productDiscount w
     = add (isProduct row) (Revenue.productDiscount v) discountOf
  /\ Revenue.total w = add true (Revenue.total v) finalPriceOf.
Proof.
  unfold RowEffect.revenue, isTreatment, isProduct, itemClass.
  destruct (classify (lowerStringFrom row "Purchase Item Type")); simpl;
    repeat split; reflexivity.
Qed.

(** The summary that whole amounts leave for a clinic holds their sums. *)
Lemma revenue_summary_whole (code : string) (l : list AnyRow) :
  wholeAmounts priceColumns l = true ->
  foldl (fun v row => RowEffect.revenue row v) (Revenue.newSummary code) l
  = Sums.revenue code l.
Proof.
  intros Hw.
  destruct (wholeAmounts_column _ _ retailPriceOf Hw ltac:(simpl; auto)) as [Hr1 Hr2].
  destruct (wholeAmounts_column _ _ sellingPriceOf Hw ltac:(simpl; auto)) as [Hs1 Hs2].
  destruct (wholeAmounts_column _ _ discountOf Hw ltac:(simpl; auto)) as [Hd1 Hd2].
  destruct (wholeAmounts_column _ _ finalPriceOf Hw ltac:(simpl; auto)) as [Hf1 Hf2].
  apply revenue_summary_eq; unfold Sums.revenue;
    cbn [Revenue.clinicCode Revenue.treatmentRetailPrice Revenue.treatmentSellingPrice
         Revenue.treatmentDiscount Revenue.productRetailPrice Revenue.productSellingPrice
         Revenue.productDiscount Revenue.total].
  - apply (foldl_unchanged _ Revenue.clinicCode). intros v r. apply (revenue_fields v r).
  - rewrite <- inClass_Treatment.
    apply field_of_rows; [intros v r; apply (revenue_fields v r) | reflexivity | assumption..].
  - rewrite <- inClass_Treatment.
    apply field_of_rows; [intros v r; apply (revenue_fields v r) | reflexivity | assumption..].
  - rewrite <- inClass_Treatment.
    apply field_of_rows; [intros v r; apply (revenue_fields v r) | reflexivity | assumption..].
  - rewrite <- inClass_Product.
    apply field_of_rows; [intros v r; apply (revenue_fields v r) | reflexivity | assumption..].
  - rewrite <- inClass_Product.
    apply field_of_rows; [intros v r; apply (revenue_fields v r) | reflexivity | assumption..].
  - rewrite <- inClass_Product.
    apply field_of_rows; [intros v r; apply (revenue_fields v r) | reflexivity | assumption..].
  - apply (field_of_rows _ _ finalPriceOf (fun _ => true)); [intros v r; apply (revenue_fields v r) | reflexivity | assumption..].
Qed.

Lemma depositPurchase_summary_eq (s s' : DepositPurchase.DepositPurchaseClinicSummary) :
  DepositPurchase.clinicCode s = DepositPurchase.clinicCode s' ->
  DepositPurchase.totalRetailPrice s = DepositPurchase.totalRetailPrice s' ->
  DepositPurchase.totalSellingPrice s = DepositPurchase.totalSellingPrice s' ->
  DepositPurchase.totalDiscount s = DepositPurchase.totalDiscount s' ->
  DepositPurchase.total s = DepositPurchase.total s' ->
  s = s'.
Proof. destruct s, s'; simpl; intros; subst; reflexivity. Qed.

Lemma depositPurchase_summary_whole (code : string) (l : list AnyRow) :
  wholeAmounts priceColumns l = true ->
  foldl (fun v row => RowEffect.depositPurchase row v) (DepositPurchase.newSummary code) l
  = Sums.depositPurchase code l.
Proof.
  intros Hw.
  destruct (wholeAmounts_column _ _ retailPriceOf Hw ltac:(simpl; auto)) as [Hr1 Hr2].
  destruct (wholeAmounts_column _ _ sellingPriceOf Hw ltac:(simpl; auto)) as [Hs1 Hs2].
  destruct (wholeAmounts_column _ _ discountOf Hw ltac:(simpl; auto)) as [Hd1 Hd2].
  destruct (wholeAmounts_column _ _ finalPriceOf Hw ltac:(simpl; auto)) as [Hf1 Hf2].
  apply depositPurchase_summary_eq; unfold Sums.depositPurchase;
    cbn [DepositPurchase.clinicCode DepositPurchase.totalRetailPrice
         DepositPurchase.totalSellingPrice DepositPurchase.totalDiscount
         DepositPurchase.total].
  - apply (foldl_unchanged _ DepositPurchase.clinicCode). reflexivity.
  - apply (field_of_rows _ _ retailPriceOf (fun _ => true)); [reflexivity | reflexivity | assumption..].
  - apply (field_of_rows _ _ sellingPriceOf (fun _ => true)); [reflexivity | reflexivity | assumption..].
  - apply (field_of_rows _ _ discountOf (fun _ => true)); [reflexivity | reflexivity | assumption..].
  - apply (field_of_rows _ _ finalPriceOf (fun _ => true)); [reflexivity | reflexivity | assumption..].
Qed.

End ClosedForms.

(** ** The cash-in summary of a clinic *)

Lemma foldl_plus_sumOf {R} (c : R -> Qc) (l : list R) (a : Qc) :
  foldl (fun q r => (q + c r)%Qc) a l = (a + sumOf c l)%Qc.
Proof.
  revert a. induction l as [|r l IH]; intros a; simpl; [ring |]. rewrite IH. ring.
Qed.



Section CashInSummary.
Context `{NumberPrinter} `{FunctionPrinter}.

(** The amount kept under a label is the sum over the rows that carry it. *)
Lemma amountsByLabel_lookup (l : list AnyRow) (label : string) :
  Sums.amountsByLabel l !! label
  = match labelRows label l with
    | [] => None
    | ll => Some (sumOf amountOf ll)
    end.
Proof.
  unfold Sums.amountsByLabel, labelRows. rewrite run_lookup.
  destruct (List.filter _ l) as [|r ll]; [reflexivity |].
  rewrite foldl_plus_sumOf. f_equal. ring.
Qed.


Lemma amountsByLabel_snoc (l : list AnyRow) (row : AnyRow) :
  Sums.amountsByLabel (l ++ [row])
  = <[RowEffect.paymentMethodOf row :=
        (default 0 (Sums.amountsByLabel l !! RowEffect.paymentMethodOf row)
         + amountOf row)%Qc]> (Sums.amountsByLabel l).
Proof. unfold Sums.amountsByLabel. rewrite foldl_snoc. reflexivity. Qed.


Lemma amountsByLabel_Permutation (l l' : list AnyRow) :
  l ≡ₚ l' -> Sums.amountsByLabel l = Sums.amountsByLabel l'.
Proof.
  intros Hp. apply upsert_permutation; [| exact Hp]. intros r1 r2 s. ring.
Qed.

Lemma plainMethods_snoc (l : list AnyRow) (row : AnyRow) :
  plainMethods (l ++ [row])
  = plainMethods l && negb (JSObject.inherited (RowEffect.paymentMethodOf row)).
Proof. unfold plainMethods. rewrite forallb_app. simpl. rewrite andb_true_r. reflexivity. Qed.

Lemma plainMethods_filter (p : AnyRow -> bool) (l : list AnyRow) :
  plainMethods l = true -> plainMethods (List.filter p l) = true.
Proof.
  unfold plainMethods. rewrite !forallb_forall. intros Hl row Hrow.
  apply filter_In in Hrow as [Hrow _]. apply Hl, Hrow.
Qed.

Lemma plainMethods_Permutation (l l' : list AnyRow) :
  l ≡ₚ l' -> plainMethods l = plainMethods l'.
Proof.
  intros Hp. unfold plainMethods. apply eq_true_iff_eq. rewrite !forallb_forall.
  split; intros Hf row Hrow; apply Hf.
  - apply list_elem_of_In. rewrite Hp. apply list_elem_of_In, Hrow.
  - apply list_elem_of_In. rewrite <- Hp. apply list_elem_of_In, Hrow.
Qed.

Lemma wholeAmounts_snoc (columns : list (AnyRow -> Qc)) (l : list AnyRow) (row : AnyRow) :
  wholeAmounts columns (l ++ [row]) = true -> wholeAmounts columns l = true.
Proof.
  intros Hw.
  rewrite (wholeAmounts_Permutation columns (l ++ [row]) (row :: l)) in Hw
    by (rewrite Permutation_app_comm; reflexivity).
  unfold wholeAmounts in *. simpl in Hw.
  apply andb_true_iff in Hw as [Hi Hb]. apply andb_true_iff in Hi as [_ Hi].
  apply andb_true_iff. split; [exact Hi |].
  apply Qc_leb_true in Hb. apply Qc_leb_true.
  assert (Hnn := sumOf_nonneg (fun column => Math_abs (column row)) columns
                  (fun column => Math_abs_nonneg _)).
  to_Q. lra.
Qed.

(** Labels that are not inherited hold amounts, and whole amounts are
    held exactly. *)
Lemma cashIn_labels_whole (code : string) (l : list AnyRow) :
  plainMethods l = true -> wholeAmounts amountColumns l = true ->
  CashIn.paymentMethodTotals
    (foldl (fun v row => RowEffect.cashIn row v) (CashIn.newSummary code) l)
  = (fun q => CashIn.Amount (Finite q)) <$> Sums.amountsByLabel l.
Proof.
  induction l as [|row l IH] using rev_ind; intros Hp Hw.
  - simpl. unfold Sums.amountsByLabel. simpl. rewrite fmap_empty. reflexivity.
  - rewrite plainMethods_snoc in Hp. apply andb_true_iff in Hp as [Hp Hm].
    apply negb_true_iff in Hm.
    specialize (IH Hp (wholeAmounts_snoc _ _ _ Hw)).
    rewrite foldl_snoc, amountsByLabel_snoc, fmap_insert.
    set (v := foldl _ _ l) in *. set (label := RowEffect.paymentMethodOf row) in *.
    unfold RowEffect.cashIn. fold label.
    cbn [CashIn.addPayment CashIn.paymentMethodTotals]. rewrite IH.
    unfold JSObject.write.
    destruct (String.eqb_spec label "__proto__") as [E|_];
      [rewrite E in Hm; discriminate |].
    f_equal.
    destruct (wholeAmounts_column _ _ amountOf Hw ltac:(simpl; auto)) as [Hi Hb].
    assert (Hrow : integral (amountOf row) = true).
    { rewrite Forall_app in Hi. destruct Hi as [_ Hi]. inversion Hi. assumption. }
    assert (Habs : forall p : AnyRow -> bool,
               (Math_abs (sumOf (fun r => if p r then amountOf r else 0%Qc) (l ++ [row]))
                <= ofZ (2 ^ 53))%Qc).
    { intros p. eapply Qcle_trans; [apply abs_sumOf_some | exact Hb]. }
    assert (Hround : Binary64.round (amountOf row) = Finite (amountOf row)).
    { apply round_whole; [exact Hrow |].
      eapply Qcle_trans; [| exact Hb].
      rewrite sumOf_snoc.
      assert (Hnn := sumOf_nonneg (fun r => Math_abs (amountOf r)) l
                      (fun r => Math_abs_nonneg _)).
      to_Q. lra. }
    fold (amountOf row). rewrite Hround.
    unfold JSObject.read. rewrite lookup_fmap, amountsByLabel_lookup.
    assert (Hsum : (Math_abs (sumOf amountOf (labelRows label l) + amountOf row)
                    <= ofZ (2 ^ 53))%Qc).
    { specialize (Habs (fun r => String.eqb (RowEffect.paymentMethodOf r) label)).
      rewrite sumOf_filter, filter_snoc in Habs. fold label in Habs.
      rewrite String.eqb_refl, sumOf_snoc in Habs. exact Habs. }
    assert (Hint : integral (sumOf amountOf (labelRows label l)) = true).
    { apply integral_sumOf, Forall_filter_list.
      rewrite Forall_app in Hi. apply Hi. }
    destruct (labelRows label l) as [|r ll] eqn:El; simpl.
    + rewrite Hm. unfold CashIn.increased.
      rewrite add_whole; [reflexivity | reflexivity | exact Hrow |].
      simpl in Hsum. exact Hsum.
    + unfold CashIn.increased, Binary64.falsy.
      case_bool_decide as E0.
      * simpl in E0. rewrite add_whole; [| reflexivity | exact Hrow |].
        -- do 2 f_equal. rewrite E0. reflexivity.
        -- simpl in Hsum. rewrite E0 in Hsum. exact Hsum.
      * rewrite add_whole; [reflexivity | exact Hint | exact Hrow | exact Hsum].
Qed.

Lemma cashIn_summary_eq (s s' : CashIn.CashInClinicSummary) :
  CashIn.clinicCode s = CashIn.clinicCode s' ->
  CashIn.paymentMethodTotals s = CashIn.paymentMethodTotals s' ->
  CashIn.deposit s = CashIn.deposit s' ->
  CashIn.voucher s = CashIn.voucher s' ->
  CashIn.nonDepositVoucher s = CashIn.nonDepositVoucher s' ->
  CashIn.total s = CashIn.total s' ->
  s = s'.
Proof. destruct s, s'; simpl; intros; subst; reflexivity. Qed.

(** What a cash-in row adds to each number of the summary of its clinic. *)
Lemma cashIn_fields (v : CashIn.CashInClinicSummary) (row : AnyRow) :
  let w := RowEffect.cashIn row v in
  let add (p : bool) (x : NumberValue) :=
    if p then Binary64.add x (Binary64.round (amountOf row)) else x in
  CashIn.clinicCode w = CashIn.clinicCode v
  /\ CashIn.nonDepositVoucher w = CashIn.nonDepositVoucher v
  /\ CashIn.total w = add true (CashIn.total v)
  /\ CashIn.deposit w
     = add (String.eqb (RowEffect.paymentMethodOf row) "Treatment Deposit")
           (CashIn.deposit v)
  /\ CashIn.voucher w
     = add (CashIn.isVoucher (RowEffect.paymentMethodOf row)) (CashIn.voucher v).
Proof. repeat split. Qed.

Lemma sumOf_not_deposit (l : list AnyRow) :
  (sumOf amountOf l - sumOf amountOf (Sums.depositRows l))%Qc
  = sumOf (fun row =>
             if negb (String.eqb (RowEffect.paymentMethodOf row) "Treatment Deposit")
             then amountOf row else 0%Qc) l.
Proof.
  unfold Sums.depositRows. rewrite <- sumOf_filter.
  induction l as [|row l IH]; simpl; [ring |].
  rewrite <- IH.
  destruct (String.eqb (RowEffect.paymentMethodOf row) "Treatment Deposit"); simpl; ring.
Qed.

Lemma sumOf_other (l : list AnyRow) :
  (sumOf amountOf l - sumOf amountOf (Sums.depositRows l)
   - sumOf amountOf (Sums.voucherRows l))%Qc
  = sumOf amountOf (Sums.otherRows l).
Proof.
  unfold Sums.depositRows, Sums.voucherRows, Sums.otherRows.
  rewrite <- !sumOf_filter.
  induction l as [|row l IH]; simpl; [ring |].
  rewrite <- IH. unfold isOtherPayment.
  destruct (String.eqb_spec (RowEffect.paymentMethodOf row) "Treatment Deposit") as [E|_].
  - rewrite E. simpl. ring.
  - destruct (CashIn.isVoucher (RowEffect.paymentMethodOf row)); simpl; ring.
Qed.

(** The numbers of the accumulated summary of a clinic. *)
Lemma cashIn_numbers_whole (code : string) (l : list AnyRow) :
  wholeAmounts amountColumns l = true ->
  let s := foldl (fun v row => RowEffect.cashIn row v) (CashIn.newSummary code) l in
  CashIn.clinicCode s = code
  /\ CashIn.nonDepositVoucher s = Finite 0
  /\ CashIn.total s = Finite (sumOf amountOf l)
  /\ CashIn.deposit s = Finite (sumOf amountOf (Sums.depositRows l))
  /\ CashIn.voucher s = Finite (sumOf amountOf (Sums.voucherRows l)).
Proof.
  intros Hw s.
  destruct (wholeAmounts_column _ _ amountOf Hw ltac:(simpl; auto)) as [Hi Hb].
  split; [| split; [| split; [| split]]].
  - apply (foldl_unchanged _ CashIn.clinicCode). reflexivity.
  - apply (foldl_unchanged _ CashIn.nonDepositVoucher). reflexivity.
  - apply (field_of_rows _ _ amountOf (fun _ => true));
      [reflexivity | reflexivity | assumption..].
  - unfold Sums.depositRows. rewrite <- sumOf_filter.
    apply field_of_rows; [reflexivity | reflexivity | assumption..].
  - unfold Sums.voucherRows. rewrite <- sumOf_filter.
    apply field_of_rows; [reflexivity | reflexivity | assumption..].
Qed.

(** The numbers of the summary the pipeline puts out for a clinic. *)
Lemma cashIn_output_numbers (code : string) (l : list AnyRow) :
  wholeAmounts amountColumns l = true ->
  let s := CashIn.withNonDepositVoucher
             (foldl (fun v row => RowEffect.cashIn row v) (CashIn.newSummary code) l) in
  CashIn.clinicCode s = code
  /\ CashIn.total s = Finite (sumOf amountOf l)
  /\ CashIn.deposit s = Finite (sumOf amountOf (Sums.depositRows l))
  /\ CashIn.voucher s = Finite (sumOf amountOf (Sums.voucherRows l))
  /\ CashIn.nonDepositVoucher s = Finite (sumOf amountOf (Sums.otherRows l)).
Proof.
  intros Hw.
  destruct (cashIn_numbers_whole code l Hw) as (Hc & _ & Ht & Hd & Hv).
  destruct (wholeAmounts_column _ _ amountOf Hw ltac:(simpl; auto)) as [Hi Hb].
  unfold CashIn.withNonDepositVoucher;
    cbn [CashIn.clinicCode CashIn.paymentMethodTotals CashIn.deposit CashIn.voucher
         CashIn.nonDepositVoucher CashIn.total].
  split; [exact Hc |]. split; [exact Ht |]. split; [exact Hd |]. split; [exact Hv |].
  rewrite Ht, Hd, Hv.
  assert (Hid : integral (sumOf amountOf (Sums.depositRows l)) = true)
    by (apply integral_sumOf, Forall_filter_list, Hi).
  assert (Hiv : integral (sumOf amountOf (Sums.voucherRows l)) = true)
    by (apply integral_sumOf, Forall_filter_list, Hi).
  rewrite sub_whole; [| apply integral_sumOf, Hi | exact Hid |].
  - rewrite sub_whole; [rewrite sumOf_other; reflexivity | | exact Hiv |].
    + apply integral_plus; [apply integral_sumOf, Hi | apply integral_opp, Hid].
    + rewrite sumOf_other. unfold Sums.otherRows. rewrite <- sumOf_filter.
      eapply Qcle_trans; [apply abs_sumOf_some | exact Hb].
  - rewrite sumOf_not_deposit.
    eapply Qcle_trans; [apply abs_sumOf_some | exact Hb].
Qed.

(** The summary the pipeline puts out for a clinic whose labels are not
    inherited and whose amounts are whole. *)
Lemma cashIn_summary_whole (code : string) (l : list AnyRow) :
  plainMethods l = true -> wholeAmounts amountColumns l = true ->
  CashIn.withNonDepositVoucher
    (foldl (fun v row => RowEffect.cashIn row v) (CashIn.newSummary code) l)
  = Sums.cashIn code l.
Proof.
  intros Hp Hw.
  destruct (cashIn_output_numbers code l Hw) as (Hc & Ht & Hd & Hv & Hn).
  apply cashIn_summary_eq; try assumption.
  apply cashIn_labels_whole; assumption.
Qed.

End CashInSummary.

(** ** The summaries the handlers keep *)

Section ClinicSums.
Context `{NumberPrinter} `{FunctionPrinter}.

Lemma rowsOf_counted (code : string) (rows : list AnyRow) :
  rowsOf code (RowEffect.counted rows)
  = if JSObject.inherited code then [] else rowsOf code rows.
Proof.
  unfold rowsOf, RowEffect.counted. induction rows as [|row rows IH]; simpl.
  - destruct (JSObject.inherited code); reflexivity.
  - destruct (JSObject.inherited (RowEffect.clinicOf row)) eqn:Hr; simpl; rewrite IH;
      (destruct (String.eqb_spec (RowEffect.clinicOf row) code) as [E|_];
       [rewrite <- E, Hr; reflexivity | reflexivity]).
Qed.

Lemma rowsOf_elem_of (code : string) (rows : list AnyRow) (row : AnyRow) :
  row ∈ rowsOf code rows <-> row ∈ rows /\ RowEffect.clinicOf row = code.
Proof.
  unfold rowsOf. rewrite !list_elem_of_In, filter_In, String.eqb_eq. reflexivity.
Qed.

Lemma rowsOf_nonempty (code : string) (rows : list AnyRow) :
  rowsOf code rows <> [] <-> exists row, row ∈ rows /\ RowEffect.clinicOf row = code.
Proof.
  split.
  - destruct (rowsOf code rows) as [|row l] eqn:E; [congruence |]. intros _.
    exists row. apply rowsOf_elem_of. rewrite E. left.
  - intros (row & Hrow) E. apply rowsOf_elem_of in Hrow. rewrite E in Hrow.
    inversion Hrow.
Qed.

Lemma rowsOf_Permutation (code : string) (rows rows' : list AnyRow) :
  rows ≡ₚ rows' -> rowsOf code rows ≡ₚ rowsOf code rows'.
Proof.
  unfold rowsOf. induction 1 as [|x l l' _ IH|x y l|l l' l'' _ IH1 _ IH2]; simpl.
  - reflexivity.
  - destruct (String.eqb _ _); rewrite IH; reflexivity.
  - destruct (String.eqb (RowEffect.clinicOf x) code),
             (String.eqb (RowEffect.clinicOf y) code); try reflexivity.
    apply perm_swap.
  - etransitivity; eassumption.
Qed.

(** The summary of a clinic is what its rows make of a new summary; a
    clinic whose code is inherited has none. *)
Lemma clinic_lookup {V} (init : string -> V) (effect : AnyRow -> V -> V)
    (rows : list AnyRow) (code : string) :
  foldl (upsert RowEffect.clinicOf init effect) ∅ (RowEffect.counted rows) !! code
  = if JSObject.inherited code then None
    else match rowsOf code rows with
         | [] => None
         | l => Some (foldl (fun v row => effect row v) (init code) l)
         end.
Proof.
  rewrite run_lookup. fold (rowsOf code (RowEffect.counted rows)).
  rewrite rowsOf_counted. destruct (JSObject.inherited code); reflexivity.
Qed.

Lemma revenue_clinicMap_lookup (rows : list AnyRow) (code : string) :
  wholeAmounts priceColumns (rowsOf code rows) = true ->
  Revenue.clinicMap rows !! code
  = if JSObject.inherited code then None
    else match rowsOf code rows with
         | [] => None
         | l => Some (Sums.revenue code l)
         end.
Proof.
  intros Hl. rewrite revenue_clinicMap_upsert, clinic_lookup.
  destruct (JSObject.inherited code); [reflexivity |].
  destruct (rowsOf code rows) as [|row l]; [reflexivity |].
  rewrite revenue_summary_whole by exact Hl. reflexivity.
Qed.

Lemma depositPurchase_clinicMap_lookup (rows : list AnyRow) (code : string) :
  wholeAmounts priceColumns (rowsOf code rows) = true ->
  DepositPurchase.clinicMap rows !! code
  = if JSObject.inherited code then None
    else match rowsOf code rows with
         | [] => None
         | l => Some (Sums.depositPurchase code l)
         end.
Proof.
  intros Hl. rewrite depositPurchase_clinicMap_upsert, clinic_lookup.
  destruct (JSObject.inherited code); [reflexivity |].
  destruct (rowsOf code rows) as [|row l]; [reflexivity |].
  rewrite depositPurchase_summary_whole by exact Hl. reflexivity.
Qed.

(** The cash-in output: none when a clinic code is inherited. *)
Lemma cashIn_processedData_upsert (rows : list AnyRow) :
  CashIn.processedData rows
  = if plainClinics rows
    then Some (CashIn.withNonDepositVoucher
                 <$> foldl (upsert RowEffect.clinicOf CashIn.newSummary RowEffect.cashIn)
                           ∅ rows)
    else None.
Proof.
  unfold CashIn.processedData. rewrite cashIn_clinicMap_upsert.
  destruct (plainClinics rows); reflexivity.
Qed.

Lemma cashIn_processedData_lookup (rows : list AnyRow)
    (out : gmap string CashIn.CashInClinicSummary) (code : string) :
  CashIn.processedData rows = Some out ->
  plainMethods (rowsOf code rows) = true ->
  wholeAmounts amountColumns (rowsOf code rows) = true ->
  out !! code
  = match rowsOf code rows with
    | [] => None
    | l => Some (Sums.cashIn code l)
    end.
Proof.
  rewrite cashIn_processedData_upsert. destruct (plainClinics rows); [| discriminate].
  intros [= <-] Hm Hl. rewrite lookup_fmap, run_lookup. fold (rowsOf code rows).
  destruct (rowsOf code rows) as [|row l]; [reflexivity |].
  simpl. rewrite <- (cashIn_summary_whole code (row :: l) Hm Hl). reflexivity.
Qed.

(** The numbers of the cash-in output need no condition on the labels. *)
Lemma cashIn_processedData_numbers (rows : list AnyRow)
    (out : gmap string CashIn.CashInClinicSummary) (code : string)
    (clinic : CashIn.CashInClinicSummary) :
  CashIn.processedData rows = Some out -> out !! code = Some clinic ->
  rowsOf code rows <> []
  /\ (wholeAmounts amountColumns (rowsOf code rows) = true ->
      CashIn.clinicCode clinic = code
      /\ CashIn.total clinic = Finite (sumOf amountOf (rowsOf code rows))
      /\ CashIn.deposit clinic = Finite (sumOf amountOf (Sums.depositRows (rowsOf code rows)))
      /\ CashIn.voucher clinic = Finite (sumOf amountOf (Sums.voucherRows (rowsOf code rows)))
      /\ CashIn.nonDepositVoucher clinic
         = Finite (sumOf amountOf (Sums.otherRows (rowsOf code rows)))).
Proof.
  rewrite cashIn_processedData_upsert. destruct (plainClinics rows); [| discriminate].
  intros [= <-]. rewrite lookup_fmap, run_lookup. fold (rowsOf code rows).
  destruct (rowsOf code rows) as [|row l] eqn:E; [discriminate |].
  simpl. intros [= <-]. split; [discriminate |].
  intros Hw. apply (cashIn_output_numbers code (row :: l) Hw).
Qed.

Lemma plainClinics_Permutation (rows rows' : list AnyRow) :
  rows ≡ₚ rows' -> plainClinics rows = plainClinics rows'.
Proof.
  intros Hp. unfold plainClinics. apply eq_true_iff_eq. rewrite !forallb_forall.
  split; intros Hf row Hrow; apply Hf.
  - apply list_elem_of_In. rewrite Hp. apply list_elem_of_In, Hrow.
  - apply list_elem_of_In. rewrite <- Hp. apply list_elem_of_In, Hrow.
Qed.

Lemma plainClinics_false (rows : list AnyRow) :
  plainClinics rows = false
  <-> exists row, row ∈ rows /\ JSObject.inherited (RowEffect.clinicOf row) = true.
Proof.
  unfold plainClinics. rewrite <- not_true_iff_false, forallb_forall. split.
  - intros Hn. induction rows as [|row rows IH].
    + exfalso. apply Hn. intros x [].
    + destruct (JSObject.inherited (RowEffect.clinicOf row)) eqn:Hk.
      * exists row. split; [left | exact Hk].
      * destruct IH as (r & Hr & Hi).
        -- intros Hall. apply Hn. intros x [<-|Hx]; [rewrite Hk; reflexivity | auto].
        -- exists r. split; [right; exact Hr | exact Hi].
  - intros (row & Hrow & Hk) Hall. apply list_elem_of_In in Hrow.
    specialize (Hall row Hrow). rewrite Hk in Hall. discriminate.
Qed.

(** The three sums are those of any other order of the rows. *)
Lemma Sums_revenue_Permutation (code : string) (l l' : list AnyRow) :
  l ≡ₚ l' -> Sums.revenue code l = Sums.revenue code l'.
Proof.
  intros Hp. unfold Sums.revenue.
  rewrite !(sumOf_Permutation _ _ _ Hp). reflexivity.
Qed.

Lemma Sums_depositPurchase_Permutation (code : string) (l l' : list AnyRow) :
  l ≡ₚ l' -> Sums.depositPurchase code l = Sums.depositPurchase code l'.
Proof.
  intros Hp. unfold Sums.depositPurchase.
  rewrite !(sumOf_Permutation _ _ _ Hp). reflexivity.
Qed.

Lemma filter_Permutation_list {A} (p : A -> bool) (l l' : list A) :
  l ≡ₚ l' -> List.filter p l ≡ₚ List.filter p l'.
Proof.
  induction 1 as [|x l l' _ IH|x y l|l l' l'' _ IH1 _ IH2]; simpl.
  - reflexivity.
  - destruct (p x); rewrite IH; reflexivity.
  - destruct (p x), (p y); try reflexivity. apply perm_swap.
  - etransitivity; eassumption.
Qed.

Lemma Sums_cashIn_Permutation (code : string) (l l' : list AnyRow) :
  l ≡ₚ l' -> Sums.cashIn code l = Sums.cashIn code l'.
Proof.
  intros Hp. unfold Sums.cashIn, Sums.depositRows, Sums.voucherRows, Sums.otherRows.
  rewrite (amountsByLabel_Permutation _ _ Hp), (sumOf_Permutation _ _ _ Hp).
  rewrite !(sumOf_Permutation _ _ _ (filter_Permutation_list _ _ _ Hp)). reflexivity.
Qed.

End ClinicSums.

(** ** Revenue cross-validation *)

Lemma integral_small (d t : Qc) :
  integral d = true -> (0 < t)%Qc -> (t <= ofZ 1)%Qc ->
  ((Math_abs d < t)%Qc <-> d = 0%Qc).
Proof.
  intros Hd Ht0 Ht1. split.
  - intros Hlt. rewrite (integral_spec d Hd) in *. rewrite Math_abs_ofZ_abs in Hlt.
    assert (Hn : (ofZ (Z.abs (Qnum d)) < ofZ 1)%Qc)
      by (eapply Qclt_le_trans; eassumption).
    rewrite ofZ_lt in Hn. rewrite <- ofZ_0. f_equal. lia.
  - intros ->. rewrite Math_abs_0. exact Ht0.
Qed.

Lemma Math_abs_triangle_sub (a b : Qc) :
  (Math_abs (a - b) <= Math_abs a + Math_abs b)%Qc.
Proof. rewrite <- (Math_abs_opp b). apply Math_abs_triangle. Qed.

Lemma integral_minus (a b : Qc) :
  integral a = true -> integral b = true -> integral (a - b) = true.
Proof. intros Ha Hb. apply integral_plus; [| apply integral_opp]; assumption. Qed.

(** The magnitudes the second checksum goes through. *)
Lemma magnitudes_bound (ma mb mc md mt B x1 x2 x3 x4 : Qc) :
  (0 <= ma -> 0 <= mb -> 0 <= mc -> 0 <= md -> 0 <= mt ->
   ma + mb + mc + md + mt <= B ->
   x1 <= ma + mb -> x2 <= x1 + mc -> x3 <= x2 + md -> x4 <= mt + x3 ->
   x1 <= B /\ x2 <= B /\ x3 <= B /\ x4 <= B)%Qc.
Proof. intros. to_Q. lra. Qed.

(** The second checksum and its distance from the total, on whole
    numbers. *)
Lemma checksum_whole (a b c d total : Qc) :
  integral a = true -> integral b = true -> integral c = true ->
  integral d = true -> integral total = true ->
  (Math_abs a + Math_abs b + Math_abs c + Math_abs d + Math_abs total
   <= ofZ (2 ^ 53))%Qc ->
  Binary64.sub (Binary64.sub (Binary64.add (Finite a) (Finite b)) (Finite c)) (Finite d)
  = Finite ((a + b) - (c + d))
  /\ Binary64.sub (Finite total) (Finite ((a + b) - (c + d)))
     = Finite (total - ((a + b) - (c + d)))
  /\ integral (total - ((a + b) - (c + d))) = true.
Proof.
  intros Ia Ib Ic Id It Hbound.
  assert (E : ((a + b) - (c + d))%Qc = (a + b - c - d)%Qc) by ring.
  destruct (magnitudes_bound _ _ _ _ _ _ _ _ _ _
              (Math_abs_nonneg a) (Math_abs_nonneg b) (Math_abs_nonneg c)
              (Math_abs_nonneg d) (Math_abs_nonneg total) Hbound
              (Math_abs_triangle a b) (Math_abs_triangle_sub (a + b) c)
              (Math_abs_triangle_sub (a + b - c) d)
              (Math_abs_triangle_sub total (a + b - c - d))) as (B1 & B2 & B3 & B4).
  rewrite E.
  split; [| split].
  - rewrite add_whole; [| assumption..].
    rewrite sub_whole; [| apply integral_plus; assumption | assumption..].
    rewrite sub_whole;
      [reflexivity | apply integral_minus; [apply integral_plus |]; assumption
       | assumption..].
  - apply sub_whole; [assumption | | assumption].
    repeat apply integral_minus; try assumption. apply integral_plus; assumption.
  - repeat apply integral_minus; try assumption. apply integral_plus; assumption.
Qed.

Lemma Qc_minus_0 (x y : Qc) : (x - y)%Qc = 0%Qc <-> x = y.
Proof.
  split; intros E.
  - assert (E' : x = (x - y + y)%Qc) by ring. rewrite E' , E. ring.
  - rewrite E. ring.
Qed.

Lemma validation_cases (t : Revenue.RevenueTotals) :
  (Revenue.validation t = "PASS"%string <-> Revenue.withinTolerance t = true)
  /\ (Revenue.validation t = "FAIL"%string <-> Revenue.withinTolerance t = false).
Proof.
  unfold Revenue.validation. destruct (Revenue.withinTolerance t); split; split;
    intros; try discriminate; reflexivity.
Qed.

Lemma tolerance_value : Revenue.tolerance = Finite (Q2Qc (5764607523034235 # 2 ^ 59)).
Proof. number_eq. Qed.

(** The validation of whole totals. *)
Lemma validation_whole (t : Revenue.RevenueTotals) (a b c d total : Qc) :
  Revenue.Totals.treatmentSellingPrice t = Finite a ->
  Revenue.Totals.productSellingPrice t = Finite b ->
  Revenue.Totals.treatmentDiscount t = Finite c ->
  Revenue.Totals.productDiscount t = Finite d ->
  Revenue.Totals.total t = Finite total ->
  integral a = true -> integral b = true -> integral c = true ->
  integral d = true -> integral total = true ->
  (Math_abs a + Math_abs b + Math_abs c + Math_abs d + Math_abs total
   <= ofZ (2 ^ 53))%Qc ->
  Revenue.checksum2 t = Finite ((a + b) - (c + d))
  /\ Binary64.sub (Revenue.Totals.total t) (Revenue.checksum2 t)
     = Finite (total - ((a + b) - (c + d)))
  /\ integral (total - ((a + b) - (c + d))) = true
  /\ (Revenue.validation t = "PASS"%string <-> (total - ((a + b) - (c + d)))%Qc = 0%Qc).
Proof.
  intros Ha Hb Hc Hd Ht Ia Ib Ic Id It Hbound.
  destruct (checksum_whole a b c d total Ia Ib Ic Id It Hbound) as (Hck & Hsub & Idiff).
  assert (Hc2 : Revenue.checksum2 t = Finite ((a + b) - (c + d))).
  { unfold Revenue.checksum2. rewrite Ha, Hb, Hc, Hd. exact Hck. }
  split; [exact Hc2 |]. split; [rewrite Ht, Hc2; exact Hsub |]. split; [exact Idiff |].
  rewrite (proj1 (validation_cases t)). unfold Revenue.withinTolerance.
  rewrite tolerance_value, Hc2, Ht, Hsub.
  simpl. rewrite Qc_ltb_true. apply integral_small; [exact Idiff | |].
  - apply Qc_ltb_true. vm_compute. reflexivity.
  - apply Qc_leb_true. vm_compute. reflexivity.
Qed.

(** C1, as it is stated, fails on the code.  With the whole subtotals
    2^54 + 0 - 1 - 1 the code's "Checksum 2" is 2^54, because each of its two
    subtractions rounds, while (2^54 + 0) - (1 + 1) is 2^54 - 2, in exact
    arithmetic and in binary64 alike; and the total 2^54 - 2, which is that
    value, shows FAIL.  With the total 0.8099999999999999 and the selling
    prices 0.1 and 0.7 the total is within 0.01 of the checksum, and the code
    shows FAIL, because its subtraction rounds up to 0.010000000000000009. *)
Lemma revenue_cross_validation_counterexample :
  (let t := Examples.revenueTotalsOf (Finite (ofZ (2 ^ 54))) (Finite 0) (Finite (ofZ 1))
              (Finite (ofZ 1)) (Finite (ofZ (2 ^ 54 - 2))) in
   let claimed := ((ofZ (2 ^ 54) + 0) - (ofZ 1 + ofZ 1))%Qc in
   Revenue.checksum2 t <> Finite claimed
   /\ Binary64.sub (Binary64.add (Finite (ofZ (2 ^ 54))) (Finite 0))
                   (Binary64.add (Finite (ofZ 1)) (Finite (ofZ 1)))
      = Finite claimed
   /\ (Math_abs (ofZ (2 ^ 54 - 2) - claimed) < Q2Qc (1 # 100))%Qc
   /\ Revenue.validation t = "FAIL"%string)
  /\ (let total := Q2Qc (7295831396340203 # 2 ^ 53) in
      let a := Q2Qc (3602879701896397 # 2 ^ 55) in
      let b := Q2Qc (3152519739159347 # 2 ^ 52) in
      let t := Examples.revenueTotalsOf (Finite a) (Finite b) (Finite 0) (Finite 0)
                 (Finite total) in
      Binary64.round (Q2Qc (1 # 10)) = Finite a
      /\ Binary64.round (Q2Qc (7 # 10)) = Finite b
      /\ Binary64.round total = Finite total
      /\ (Math_abs (total - ((a + b) - (0 + 0))) < Q2Qc (5764607523034235 # 2 ^ 59))%Qc
      /\ (Math_abs (total - ((a + b) - (0 + 0))) < Q2Qc (1 # 100))%Qc
      /\ Revenue.validation t = "FAIL"%string).
Proof.
  split; cbv zeta.
  - split; [| split; [| split]].
    + intros E. apply (f_equal (fun x => match x with Finite q => Qnum q | _ => 0 end)) in E.
      vm_compute in E. discriminate.
    + number_eq.
    + apply Qc_ltb_true. vm_compute. reflexivity.
    + vm_compute. reflexivity.
  - split; [| split; [| split; [| split; [| split]]]].
    + number_eq.
    + number_eq.
    + number_eq.
    + apply Qc_ltb_true. vm_compute. reflexivity.
    + apply Qc_ltb_true. vm_compute. reflexivity.
    + vm_compute. reflexivity.
Qed.

(** C1, amended.  "Checksum 2" is treatmentSellingPrice +
    productSellingPrice - treatmentDiscount - productDiscount, evaluated from
    left to right in binary64; the validation reads PASS exactly when the
    binary64 difference between the total and that checksum is a number whose
    absolute value is below the binary64 number 0.01, and FAIL otherwise
    (also when the difference is not a number), so it is always one of the
    two texts.  For whole subtotals and a whole total whose magnitudes add up
    to 2^53 at most the checksum is (treatmentSellingPrice +
    productSellingPrice) - (treatmentDiscount + productDiscount) exactly, and
    the validation reads PASS exactly when the total is within 0.01 of it,
    which is when they are equal.  The totals exist as soon as there is one
    clinic.  With subtotals 500 + 300 - 50 - 20 a total of 730 passes and a
    total of 731 fails. *)
Theorem revenue_cross_validation_binary64 :
  (forall t : Revenue.RevenueTotals,
     Revenue.checksum2 t
     = Binary64.sub
         (Binary64.sub
            (Binary64.add (Revenue.Totals.treatmentSellingPrice t)
                          (Revenue.Totals.productSellingPrice t))
            (Revenue.Totals.treatmentDiscount t))
         (Revenue.Totals.productDiscount t)
     /\ (Revenue.validation t = "PASS"%string
         <-> exists difference : Qc,
               Binary64.sub (Revenue.Totals.total t) (Revenue.checksum2 t)
               = Finite difference
               /\ (Math_abs difference < Q2Qc (5764607523034235 # 2 ^ 59))%Qc)
     /\ (Revenue.validation t = "FAIL"%string <-> Revenue.validation t <> "PASS"%string)
     /\ (Revenue.validation t = "PASS"%string \/ Revenue.validation t = "FAIL"%string))
  /\ (forall (t : Revenue.RevenueTotals) (a b c d total : Qc),
        Revenue.Totals.treatmentSellingPrice t = Finite a ->
        Revenue.Totals.productSellingPrice t = Finite b ->
        Revenue.Totals.treatmentDiscount t = Finite c ->
        Revenue.Totals.productDiscount t = Finite d ->
        Revenue.Totals.total t = Finite total ->
        integral a = true -> integral b = true -> integral c = true ->
        integral d = true -> integral total = true ->
        (Math_abs a + Math_abs b + Math_abs c + Math_abs d + Math_abs total
         <= ofZ (2 ^ 53))%Qc ->
        let checksum := ((a + b) - (c + d))%Qc in
        Revenue.checksum2 t = Finite checksum
        /\ (Revenue.validation t = "PASS"%string
            <-> (Math_abs (total - checksum) < Q2Qc (1 # 100))%Qc)
        /\ (Revenue.validation t = "PASS"%string <-> total = checksum))
  /\ (forall revenueData : list Revenue.RevenueClinicSummary,
        Revenue.totals revenueData = None <-> revenueData = [])
  /\ Revenue.validation (Examples.revenueTotals (ofZ 730)) = "PASS"%string
  /\ Revenue.validation (Examples.revenueTotals (ofZ 731)) = "FAIL"%string.
Proof.
  split; [| split; [| split; [| split; reflexivity]]].
  - intros t. destruct (validation_cases t) as [Hpass Hfail].
    split; [reflexivity |]. split; [| split].
    + rewrite Hpass. unfold Revenue.withinTolerance. rewrite tolerance_value.
      destruct (Binary64.sub _ _) as [q|negative|]; simpl.
      * rewrite Qc_ltb_true. split; [intros Hq; exists q; auto |].
        intros (q' & [= <-] & Hq). exact Hq.
      * split; [discriminate | intros (q & [=] & _)].
      * split; [discriminate | intros (q & [=] & _)].
    + rewrite Hfail, Hpass. destruct (Revenue.withinTolerance t); split; congruence.
    + rewrite Hpass, Hfail. destruct (Revenue.withinTolerance t); auto.
  - intros t a b c d total Ha Hb Hc Hd Ht Ia Ib Ic Id It Hbound checksum.
    destruct (validation_whole t a b c d total Ha Hb Hc Hd Ht Ia Ib Ic Id It Hbound)
      as (Hc2 & _ & Idiff & Hpass).
    fold checksum in Hc2, Idiff, Hpass.
    split; [exact Hc2 |]. split.
    + rewrite Hpass. symmetry. apply integral_small; [exact Idiff | |].
      * apply Qc_ltb_true. vm_compute. reflexivity.
      * apply Qc_leb_true. vm_compute. reflexivity.
    + rewrite Hpass. apply Qc_minus_0.
  - intros [|c l]; unfold Revenue.totals; simpl; split; congruence.
Qed.

Lemma revenue_cross_validation_binary64_witness :
  Revenue.checksum2 (Examples.revenueTotals (ofZ 730)) = Finite (ofZ 730)
  /\ Revenue.validation (Examples.revenueTotals (ofZ 730)) = "PASS"%string
  /\ Revenue.validation (Examples.revenueTotals (ofZ 731)) <> "PASS"%string.
Proof.
  destruct revenue_cross_validation_binary64 as (_ & Hwhole & _).
  destruct (Hwhole (Examples.revenueTotals (ofZ 730)) (ofZ 500) (ofZ 300) (ofZ 50) (ofZ 20)
              (ofZ 730) eq_refl eq_refl eq_refl eq_refl eq_refl eq_refl eq_refl eq_refl
              eq_refl eq_refl) as (Hc & _ & Hp).
  { apply Qc_leb_true. vm_compute. reflexivity. }
  destruct (Hwhole (Examples.revenueTotals (ofZ 731)) (ofZ 500) (ofZ 300) (ofZ 50) (ofZ 20)
              (ofZ 731) eq_refl eq_refl eq_refl eq_refl eq_refl eq_refl eq_refl eq_refl
              eq_refl eq_refl) as (_ & _ & Hf).
  { apply Qc_leb_true. vm_compute. reflexivity. }
  split; [| split].
  - rewrite Hc. number_eq.
  - apply Hp. number_eq.
  - rewrite Hf. intros E. apply (f_equal (fun q : Qc => Qnum q)) in E.
    vm_compute in E. discriminate.
Defined.

(** ** Revenue classification *)




Example revenue_classification_ignores_case :
  classify (Str.toLowerCase "Treatment") = Treatment
  /\ classify (Str.toLowerCase "PRODUCT") = Product
  /\ classify (Str.toLowerCase "Service") = Unclassified
  /\ classify (Str.toLowerCase "") = Unclassified.
Proof. repeat split. Qed.

(** ** Cash-in derived field *)

(** C7. Every clinic summary the cash-in pipeline puts out has
    nonDepositVoucher = total - deposit - voucher: the field is computed by
    the final map from the summary the accumulation left, in which it still
    has its initial value 0. *)
Theorem cashin_nonDepositVoucher `{NumberPrinter} `{FunctionPrinter}
    (jsonData : list AnyRow) (out : gmap string CashIn.CashInClinicSummary)
    (code : string) (clinic : CashIn.CashInClinicSummary) :
  CashIn.processedData jsonData = Some out ->
  out !! code = Some clinic ->
  CashIn.nonDepositVoucher clinic
  = Binary64.sub (Binary64.sub (CashIn.total clinic) (CashIn.deposit clinic))
                 (CashIn.voucher clinic)
  /\ exists accumulatedMap accumulated,
       CashIn.clinicMap jsonData = Some accumulatedMap
       /\ accumulatedMap !! code = Some accumulated
       /\ CashIn.nonDepositVoucher accumulated = Finite 0
       /\ CashIn.total clinic = CashIn.total accumulated
       /\ CashIn.deposit clinic = CashIn.deposit accumulated
       /\ CashIn.voucher clinic = CashIn.voucher accumulated
       /\ CashIn.paymentMethodTotals clinic = CashIn.paymentMethodTotals accumulated.
Proof.
  unfold CashIn.processedData.
  destruct (CashIn.clinicMap jsonData) as [m|] eqn:Hm; [| discriminate].
  intros [= <-]. rewrite lookup_fmap. intros Hl.
  destruct (m !! code) as [s|] eqn:Hs; [| discriminate].
  simpl in Hl. injection Hl as <-. split; [reflexivity |].
  exists m, s. split; [reflexivity |]. split; [exact Hs |]. split; [| repeat split].
  rewrite cashIn_clinicMap_upsert in Hm. destruct (plainClinics jsonData); [| discriminate].
  injection Hm as <-.
  apply (run_invariant RowEffect.clinicOf CashIn.newSummary RowEffect.cashIn
           (fun _ v => CashIn.nonDepositVoucher v = Finite 0) jsonData) in Hs;
    [exact Hs | reflexivity |].
  intros row v Hv. exact Hv.
Qed.

Lemma cashin_nonDepositVoucher_witness :
  @CashIn.processedData Examples.printer Examples.functionPrinter Examples.cashInRows
  = Some Examples.cashInOutput
  /\ Examples.cashInOutput !! "JKT"%string = Some Examples.cashInClinic
  /\ CashIn.total Examples.cashInClinic = Finite (ofZ 1000)
  /\ CashIn.deposit Examples.cashInClinic = Finite (ofZ 300)
  /\ CashIn.voucher Examples.cashInClinic = Finite (ofZ 200)
  /\ CashIn.nonDepositVoucher Examples.cashInClinic = Finite (ofZ 500).
Proof.
  assert (Hout : @CashIn.processedData Examples.printer Examples.functionPrinter
                   Examples.cashInRows = Some Examples.cashInOutput)
    by (vm_compute; reflexivity).
  assert (Hp : Examples.cashInOutput !! "JKT"%string = Some Examples.cashInClinic)
    by (vm_compute; reflexivity).
  split; [exact Hout |]. split; [exact Hp |].
  assert (Ht : CashIn.total Examples.cashInClinic = Finite (ofZ 1000)) by number_eq.
  assert (Hd : CashIn.deposit Examples.cashInClinic = Finite (ofZ 300)) by number_eq.
  assert (Hv : CashIn.voucher Examples.cashInClinic = Finite (ofZ 200)) by number_eq.
  split; [exact Ht |]. split; [exact Hd |]. split; [exact Hv |].
  destruct (@cashin_nonDepositVoucher Examples.printer Examples.functionPrinter
              _ _ _ _ Hout Hp) as [Hn _].
  rewrite Hn, Ht, Hd, Hv. number_eq.
Defined.

(** ** Cash-in accumulation *)

Section Vouchers.
Context `{NumberPrinter}.


End Vouchers.




(** ** Order of the rows *)

Lemma match_Permutation {A B} (F : list A -> B) (l l' : list A) :
  l ≡ₚ l' -> F l = F l' ->
  match l with [] => None | x :: r => Some (F (x :: r)) end
  = match l' with [] => None | x :: r => Some (F (x :: r)) end.
Proof.
  intros Hp HF. destruct l as [|x l], l' as [|x' l'].
  - reflexivity.
  - apply Permutation_nil in Hp. discriminate.
  - symmetry in Hp. apply Permutation_nil in Hp. discriminate.
  - rewrite HF. reflexivity.
Qed.

Section Orders.
Context `{NumberPrinter} `{FunctionPrinter}.

Lemma revenue_clinicMap_Permutation (rows rows' : list AnyRow) :
  rows ≡ₚ rows' -> wholeAmounts priceColumns rows = true ->
  Revenue.clinicMap rows = Revenue.clinicMap rows'.
Proof.
  intros Hp Hw. apply map_eq. intros code.
  assert (Hr := rowsOf_Permutation code rows rows' Hp).
  assert (Hw' : wholeAmounts priceColumns rows' = true)
    by (rewrite <- (wholeAmounts_Permutation _ _ _ Hp); exact Hw).
  rewrite !revenue_clinicMap_lookup by (apply wholeAmounts_filter; assumption).
  destruct (JSObject.inherited code); [reflexivity |].
  apply (match_Permutation (Sums.revenue code)); [exact Hr |].
  apply Sums_revenue_Permutation. exact Hr.
Qed.

Lemma depositPurchase_clinicMap_Permutation (rows rows' : list AnyRow) :
  rows ≡ₚ rows' -> wholeAmounts priceColumns rows = true ->
  DepositPurchase.clinicMap rows = DepositPurchase.clinicMap rows'.
Proof.
  intros Hp Hw. apply map_eq. intros code.
  assert (Hr := rowsOf_Permutation code rows rows' Hp).
  assert (Hw' : wholeAmounts priceColumns rows' = true)
    by (rewrite <- (wholeAmounts_Permutation _ _ _ Hp); exact Hw).
  rewrite !depositPurchase_clinicMap_lookup by (apply wholeAmounts_filter; assumption).
  destruct (JSObject.inherited code); [reflexivity |].
  apply (match_Permutation (Sums.depositPurchase code)); [exact Hr |].
  apply Sums_depositPurchase_Permutation. exact Hr.
Qed.

(** The accumulated summary of a clinic, in another order of its rows. *)
Lemma cashIn_accumulated_Permutation (code : string) (l l' : list AnyRow) :
  l ≡ₚ l' -> plainMethods l = true -> wholeAmounts amountColumns l = true ->
  foldl (fun v row => RowEffect.cashIn row v) (CashIn.newSummary code) l
  = foldl (fun v row => RowEffect.cashIn row v) (CashIn.newSummary code) l'.
Proof.
  intros Hp Hm Hw.
  assert (Hm' : plainMethods l' = true)
    by (rewrite <- (plainMethods_Permutation _ _ Hp); exact Hm).
  assert (Hw' : wholeAmounts amountColumns l' = true)
    by (rewrite <- (wholeAmounts_Permutation _ _ _ Hp); exact Hw).
  destruct (cashIn_numbers_whole code l Hw) as (Hc & Hn & Ht & Hd & Hv).
  destruct (cashIn_numbers_whole code l' Hw') as (Hc' & Hn' & Ht' & Hd' & Hv').
  apply cashIn_summary_eq.
  - congruence.
  - rewrite !cashIn_labels_whole by assumption.
    rewrite (amountsByLabel_Permutation _ _ Hp). reflexivity.
  - rewrite Hd, Hd'. unfold Sums.depositRows.
    rewrite (sumOf_Permutation _ _ _ (filter_Permutation_list _ _ _ Hp)). reflexivity.
  - rewrite Hv, Hv'. unfold Sums.voucherRows.
    rewrite (sumOf_Permutation _ _ _ (filter_Permutation_list _ _ _ Hp)). reflexivity.
  - congruence.
  - rewrite Ht, Ht', (sumOf_Permutation _ _ _ Hp). reflexivity.
Qed.

Lemma cashIn_clinicMap_Permutation (rows rows' : list AnyRow) :
  rows ≡ₚ rows' -> plainMethods rows = true -> wholeAmounts amountColumns rows = true ->
  CashIn.clinicMap rows = CashIn.clinicMap rows'.
Proof.
  intros Hp Hm Hw. rewrite !cashIn_clinicMap_upsert, <- (plainClinics_Permutation _ _ Hp).
  destruct (plainClinics rows); [| reflexivity]. f_equal.
  apply map_eq. intros code. rewrite !run_lookup.
  fold (rowsOf code rows). fold (rowsOf code rows').
  apply (match_Permutation
           (foldl (fun v row => RowEffect.cashIn row v) (CashIn.newSummary code)));
    [apply rowsOf_Permutation; exact Hp |].
  apply cashIn_accumulated_Permutation;
    [apply rowsOf_Permutation; exact Hp | apply plainMethods_filter; exact Hm
     | apply wholeAmounts_filter; exact Hw].
Qed.

End Orders.

(** C8, as it is stated, fails on the code: binary64 additions do not
    commute with one another.  Three sales of one clinic whose final prices
    are 2^53, 1 and 1 add up to 2^53 in that order and to 2^53 + 2 in the
    reverse order, in the revenue and in the deposit-purchase summary; three
    payments of 2^53, 1 and 1 do the same in the cash-in summary.  Two whole
    payments of 57 and 3 under the label "constructor" are kept as the text
    "...573" in that order and as "...357" in the reverse order. *)
Lemma aggregation_order_independent_counterexample :
  Samples.largeRevenueRows ≡ₚ rev Samples.largeRevenueRows
  /\ Samples.largeCashInRows ≡ₚ rev Samples.largeCashInRows
  /\ Revenue.total
       <$> @Revenue.clinicMap Examples.printer Samples.largeRevenueRows !! "JKT"%string
     = Some (Finite (ofZ (2 ^ 53)))
  /\ Revenue.total
       <$> @Revenue.clinicMap Examples.printer (rev Samples.largeRevenueRows)
           !! "JKT"%string
     = Some (Finite (ofZ (2 ^ 53 + 2)))
  /\ @Revenue.clinicMap Examples.printer Samples.largeRevenueRows
     <> @Revenue.clinicMap Examples.printer (rev Samples.largeRevenueRows)
  /\ @DepositPurchase.clinicMap Examples.printer Samples.largeRevenueRows
     <> @DepositPurchase.clinicMap Examples.printer (rev Samples.largeRevenueRows)
  /\ @CashIn.clinicMap Examples.printer Examples.functionPrinter Samples.largeCashInRows
     <> @CashIn.clinicMap Examples.printer Examples.functionPrinter
          (rev Samples.largeCashInRows)
  /\ @CashIn.processedData Examples.printer Examples.functionPrinter
       Samples.largeCashInRows
     <> @CashIn.processedData Examples.printer Examples.functionPrinter
          (rev Samples.largeCashInRows)
  /\ wholeAmounts amountColumns Samples.inheritedLabelRows = true
  /\ CashIn.paymentMethodTotals (Samples.cashInClinic Samples.inheritedLabelRows)
     = {[ "constructor"%string
          := CashIn.Text "function Object() { [native code] }573" ]}
  /\ CashIn.paymentMethodTotals (Samples.cashInClinic (rev Samples.inheritedLabelRows))
     = {[ "constructor"%string
          := CashIn.Text "function Object() { [native code] }357" ]}.
Proof.
  split; [apply Permutation_rev |]. split; [apply Permutation_rev |].
  split; [number_eq |]. split; [number_eq |].
  split; [| split; [| split; [| split; [| split; [| split]]]]];
    [| | | | vm_compute; reflexivity | vm_compute; reflexivity | vm_compute; reflexivity].
  - intros E.
    apply (f_equal (fun m => match Revenue.total <$> m !! "JKT"%string with
                             | Some (Finite q) => Qnum q
                             | _ => 0
                             end)) in E.
    vm_compute in E. discriminate.
  - intros E.
    apply (f_equal (fun m => match DepositPurchase.total <$> m !! "JKT"%string with
                             | Some (Finite q) => Qnum q
                             | _ => 0
                             end)) in E.
    vm_compute in E. discriminate.
  - intros E.
    apply (f_equal (fun o => match o with
                             | Some m =>
                                 match CashIn.total <$> m !! "JKT"%string with
                                 | Some (Finite q) => Qnum q
                                 | _ => 0
                                 end
                             | None => 0
                             end)) in E.
    vm_compute in E. discriminate.
  - intros E.
    apply (f_equal (fun o => match o with
                             | Some m =>
                                 match CashIn.total <$> m !! "JKT"%string with
                                 | Some (Finite q) => Qnum q
                                 | _ => 0
                                 end
                             | None => 0
                             end)) in E.
    vm_compute in E. discriminate.
Qed.

(** C8, amended.  When the price columns of an upload hold whole numbers
    whose magnitudes add up to 2^53 at most, permuting its rows leaves the
    revenue and the deposit-purchase aggregators with the same dictionary of
    clinic summaries.  When the amounts of an upload are such whole numbers
    and no payment method is a key that a plain object inherits, permuting its
    rows leaves the cash-in accumulation (payment-method totals included),
    and so the cash-in output, the same; the upload fails in both orders or in
    neither. *)
Theorem aggregation_order_independent_whole `{NumberPrinter} `{FunctionPrinter}
    (rows rows' : list AnyRow) :
  rows ≡ₚ rows' ->
  (wholeAmounts priceColumns rows = true ->
   Revenue.clinicMap rows = Revenue.clinicMap rows'
   /\ DepositPurchase.clinicMap rows = DepositPurchase.clinicMap rows')
  /\ (wholeAmounts amountColumns rows = true -> plainMethods rows = true ->
      CashIn.clinicMap rows = CashIn.clinicMap rows'
      /\ CashIn.processedData rows = CashIn.processedData rows'
      /\ (CashIn.processedData rows = None <-> CashIn.processedData rows' = None)).
Proof.
  intros Hp. split.
  - intros Hw. split.
    + apply revenue_clinicMap_Permutation; assumption.
    + apply depositPurchase_clinicMap_Permutation; assumption.
  - intros Hw Hm.
    assert (Hc := cashIn_clinicMap_Permutation rows rows' Hp Hm Hw).
    assert (Hd : CashIn.processedData rows = CashIn.processedData rows')
      by (unfold CashIn.processedData; rewrite Hc; reflexivity).
    split; [exact Hc |]. split; [exact Hd |]. rewrite Hd. reflexivity.
Qed.

Lemma aggregation_order_independent_whole_witness :
  Samples.cashInRows ≡ₚ rev Samples.cashInRows
  /\ Samples.revenueRows ≡ₚ rev Samples.revenueRows
  /\ @CashIn.processedData Examples.printer Examples.functionPrinter Samples.cashInRows
     = @CashIn.processedData Examples.printer Examples.functionPrinter
         (rev Samples.cashInRows)
  /\ @Revenue.clinicMap Examples.printer Samples.revenueRows
     = @Revenue.clinicMap Examples.printer (rev Samples.revenueRows).
Proof.
  assert (Hc : Samples.cashInRows ≡ₚ rev Samples.cashInRows) by apply Permutation_rev.
  assert (Hr : Samples.revenueRows ≡ₚ rev Samples.revenueRows) by apply Permutation_rev.
  split; [exact Hc |]. split; [exact Hr |]. split.
  - destruct (@aggregation_order_independent_whole Examples.printer Examples.functionPrinter
                _ _ Hc) as (_ & Hcash).
    exact (proj1 (proj2 (Hcash eq_refl eq_refl))).
  - destruct (@aggregation_order_independent_whole Examples.printer Examples.functionPrinter
                _ _ Hr) as (Hrev & _).
    exact (proj1 (Hrev eq_refl)).
Defined.

(** * Further properties *)

(** ** Printing integers *)

Section Printing.
Import Str.

Lemma digitsValue_append (base : Z) (value : ascii -> Z) (acc : Z) (s t : string) :
  digitsValue base value acc (s ++ t)
  = digitsValue base value (digitsValue base value acc s) t.
Proof.
  revert acc. induction s as [|c r IH]; intros acc; [reflexivity |].
  change (String c r ++ t)%string with (String c (r ++ t)). simpl. apply IH.
Qed.

Lemma all_append (p : ascii -> bool) (s t : string) :
  all p (s ++ t) = all p s && all p t.
Proof.
  induction s as [|c r IH]; [reflexivity |].
  change (String c r ++ t)%string with (String c (r ++ t)). simpl.
  rewrite IH, andb_assoc. reflexivity.
Qed.

Lemma length_append (s t : string) :
  String.length (s ++ t) = (String.length s + String.length t)%nat.
Proof.
  induction s as [|c r IH]; [reflexivity |].
  change (String c r ++ t)%string with (String c (r ++ t)). simpl. rewrite IH.
  reflexivity.
Qed.

Lemma append_assoc (s t u : string) : ((s ++ t) ++ u)%string = (s ++ (t ++ u))%string.
Proof.
  induction s as [|c r IH]; [reflexivity |].
  change (String c r ++ t)%string with (String c (r ++ t)).
  change (String c (r ++ t) ++ u)%string with (String c ((r ++ t) ++ u)).
  change (String c r ++ (t ++ u))%string with (String c (r ++ (t ++ u))).
  rewrite IH. reflexivity.
Qed.

Lemma code_digitChar (d : Z) : 0 <= d <= 9 -> code (Text.digitChar d) = 48 + d.
Proof.
  intros Hd. unfold code, Text.digitChar.
  rewrite N_ascii_embedding by lia. lia.
Qed.

Lemma isDigit_digitChar (d : Z) : 0 <= d <= 9 -> isDigit (Text.digitChar d) = true.
Proof. intros Hd. apply isDigit_code. rewrite code_digitChar by exact Hd. lia. Qed.

(** What [decimalDigits] puts in front of its accumulator. *)
Lemma decimalDigits_spec (fuel : nat) (n : Z) (acc : string) :
  (1 <= fuel)%nat -> 0 <= n < 2 ^ Z.of_nat fuel ->
  exists ds,
    Text.decimalDigits fuel n acc = (ds ++ acc)%string
    /\ ds <> EmptyString
    /\ all isDigit ds = true
    /\ decimalValue ds = n
    /\ (String.length ds <= fuel)%nat.
Proof.
  revert n acc. induction fuel as [|f IH]; intros n acc Hf Hn; [lia |].
  simpl Text.decimalDigits.
  assert (Hmod : 0 <= n mod 10 <= 9) by (pose proof (Z.mod_pos_bound n 10); lia).
  destruct (Z.ltb_spec n 10) as [Hlt|Hge].
  - exists (String (Text.digitChar (n mod 10)) EmptyString).
    split; [reflexivity |]. split; [discriminate |].
    split; [simpl; rewrite isDigit_digitChar by exact Hmod; reflexivity |].
    split; [| simpl; lia].
    unfold decimalValue. simpl. unfold digitValue.
    rewrite code_digitChar by exact Hmod. rewrite Z.mod_small by lia. lia.
  - assert (Hf' : (1 <= f)%nat).
    { destruct f; [| lia]. simpl in Hn. lia. }
    destruct (IH (n / 10) (String (Text.digitChar (n mod 10)) acc) Hf') as
      (ds & Hds & Hne & Hall & Hval & Hlen).
    { rewrite Nat2Z.inj_succ, Z.pow_succ_r in Hn by lia.
      split; [apply Z.div_pos; lia |].
      apply Z.div_lt_upper_bound; lia. }
    exists (ds ++ String (Text.digitChar (n mod 10)) EmptyString)%string.
    split; [rewrite Hds, append_assoc; reflexivity |].
    split; [destruct ds; [contradiction | discriminate] |].
    split; [rewrite all_append, Hall; simpl;
            rewrite isDigit_digitChar by exact Hmod; reflexivity |].
    split.
    + unfold decimalValue in *. rewrite digitsValue_append, Hval. simpl.
      unfold digitValue. rewrite code_digitChar by exact Hmod.
      pose proof (Z.div_mod n 10). lia.
    + rewrite length_append. simpl. lia.
Qed.

(** A natural number is printed as a numeral that reads back as it. *)
Lemma integerToString_spec (n : Z) :
  0 <= n ->
  let s := Text.integerToString n in
  s <> EmptyString /\ all isDigit s = true /\ decimalValue s = n
  /\ (String.length s <= S (Z.to_nat (Z.log2 n)))%nat.
Proof.
  intros Hn s. unfold s, Text.integerToString.
  destruct (Z.ltb_spec n 0) as [|_]; [lia |].
  destruct (decimalDigits_spec (S (Z.to_nat (Z.log2 n))) n EmptyString)
    as (ds & Hds & Hne & Hall & Hval & Hlen); [lia | |].
  { split; [exact Hn |]. rewrite Nat2Z.inj_succ, Z2Nat.id by apply Z.log2_nonneg.
    destruct (Z.eq_dec n 0) as [->|]; [reflexivity |].
    apply Z.log2_spec. lia. }
  rewrite Hds, append_empty. auto.
Qed.

End Printing.

(** ** Dates written and read back *)

Section DateRoundTrip.
Import Str DateTime.

Lemma digitsValue_zeros (k : nat) :
  digitsValue 10 digitValue 0 (Text.repeatChar k "0") = 0.
Proof. induction k as [|k IH]; [reflexivity | exact IH]. Qed.

Lemma all_repeat_zero (k : nat) : all isDigit (Text.repeatChar k "0") = true.
Proof. induction k as [|k IH]; [reflexivity | exact IH]. Qed.

Lemma length_repeatChar (k : nat) (c : ascii) : String.length (Text.repeatChar k c) = k.
Proof. induction k as [|k IH]; simpl; congruence. Qed.

(** Padding a numeral with zeros keeps it a numeral of the same value. *)
Lemma padStart_numeral (n : nat) (s : string) :
  s <> EmptyString -> all isDigit s = true ->
  let p := Text.padStart n "0" s in
  p <> EmptyString /\ all isDigit p = true /\ decimalValue p = decimalValue s
  /\ String.length p = Nat.max n (String.length s).
Proof.
  intros Hne Hs p. unfold p, Text.padStart.
  split; [| split; [| split]].
  - destruct (Text.repeatChar (n - String.length s) "0"); [exact Hne | discriminate].
  - rewrite all_append, all_repeat_zero, Hs. reflexivity.
  - unfold decimalValue. rewrite digitsValue_append, digitsValue_zeros. reflexivity.
  - rewrite length_append, length_repeatChar. lia.
Qed.

(** The calendar day of any time value. *)
Lemma civil_of_time (t : Z) :
  let y := YearFromTime t in
  let m := MonthFromTime t in
  let d := DateFromTime t in
  0 <= m < 12 /\ 1 <= d <= DaysInMonth y m /\ MakeDay y m d = Day t.
Proof.
  intros y m d. subst y m d.
  pose proof (YearFromTime_spec t) as Hy.
  remember (YearFromTime t) as Y eqn:HY.
  rewrite DayFromYear_succ in Hy.
  unfold DateFromTime, MonthFromTime, InLeapYear, DayWithinYear, DaysInMonth.
  rewrite <- HY.
  assert (Hw : Day t = DayFromYear Y + (Day t - DayFromYear Y)) by lia.
  remember (Day t - DayFromYear Y) as w eqn:Hweq. clear Hweq.
  unfold DaysInYear in Hy.
  destruct (isLeapYear Y) eqn:EL; decide_tests;
    (split; [lia |]); (split; [simpl monthStart; lia |]);
    rewrite MakeDay_in_year by lia; rewrite EL; simpl monthStart; lia.
Qed.

Lemma create_ofZ (y m d : Z) :
  DateObject.create (ofZ y) (ofZ m - 1)%Qc (ofZ d)
  = {| timeValue :=
        TimeClip (MakeDate
          (MakeDay (if (0 <=? y) && (y <=? 99) then 1900 + y else y) (m - 1) d) 0) |}.
Proof.
  unfold DateObject.create. rewrite ofZ_minus_1, !ToIntegerOrInfinity_ofZ. reflexivity.
Qed.

Lemma digits_no_char (k : ascii) (s : string) :
  (code k < 48 \/ 57 < code k) -> all isDigit s = true ->
  all (fun c => negb (Ascii.eqb c k)) s = true.
Proof.
  intros Hk. induction s as [|c r IH]; simpl; [reflexivity |].
  rewrite andb_true_iff. intros [Hc Hr]. rewrite (IH Hr), andb_true_r.
  apply negb_true_iff. apply (isDigit_eqb c (code k)); [exact Hc | reflexivity | exact Hk].
Qed.

Lemma append_cons_no_char (k sep : ascii) (s t : string) :
  Ascii.eqb sep k = false ->
  all (fun c => negb (Ascii.eqb c k)) s = true ->
  all (fun c => negb (Ascii.eqb c k)) t = true ->
  all (fun c => negb (Ascii.eqb c k)) (s ++ String sep t) = true.
Proof.
  intros Hsep Hs Ht. rewrite all_append, Hs. simpl. rewrite Hsep, Ht. reflexivity.
Qed.

(** [parseDate] on three numerals around slashes. *)
Lemma parseDate_numerals (dd mm yyyy : string) :
  isNumeral dd = true -> isNumeral mm = true -> isNumeral yyyy = true ->
  parseDate (CString (dd ++ String "/" (mm ++ String "/" yyyy)))
  = Some (DateObject.create (ofZ (decimalValue yyyy)) (ofZ (decimalValue mm) - 1)%Qc
                            (ofZ (decimalValue dd))).
Proof.
  intros Hdd Hmm Hyyyy.
  apply isNumeral_true in Hdd as (Nd & Dd & Ld).
  apply isNumeral_true in Hmm as (Nm & Dm & Lm).
  apply isNumeral_true in Hyyyy as (Ny & Dy & Ly).
  apply parseDate_Some.
  exists (dd ++ String "/" (mm ++ String "/" yyyy))%string, dd, mm, yyyy.
  do 3 eexists. split; [reflexivity |]. split.
  - assert (Hsp : forall s, all isDigit s = true ->
                            all (fun c => negb (Ascii.eqb c " ")) s = true)
      by (intros s; apply digits_no_char; left; reflexivity).
    assert (Hns : all (fun c => negb (Ascii.eqb c " "))
                      (dd ++ String "/" (mm ++ String "/" yyyy)) = true).
    { apply append_cons_no_char; [reflexivity | auto |].
      apply append_cons_no_char; [reflexivity | auto | auto]. }
    unfold beforeSpace. rewrite (split_no_separator " " _ Hns). simpl hd.
    assert (Hsl : forall s, all isDigit s = true ->
                            all (fun c => negb (Ascii.eqb c "/")) s = true)
      by (intros s; apply digits_no_char; left; reflexivity).
    rewrite (split_append "/" dd _ (Hsl _ Dd)), (split_append "/" mm _ (Hsl _ Dm)),
      (split_no_separator "/" yyyy (Hsl _ Dy)). reflexivity.
  - rewrite (Number_short_digits dd Nd Dd Ld), (Number_short_digits mm Nm Dm Lm),
      (Number_short_digits yyyy Ny Dy Ly). auto.
Qed.

(** The numerals [formatDate] and [toDateInputValue] write. *)
Lemma dateField_numeral (width : nat) (n : Z) :
  0 <= n <= 1000000 -> (width <= 2)%nat ->
  let s := Text.padStart width "0" (Text.ofDateField (Some n)) in
  isNumeral s = true /\ decimalValue s = n.
Proof.
  intros Hn Hw s. unfold s. simpl Text.ofDateField.
  destruct (integerToString_spec n ltac:(lia)) as (Hne & Hall & Hval & Hlen).
  destruct (padStart_numeral width _ Hne Hall) as (Pne & Pall & Pval & Plen).
  split; [| rewrite Pval; exact Hval].
  apply isNumeral_true. split; [exact Pne |]. split; [exact Pall |].
  rewrite Plen.
  assert (Z.log2 n < 20).
  { destruct (Z.eq_dec n 0) as [->|]; [reflexivity |].
    apply Z.log2_lt_pow2; lia. }
  lia.
Qed.

Lemma padStart_zero (s : string) : Text.padStart 0 "0" s = s.
Proof. reflexivity. Qed.

(** What [formatDate] writes is read back by [parseDate] as the same day,
    at midnight. *)
Lemma parseDate_formatDate (t : Z) :
  100 <= YearFromTime t <= 270000 ->
  parseDate (CString (formatDate (Some {| timeValue := Some t |})))
  = Some {| timeValue := Some (MakeDate (Day t) 0) |}.
Proof.
  intros Hy. destruct (civil_of_time t) as (Hm & Hd & HD).
  pose proof (DaysInMonth_bounds (YearFromTime t) (MonthFromTime t) Hm) as Hb.
  unfold formatDate, DateGetters.getDate, DateGetters.getFullYear, DateObject.getMonth.
  cbn [timeValue fmap option_fmap option_map].
  destruct (dateField_numeral 2 (DateFromTime t) ltac:(lia) ltac:(lia)) as [Nd Vd].
  destruct (dateField_numeral 2 (MonthFromTime t + 1) ltac:(lia) ltac:(lia)) as [Nm Vm].
  destruct (dateField_numeral 0 (YearFromTime t) ltac:(lia) ltac:(lia)) as [Ny Vy].
  rewrite padStart_zero in Ny, Vy.
  rewrite (parseDate_numerals _ _ _ Nd Nm Ny), Vd, Vm, Vy, create_ofZ.
  assert ((0 <=? YearFromTime t) && (YearFromTime t <=? 99) = false) as ->
    by (apply andb_false_iff; right; apply Z.leb_gt; lia).
  replace (MonthFromTime t + 1 - 1) with (MonthFromTime t) by lia.
  rewrite TimeClip_MakeDay by lia. rewrite HD. reflexivity.
Qed.

Lemma fromDateInputValue_numerals (yyyy mm dd : string) :
  isNumeral yyyy = true -> isNumeral mm = true -> isNumeral dd = true ->
  fromDateInputValue (yyyy ++ String "-" (mm ++ String "-" dd))
  = Some (DateObject.setHoursZero
            (DateObject.create (ofZ (decimalValue yyyy)) (ofZ (decimalValue mm) - 1)%Qc
                               (ofZ (decimalValue dd)))).
Proof.
  intros Hyyyy Hmm Hdd.
  apply isNumeral_true in Hdd as (Nd & Dd & Ld).
  apply isNumeral_true in Hmm as (Nm & Dm & Lm).
  apply isNumeral_true in Hyyyy as (Ny & Dy & Ly).
  unfold fromDateInputValue. rewrite (isEmpty_append _ _ Ny).
  rewrite (split_append "-" yyyy _ (digits_no_dash _ Dy)).
  rewrite (split_append "-" mm _ (digits_no_dash _ Dm)).
  rewrite (split_no_separator "-" dd (digits_no_dash _ Dd)).
  rewrite (Number_short_digits yyyy Ny Dy Ly), (Number_short_digits mm Nm Dm Lm),
    (Number_short_digits dd Nd Dd Ld). reflexivity.
Qed.

(** The value [toDateInputValue] writes is read back by
    [fromDateInputValue] as the same day, at midnight. *)
Lemma fromDateInputValue_toDateInputValue (t : Z) :
  100 <= YearFromTime t <= 270000 ->
  fromDateInputValue (toDateInputValue {| timeValue := Some t |})
  = Some {| timeValue := Some (MakeDate (Day t) 0) |}.
Proof.
  intros Hy. destruct (civil_of_time t) as (Hm & Hd & HD).
  pose proof (DaysInMonth_bounds (YearFromTime t) (MonthFromTime t) Hm) as Hb.
  unfold toDateInputValue, DateGetters.getDate, DateGetters.getFullYear,
    DateObject.getMonth.
  cbn [timeValue fmap option_fmap option_map].
  destruct (dateField_numeral 2 (DateFromTime t) ltac:(lia) ltac:(lia)) as [Nd Vd].
  destruct (dateField_numeral 2 (MonthFromTime t + 1) ltac:(lia) ltac:(lia)) as [Nm Vm].
  destruct (dateField_numeral 0 (YearFromTime t) ltac:(lia) ltac:(lia)) as [Ny Vy].
  rewrite padStart_zero in Ny, Vy.
  rewrite (fromDateInputValue_numerals _ _ _ Ny Nm Nd), Vd, Vm, Vy, create_ofZ.
  assert ((0 <=? YearFromTime t) && (YearFromTime t <=? 99) = false) as ->
    by (apply andb_false_iff; right; apply Z.leb_gt; lia).
  replace (MonthFromTime t + 1 - 1) with (MonthFromTime t) by lia.
  rewrite TimeClip_MakeDay by lia. rewrite HD.
  unfold DateObject.setHoursZero. cbn [timeValue].
  rewrite Day_MakeDate.
  rewrite <- HD, TimeClip_MakeDay by lia. reflexivity.
Qed.

End DateRoundTrip.

Section DateShape.
Import Str DateTime.

(** How many digits [decimalDigits] writes. *)
Lemma decimalDigits_length (fuel : nat) (n : Z) (acc : string) (k : nat) :
  (1 <= fuel)%nat -> 0 <= n < 2 ^ Z.of_nat fuel -> (1 <= k)%nat ->
  (n < 10 ^ Z.of_nat k ->
   (String.length (Text.decimalDigits fuel n acc) <= k + String.length acc)%nat)
  /\ (10 ^ (Z.of_nat k - 1) <= n ->
      (k + String.length acc <= String.length (Text.decimalDigits fuel n acc))%nat).
Proof.
  revert n acc k. induction fuel as [|f IH]; intros n acc k Hf Hn Hk; [lia |].
  simpl Text.decimalDigits.
  destruct (Z.ltb_spec n 10) as [Hlt|Hge].
  - split; intros Hb; simpl; [lia |].
    destruct (Nat.eq_dec k 1%nat) as [->|Hk1]; [lia |].
    exfalso.
    assert (10 ^ 1 <= 10 ^ (Z.of_nat k - 1)) by (apply Z.pow_le_mono_r; lia).
    lia.
  - assert (Hf' : (1 <= f)%nat).
    { destruct f; [| lia]. simpl in Hn. lia. }
    assert (Hn' : 0 <= n / 10 < 2 ^ Z.of_nat f).
    { rewrite Nat2Z.inj_succ, Z.pow_succ_r in Hn by lia.
      split; [apply Z.div_pos; lia |]. apply Z.div_lt_upper_bound; lia. }
    destruct (Nat.eq_dec k 1%nat) as [->|Hk1].
    + split; intros Hb; [simpl in Hb; lia |].
      destruct (IH (n / 10) (String (Text.digitChar (n mod 10)) acc) 1%nat Hf' Hn' ltac:(lia))
        as [_ Hlow].
      specialize (Hlow ltac:(simpl; apply Z.div_le_lower_bound; lia)).
      simpl in *. lia.
    + destruct (IH (n / 10) (String (Text.digitChar (n mod 10)) acc) (k - 1)%nat
                  Hf' Hn' ltac:(lia)) as [Hup Hlow].
      assert (Hp : 10 ^ Z.of_nat k = 10 * 10 ^ Z.of_nat (k - 1)).
      { rewrite <- Z.pow_succ_r by lia. f_equal. lia. }
      assert (Hq : 10 ^ (Z.of_nat k - 1) = 10 * 10 ^ (Z.of_nat (k - 1) - 1)).
      { rewrite <- Z.pow_succ_r by lia. f_equal. lia. }
      split; intros Hb.
      * specialize (Hup ltac:(apply Z.div_lt_upper_bound; lia)). simpl in Hup. lia.
      * specialize (Hlow ltac:(apply Z.div_le_lower_bound; lia)). simpl in Hlow. lia.
Qed.

Lemma integerToString_length (n : Z) (k : nat) :
  (1 <= k)%nat -> 10 ^ (Z.of_nat k - 1) <= n < 10 ^ Z.of_nat k -> 0 <= n ->
  String.length (Text.integerToString n) = k.
Proof.
  intros Hk Hn H0. unfold Text.integerToString.
  destruct (Z.ltb_spec n 0) as [|_]; [lia |].
  destruct (decimalDigits_length (S (Z.to_nat (Z.log2 n))) n EmptyString k) as [Hup Hlow];
    [lia | | exact Hk |].
  { split; [exact H0 |]. rewrite Nat2Z.inj_succ, Z2Nat.id by apply Z.log2_nonneg.
    destruct (Z.eq_dec n 0) as [->|]; [reflexivity |]. apply Z.log2_spec. lia. }
  specialize (Hup ltac:(lia)). specialize (Hlow ltac:(lia)). simpl in *. lia.
Qed.

Lemma integerToString_length_le (n : Z) (k : nat) :
  (1 <= k)%nat -> 0 <= n < 10 ^ Z.of_nat k ->
  (String.length (Text.integerToString n) <= k)%nat.
Proof.
  intros Hk Hn. unfold Text.integerToString.
  destruct (Z.ltb_spec n 0) as [|_]; [lia |].
  destruct (decimalDigits_length (S (Z.to_nat (Z.log2 n))) n EmptyString k) as [Hup _];
    [lia | | exact Hk |].
  { split; [lia |]. rewrite Nat2Z.inj_succ, Z2Nat.id by apply Z.log2_nonneg.
    destruct (Z.eq_dec n 0) as [->|]; [reflexivity |]. apply Z.log2_spec. lia. }
  specialize (Hup ltac:(lia)). simpl in *. lia.
Qed.

(** Two digits for a day or a month. *)
Lemma twoDigits (n : Z) :
  0 <= n <= 99 ->
  exists c1 c2,
    Text.padStart 2 "0" (Text.ofDateField (Some n)) = String c1 (String c2 EmptyString)
    /\ isDigit c1 = true /\ isDigit c2 = true.
Proof.
  intros Hn. simpl Text.ofDateField.
  destruct (integerToString_spec n ltac:(lia)) as (Hne & Hall & _ & _).
  destruct (padStart_numeral 2 _ Hne Hall) as (_ & Pall & _ & Plen).
  pose proof (integerToString_length_le n 2 ltac:(lia) ltac:(simpl; lia)) as Hl.
  destruct (Text.padStart 2 "0" (Text.integerToString n)) as [|c1 [|c2 [|c3 r]]];
    simpl in Plen; try lia.
  simpl in Pall. apply andb_true_iff in Pall as [H1 Pall].
  apply andb_true_iff in Pall as [H2 _]. eauto.
Qed.

Lemma fourDigits (n : Z) :
  1000 <= n <= 9999 ->
  exists c1 c2 c3 c4,
    Text.ofDateField (Some n)
    = String c1 (String c2 (String c3 (String c4 EmptyString)))
    /\ isDigit c1 = true /\ isDigit c2 = true /\ isDigit c3 = true /\ isDigit c4 = true.
Proof.
  intros Hn. simpl Text.ofDateField.
  destruct (integerToString_spec n ltac:(lia)) as (_ & Hall & _ & _).
  pose proof (integerToString_length n 4 ltac:(lia) ltac:(simpl; lia) ltac:(lia)) as Hl.
  destruct (Text.integerToString n) as [|c1 [|c2 [|c3 [|c4 [|c5 r]]]]];
    simpl in Hl; try lia.
  simpl in Hall. repeat (apply andb_true_iff in Hall as [? Hall]).
  do 4 eexists. split; [reflexivity |]. auto.
Qed.

End DateShape.

Section Midnight.
Import Str DateTime.
Context `{NumberPrinter}.

Lemma create_midnight (y m d : Qc) (t : Z) :
  timeValue (DateObject.create y m d) = Some t -> t = MakeDate (Day t) 0.
Proof.
  unfold DateObject.create. cbn [timeValue]. unfold TimeClip.
  destruct (_ <? _); [discriminate |]. intros [= <-]. rewrite Day_MakeDate. reflexivity.
Qed.

Lemma parseDate_midnight (v : cell) (d : Date) (t : Z) :
  parseDate v = Some d -> timeValue d = Some t -> t = MakeDate (Day t) 0.
Proof.
  intros Hp Ht. apply parseDate_Some in Hp.
  destruct Hp as (s & dd & mm & yyyy & day & month & year & _ & _ & _ & _ & _ & ->).
  exact (create_midnight _ _ _ _ Ht).
Qed.

Lemma setHoursZero_midnight (d : Date) (t : Z) :
  timeValue (DateObject.setHoursZero d) = Some t -> t = MakeDate (Day t) 0.
Proof.
  unfold DateObject.setHoursZero. cbn [timeValue].
  destruct (timeValue d) as [u|]; [| discriminate]. unfold TimeClip.
  destruct (_ <? _); [discriminate |]. intros [= <-]. rewrite Day_MakeDate. reflexivity.
Qed.

Lemma fromDateInputValue_midnight (value : string) (d : Date) (t : Z) :
  fromDateInputValue value = Some d -> timeValue d = Some t -> t = MakeDate (Day t) 0.
Proof.
  unfold fromDateInputValue. destruct (isEmpty value); [discriminate |].
  destruct (split "-" value) as [|yyyy [|mm [|dd [|]]]]; try discriminate.
  destruct (Number_ofString yyyy), (Number_ofString mm), (Number_ofString dd);
    try discriminate.
  intros [= <-]. apply setHoursZero_midnight.
Qed.

Lemma setMonth_midnight (d : Date) (m : option Z) (t e : Z) :
  timeValue d = Some t -> t = MakeDate (Day t) 0 ->
  timeValue (DateObject.setMonth d m) = Some e -> e = MakeDate (Day e) 0.
Proof.
  intros Ht Hmid. unfold DateObject.setMonth. cbn [timeValue]. rewrite Ht.
  destruct m as [m|]; [| discriminate].
  assert (TimeWithinDay t = 0) as -> by (rewrite Hmid; apply TimeWithinDay_MakeDate).
  unfold TimeClip. destruct (_ <? _); [discriminate |]. intros [= <-].
  rewrite Day_MakeDate. reflexivity.
Qed.

Lemma midnight_le (x y : Z) :
  x = MakeDate (Day x) 0 -> y = MakeDate (Day y) 0 -> (x <= y <-> Day x <= Day y).
Proof.
  intros Hx Hy. rewrite Hx, Hy at 1. unfold MakeDate, msPerDay. lia.
Qed.

Lemma pushed_expirationDate (row : AnyRow) (r : Deposit.DepositInfoRow) :
  Deposit.pushed row = Some r ->
  parseDate (get row "Deposit Expiration Time") = Some (Deposit.expirationDate r).
Proof.
  unfold Deposit.pushed.
  destruct (parseDate (get row "Deposit Expiration Time")) as [e|]; [| discriminate].
  destruct (isEmpty (stringFrom row "User ID")); [discriminate |].
  intros [= <-]. reflexivity.
Qed.

Lemma processedRows_In (jsonData : list AnyRow) (r : Deposit.DepositInfoRow) :
  In r (Deposit.processedRows jsonData)
  <-> exists row, In row jsonData /\ Deposit.hasRemainingQuantity row = true
                  /\ Deposit.pushed row = Some r.
Proof.
  unfold Deposit.processedRows. rewrite <- list_elem_of_In, list_elem_of_omap.
  split.
  - intros (row & Hin & Hp). apply list_elem_of_In, filter_In in Hin as [Hin Hq].
    exists row. auto.
  - intros (row & Hin & Hq & Hp). exists row. split; [| exact Hp].
    apply list_elem_of_In, filter_In. auto.
Qed.

End Midnight.

(** ** Dates as they are shown and read back *)

(** X1. A date shown by [formatDate] and read again by [parseDate] is the
    same day at midnight, for the years 100 to 270000; so a date that
    [parseDate] produced is read back unchanged.  What is shown for a missing
    date (N/A) or for an invalid one is not read as a date. *)
Theorem formatDate_parseDate_round_trip :
  (forall t : Z,
     100 <= DateTime.YearFromTime t <= 270000 ->
     parseDate (CString (formatDate (Some {| timeValue := Some t |})))
     = Some {| timeValue := Some (DateTime.MakeDate (DateTime.Day t) 0) |})
  /\ (forall (v : cell) (d : Date) (t : Z),
        parseDate v = Some d -> timeValue d = Some t ->
        100 <= DateTime.YearFromTime t <= 270000 ->
        parseDate (CString (formatDate (Some d))) = Some d)
  /\ parseDate (CString (formatDate None)) = None
  /\ parseDate (CString (formatDate (Some {| timeValue := None |}))) = None.
Proof.
  split; [exact parseDate_formatDate |].
  split; [| split; reflexivity].
  intros v [tv] t Hp Ht Hy. cbn [timeValue] in Ht. subst tv.
  rewrite (parseDate_formatDate t Hy).
  rewrite <- (parseDate_midnight v _ t Hp eq_refl). reflexivity.
Qed.

Lemma formatDate_parseDate_round_trip_witness :
  100 <= DateTime.YearFromTime 1709596800000 <= 270000
  /\ parseDate (CString (formatDate (Some {| timeValue := Some 1709596800000 |})))
     = Some {| timeValue :=
                Some (DateTime.MakeDate (DateTime.Day 1709596800000) 0) |}.
Proof.
  assert (Hy : 100 <= DateTime.YearFromTime 1709596800000 <= 270000)
    by (vm_compute; split; discriminate).
  split; [exact Hy |].
  exact (proj1 formatDate_parseDate_round_trip 1709596800000 Hy).
Defined.

(** X2. In the years 1000 to 9999 a date is shown as ten characters: two
    digits of the day, a slash, two digits of the month, a slash and the four
    digits of the year. *)
Theorem formatDate_DDMMYYYY (t : Z) :
  1000 <= DateTime.YearFromTime t <= 9999 ->
  isDDMMYYYY (formatDate (Some {| timeValue := Some t |})) = true.
Proof.
  intros Hy. destruct (civil_of_time t) as (Hm & Hd & _).
  pose proof (DaysInMonth_bounds (DateTime.YearFromTime t) (DateTime.MonthFromTime t) Hm) as Hb.
  unfold formatDate, DateGetters.getDate, DateGetters.getFullYear, DateObject.getMonth.
  cbn [timeValue fmap option_fmap option_map].
  destruct (twoDigits (DateTime.DateFromTime t) ltac:(lia)) as (d1 & d2 & -> & D1 & D2).
  destruct (twoDigits (DateTime.MonthFromTime t + 1) ltac:(lia)) as (m1 & m2 & -> & M1 & M2).
  destruct (fourDigits (DateTime.YearFromTime t) Hy)
    as (y1 & y2 & y3 & y4 & -> & Y1 & Y2 & Y3 & Y4).
  unfold isDDMMYYYY. cbv [String.append list_ascii_of_string].
  rewrite D1, D2, M1, M2, Y1, Y2, Y3, Y4. reflexivity.
Qed.

Lemma formatDate_DDMMYYYY_witness :
  1000 <= DateTime.YearFromTime 1709596800000 <= 9999
  /\ isDDMMYYYY (formatDate (Some {| timeValue := Some 1709596800000 |})) = true.
Proof.
  assert (Hy : 1000 <= DateTime.YearFromTime 1709596800000 <= 9999)
    by (vm_compute; split; discriminate).
  split; [exact Hy |].
  exact (formatDate_DDMMYYYY 1709596800000 Hy).
Defined.

(** X3. The start date field is filled with [toDateInputValue], and
    [fromDateInputValue] reads that text back as the same day at midnight
    (years 100 to 270000): the window computed from it starts on that day. *)
Theorem toDateInputValue_round_trip (t : Z) :
  100 <= DateTime.YearFromTime t <= 270000 ->
  let today := {| timeValue := Some t |} in
  let midnight := {| timeValue := Some (DateTime.MakeDate (DateTime.Day t) 0) |} in
  fromDateInputValue (toDateInputValue today) = Some midnight
  /\ exists end_,
       Deposit.depositDateRange (toDateInputValue today)
       = Some {| Deposit.start := midnight; Deposit.end_ := end_ |}.
Proof.
  intros Hy today midnight.
  pose proof (fromDateInputValue_toDateInputValue t Hy) as Hr. fold today midnight in Hr.
  split; [exact Hr |].
  unfold Deposit.depositDateRange. rewrite Hr. eexists. reflexivity.
Qed.

Lemma toDateInputValue_round_trip_witness :
  100 <= DateTime.YearFromTime 1709640000000 <= 270000
  /\ fromDateInputValue (toDateInputValue {| timeValue := Some 1709640000000 |})
     = Some {| timeValue :=
                Some (DateTime.MakeDate (DateTime.Day 1709640000000) 0) |}.
Proof.
  assert (Hy : 100 <= DateTime.YearFromTime 1709640000000 <= 270000)
    by (vm_compute; split; discriminate).
  split; [exact Hy |].
  exact (proj1 (toDateInputValue_round_trip 1709640000000 Hy)).
Defined.

Section CivilDates.
Import Str DateTime.

(** A date written with three numerals, as [new Date] reads it. *)
Lemma parseDate_civil (dd mm yyyy : string) :
  isNumeral dd = true -> isNumeral mm = true -> isNumeral yyyy = true ->
  let d := decimalValue dd in
  let m := decimalValue mm in
  let y := decimalValue yyyy in
  1 <= m <= 12 -> d <= 400 -> y <= 270000 ->
  parseDate (CString (dd ++ String "/" (mm ++ String "/" yyyy)))
  = Some (DateObject.ofCivil (if y <=? 99 then 1900 + y else y) (m - 1) d).
Proof.
  intros Hdd Hmm Hyyyy d m y Hm Hd Hy.
  rewrite (parseDate_numerals dd mm yyyy Hdd Hmm Hyyyy), create_ofZ.
  fold d m y.
  apply isNumeral_true in Hdd as (_ & Ad & _), Hyyyy as (_ & Ay & _).
  pose proof (decimalValue_nonneg dd Ad) as Pd.
  pose proof (decimalValue_nonneg yyyy Ay) as Py.
  fold d in Pd. fold y in Py.
  assert ((0 <=? y) = true) as -> by (apply Z.leb_le; exact Py).
  rewrite andb_true_l.
  unfold DateObject.ofCivil. f_equal. f_equal.
  apply TimeClip_MakeDay; [destruct (y <=? 99) eqn:E; [apply Z.leb_le in E |]; lia | lia | lia].
Qed.

(** A day number past the end of its month counts on into the next one. *)
Lemma MakeDay_overflow (y m d : Z) :
  1 <= m <= 12 ->
  MakeDay y (m - 1) d = MakeDay (y + m / 12) (m mod 12) (d - DaysInMonth y (m - 1)).
Proof.
  intros Hm.
  rewrite (MakeDay_in_year y (m - 1)) by lia.
  rewrite (MakeDay_in_year (y + m / 12) (m mod 12)) by (apply Z.mod_pos_bound; lia).
  unfold DaysInMonth.
  assert (C : m = 1 \/ m = 2 \/ m = 3 \/ m = 4 \/ m = 5 \/ m = 6 \/ m = 7 \/ m = 8
              \/ m = 9 \/ m = 10 \/ m = 11 \/ m = 12) by lia.
  pose proof (DayFromYear_succ y) as Hsucc. unfold DaysInYear in Hsucc.
  destruct C as [-> | [-> | [-> | [-> | [-> | [-> | [-> | [-> | [-> | [-> | [-> | ->]]]]]]]]]]];
    match goal with
    | |- context [y + ?a / 12] =>
        let q := eval cbv in (a / 12) in
        let r := eval cbv in (a mod 12) in
        change (a / 12) with q; change (a mod 12) with r
    end;
    rewrite ?Z.add_0_r;
    destruct (isLeapYear y), (isLeapYear (y + 1)); simpl in *; lia.
Qed.

(** The length in days of the window that starts on a day of the calendar. *)
Lemma window_length (y m d : Z) :
  -270000 <= y <= 270000 -> 0 <= m < 12 -> 1 <= d <= DaysInMonth y m ->
  let start := DateObject.ofCivil y m d in
  exists s e,
    timeValue start = Some s
    /\ timeValue (DateObject.setMonth start ((fun k => k + 2) <$> DateObject.getMonth start))
       = Some e
    /\ 59 <= Day e - Day s <= 62.
Proof.
  intros Hy Hm Hd start. subst start.
  rewrite (setMonth_plus_two y m d Hy Hm Hd).
  exists (MakeDate (MakeDay y m d) 0).
  assert (Hs : Day (MakeDate (MakeDay y m d) 0)
               = DayFromYear y + monthStart (if isLeapYear y then 1 else 0) m + d - 1)
    by (rewrite Day_MakeDate; apply MakeDay_in_year; exact Hm).
  pose proof (DayFromYear_succ y) as Hsucc. unfold DaysInYear in Hsucc.
  unfold DaysInMonth in *.
  each_month Hm;
    match goal with
    | |- context [y + ?a / 12] =>
        let q := eval cbv in (a / 12) in
        let r := eval cbv in (a mod 12) in
        change (a / 12) with q; change (a mod 12) with r
    end;
    rewrite ?Z.add_0_r;
    match goal with
    | |- context [if d <=? ?b then _ else _] => destruct (Z.leb_spec d b) as [E|E]
    end;
    eexists; (split; [reflexivity |]); (split; [reflexivity |]);
    rewrite Hs, Day_MakeDate;
    destruct (isLeapYear y) eqn:L1, (isLeapYear (y + 1)) eqn:L2; simpl in *;
    rewrite MakeDay_in_year by lia; rewrite ?L1, ?L2; simpl; lia.
Qed.

End CivilDates.

(** X4. Expiration dates and both ends of the window are at midnight,
    so a record is listed exactly when its day lies between the day of the
    start and the day of the end, both included: the time after the space in
    an expiration cell plays no role. *)
Theorem deposit_window_by_day `{NumberPrinter}
    (jsonData : list AnyRow) (depositStartDate : string) (range : Deposit.DateRange)
    (row : Deposit.DepositInfoRow) :
  Deposit.depositDateRange depositStartDate = Some range ->
  In row (Deposit.processedRows jsonData) ->
  (In row (Deposit.data (Deposit.processedRows jsonData) (Some range))
   <-> exists s x e,
         timeValue (Deposit.start range) = Some s
         /\ timeValue (Deposit.expirationDate row) = Some x
         /\ timeValue (Deposit.end_ range) = Some e
         /\ DateTime.TimeWithinDay s = 0
         /\ DateTime.TimeWithinDay x = 0
         /\ DateTime.TimeWithinDay e = 0
         /\ DateTime.Day s <= DateTime.Day x <= DateTime.Day e).
Proof.
  intros Hrange Hrow.
  unfold Deposit.depositDateRange in Hrange.
  destruct (fromDateInputValue depositStartDate) as [st|] eqn:Hst; [| discriminate].
  injection Hrange as <-. cbn [Deposit.start Deposit.end_].
  pose proof (proj1 (processedRows_In jsonData row) Hrow) as (r & _ & _ & Hp).
  apply pushed_expirationDate in Hp.
  unfold Deposit.data. rewrite filter_In, andb_true_iff, !Date_leb_true.
  cbn [Deposit.start Deposit.end_].
  split.
  - intros (_ & (s & x & Hs & Hx & Hsx) & (x' & e & Hx' & He & Hxe)).
    rewrite Hx in Hx'. injection Hx' as <-.
    pose proof (fromDateInputValue_midnight _ _ _ Hst Hs) as Ms.
    pose proof (parseDate_midnight _ _ _ Hp Hx) as Mx.
    pose proof (setMonth_midnight _ _ _ _ Hs Ms He) as Me.
    exists s, x, e. repeat split; try assumption;
      try (rewrite Ms || rewrite Mx || rewrite Me; apply TimeWithinDay_MakeDate).
    + apply (midnight_le s x Ms Mx). exact Hsx.
    + apply (midnight_le x e Mx Me). exact Hxe.
  - intros (s & x & e & Hs & Hx & He & _ & _ & _ & Hsx & Hxe).
    pose proof (fromDateInputValue_midnight _ _ _ Hst Hs) as Ms.
    pose proof (parseDate_midnight _ _ _ Hp Hx) as Mx.
    pose proof (setMonth_midnight _ _ _ _ Hs Ms He) as Me.
    split; [exact Hrow |]. split.
    + exists s, x. repeat split; try assumption. apply (midnight_le s x Ms Mx). exact Hsx.
    + exists x, e. repeat split; try assumption. apply (midnight_le x e Mx Me). exact Hxe.
Qed.

(** X5. [parseDate] hands the three numbers to [new Date] as they are,
    so a year written with one or two digits is read as a year of the 1900s:
    05/03/24 is 5 March 1924.  A year from 100 on is read as itself. *)
Theorem parseDate_two_digit_year (dd mm yyyy : string) :
  isNumeral dd = true -> isNumeral mm = true -> isNumeral yyyy = true ->
  let d := Str.decimalValue dd in
  let m := Str.decimalValue mm in
  let y := Str.decimalValue yyyy in
  1 <= m <= 12 -> d <= 400 ->
  (y <= 99 ->
   parseDate (CString (dd ++ String "/" (mm ++ String "/" yyyy)))
   = Some (DateObject.ofCivil (1900 + y) (m - 1) d))
  /\ (100 <= y <= 270000 ->
      parseDate (CString (dd ++ String "/" (mm ++ String "/" yyyy)))
      = Some (DateObject.ofCivil y (m - 1) d)).
Proof.
  intros Hdd Hmm Hyyyy d m y Hm Hd. split; intros Hy.
  - rewrite (parseDate_civil dd mm yyyy Hdd Hmm Hyyyy) by (fold m d y; lia).
    fold d m y. assert ((y <=? 99) = true) as -> by (apply Z.leb_le; exact Hy).
    reflexivity.
  - rewrite (parseDate_civil dd mm yyyy Hdd Hmm Hyyyy) by (fold m d y; lia).
    fold d m y. assert ((y <=? 99) = false) as -> by (apply Z.leb_gt; lia).
    reflexivity.
Qed.

Lemma parseDate_two_digit_year_witness :
  parseDate (CString "05/03/24") = Some (DateObject.ofCivil 1924 2 5).
Proof.
  refine (proj1 (parseDate_two_digit_year "05" "03" "24" _ _ _ _ _) _);
    vm_compute; repeat split; try reflexivity; intro; discriminate.
Defined.

(** X6. [parseDate] does not check the day against the calendar: a day
    number past the end of its month is read as a day of the next month (so
    31/02/2024 is 2 March 2024, and 32/12/2024 is 1 January 2025). *)
Theorem parseDate_day_overflow (dd mm yyyy : string) :
  isNumeral dd = true -> isNumeral mm = true -> isNumeral yyyy = true ->
  let d := Str.decimalValue dd in
  let m := Str.decimalValue mm in
  let y := Str.decimalValue yyyy in
  1 <= m <= 12 -> 100 <= y <= 270000 ->
  DateTime.DaysInMonth y (m - 1) < d <= 400 ->
  parseDate (CString (dd ++ String "/" (mm ++ String "/" yyyy)))
  = Some (DateObject.ofCivil (y + m / 12) (m mod 12)
            (d - DateTime.DaysInMonth y (m - 1))).
Proof.
  intros Hdd Hmm Hyyyy d m y Hm Hy Hd.
  rewrite (parseDate_civil dd mm yyyy Hdd Hmm Hyyyy) by (fold m d y; lia).
  fold d m y.
  assert ((y <=? 99) = false) as -> by (apply Z.leb_gt; lia).
  unfold DateObject.ofCivil. rewrite (MakeDay_overflow y m d Hm). reflexivity.
Qed.

Lemma parseDate_day_overflow_witness :
  parseDate (CString "31/02/2024") = Some (DateObject.ofCivil 2024 2 2)
  /\ parseDate (CString "32/12/2024") = Some (DateObject.ofCivil 2025 0 1).
Proof.
  split.
  - refine (parseDate_day_overflow "31" "02" "2024" _ _ _ _ _ _);
      vm_compute; repeat split; try reflexivity; intro; discriminate.
  - refine (parseDate_day_overflow "32" "12" "2024" _ _ _ _ _ _);
      vm_compute; repeat split; try reflexivity; intro; discriminate.
Defined.

(** X7. The window that starts on a day of the calendar written
    YYYY-MM-DD ends 59 to 62 days later. *)
Theorem deposit_window_length (yyyy mm dd : string) :
  isNumeral yyyy = true -> isNumeral mm = true -> isNumeral dd = true ->
  let y := Str.decimalValue yyyy in
  let m := Str.decimalValue mm in
  let d := Str.decimalValue dd in
  100 <= y <= 270000 -> 1 <= m <= 12 -> 1 <= d <= DateTime.DaysInMonth y (m - 1) ->
  exists range s e,
    Deposit.depositDateRange (yyyy ++ String "-" (mm ++ String "-" dd)) = Some range
    /\ timeValue (Deposit.start range) = Some s
    /\ timeValue (Deposit.end_ range) = Some e
    /\ 59 <= DateTime.Day e - DateTime.Day s <= 62.
Proof.
  intros Hyyyy Hmm Hdd y m d Hy Hm Hd.
  apply isNumeral_true in Hyyyy as (Ny & Ay & Ly), Hmm as (Nm & Am & Lm),
    Hdd as (Nd & Ad & Ld).
  unfold Deposit.depositDateRange.
  rewrite (fromDateInputValue_digits yyyy mm dd Ny Nm Nd Ay Am Ad Ly Lm Ld Hy Hm Hd).
  fold y m d.
  destruct (window_length y (m - 1) d ltac:(lia) ltac:(lia) Hd) as (s & e & Hs & He & Hlen).
  eexists _, s, e. split; [reflexivity |]. cbn [Deposit.start Deposit.end_]. auto.
Qed.

Lemma deposit_window_length_witness :
  exists range s e,
    Deposit.depositDateRange "2024-12-31" = Some range
    /\ timeValue (Deposit.start range) = Some s
    /\ timeValue (Deposit.end_ range) = Some e
    /\ 59 <= DateTime.Day e - DateTime.Day s <= 62.
Proof.
  refine (deposit_window_length "2024" "12" "31" _ _ _ _ _ _);
    vm_compute; repeat split; try reflexivity; intro; discriminate.
Defined.

(** ** Sorting *)

Section Sorting.
Context {A : Type} (comparefn : A -> A -> Z).

Lemma insert_Permutation (x : A) (l : list A) : JSArray.insert comparefn x l ≡ₚ x :: l.
Proof.
  induction l as [|y l IH]; simpl; [reflexivity |].
  destruct (0 <? comparefn x y); [| reflexivity].
  rewrite IH. apply Permutation_swap.
Qed.

Lemma sort_Permutation (l : list A) : JSArray.sort comparefn l ≡ₚ l.
Proof.
  induction l as [|x l IH]; simpl; [reflexivity |].
  rewrite insert_Permutation, IH. reflexivity.
Qed.

(** On elements that the comparator orders consistently, the result is
    sorted. *)
Lemma sort_StronglySorted (P : A -> Prop) (l : list A) :
  (forall x y, P x -> P y -> 0 < comparefn x y -> comparefn y x <= 0) ->
  (forall x y z, P x -> P y -> P z ->
     comparefn x y <= 0 -> comparefn y z <= 0 -> comparefn x z <= 0) ->
  Forall P l ->
  StronglySorted (fun a b => comparefn a b <= 0) (JSArray.sort comparefn l).
Proof.
  intros Htot Htrans. induction 1 as [|x l Hx Hl IH]; simpl; [constructor |].
  assert (HP : Forall P (JSArray.sort comparefn l)) by (rewrite sort_Permutation; exact Hl).
  revert IH HP. generalize (JSArray.sort comparefn l). clear l Hl.
  intros l Hs HP. induction Hs as [|y l Hs IH Hy]; simpl.
  - repeat constructor.
  - apply Forall_cons in HP as [Py HP].
    destruct (Z.ltb_spec 0 (comparefn x y)) as [Hgt|Hle].
    + constructor; [apply IH; exact HP |].
      rewrite insert_Permutation. constructor; [apply Htot; assumption | exact Hy].
    + constructor; [constructor; assumption |].
      constructor; [exact Hle |].
      rewrite Forall_forall in Hy, HP. apply Forall_forall. intros z Hz.
      apply (Htrans x y z); auto.
Qed.

(** A sorted list is left as it is. *)
Lemma sort_sorted_id (l : list A) :
  StronglySorted (fun a b => comparefn a b <= 0) l -> JSArray.sort comparefn l = l.
Proof.
  induction 1 as [|x l Hs IH Hx]; simpl; [reflexivity |].
  rewrite IH. destruct l as [|y l]; [reflexivity |]. simpl.
  apply Forall_cons in Hx as [Hxy _].
  destruct (Z.ltb_spec 0 (comparefn x y)); [lia | reflexivity].
Qed.

(** The sort is stable: elements that compare equal to [z] keep their
    order. *)
Lemma sort_stable (P : A -> Prop) (z : A) (l : list A) :
  (forall x y, P x -> P y -> comparefn x y = 0 -> comparefn y x <= 0) ->
  (forall x y z, P x -> P y -> P z ->
     comparefn x y <= 0 -> comparefn y z <= 0 -> comparefn x z <= 0) ->
  P z -> Forall P l ->
  List.filter (fun y => comparefn z y =? 0) (JSArray.sort comparefn l)
  = List.filter (fun y => comparefn z y =? 0) l.
Proof.
  intros Hsym Htrans Pz. induction 1 as [|a l Pa Hl IH]; [reflexivity |].
  simpl JSArray.sort.
  transitivity (List.filter (fun y => comparefn z y =? 0) (a :: JSArray.sort comparefn l));
    [| simpl; rewrite IH; reflexivity].
  assert (HP : Forall P (JSArray.sort comparefn l)) by (rewrite sort_Permutation; exact Hl).
  revert HP. generalize (JSArray.sort comparefn l). clear l Hl IH.
  intros s. induction 1 as [|y s Py Hs IH]; [reflexivity |].
  simpl JSArray.insert. destruct (Z.ltb_spec 0 (comparefn a y)) as [Hgt|Hle];
    [| reflexivity].
  simpl List.filter. simpl List.filter in IH. rewrite IH.
  destruct (Z.eqb_spec (comparefn z a) 0) as [Ea|Na]; [| reflexivity].
  destruct (Z.eqb_spec (comparefn z y) 0) as [Ey|Ny]; [| reflexivity].
  exfalso.
  assert (comparefn a y <= 0); [| lia].
  apply (Htrans a z y); auto; lia.
Qed.

End Sorting.

Lemma StronglySorted_filter {A} (R : A -> A -> Prop) (p : A -> bool) (l : list A) :
  StronglySorted R l -> StronglySorted R (List.filter p l).
Proof.
  induction 1 as [|x l Hs IH Hx]; simpl; [constructor |].
  destruct (p x); [| exact IH].
  constructor; [exact IH |].
  rewrite Forall_forall in *. intros y Hy.
  apply list_elem_of_In, filter_In in Hy as [Hy _]. apply Hx, list_elem_of_In, Hy.
Qed.

Lemma filter_partition_Permutation {A} (p : A -> bool) (l : list A) :
  List.filter p l ++ List.filter (fun x => negb (p x)) l ≡ₚ l.
Proof.
  induction l as [|x l IH]; simpl; [reflexivity |].
  destruct (p x); simpl.
  - rewrite IH. reflexivity.
  - rewrite <- Permutation_middle, IH. reflexivity.
Qed.

(** ** Keys and values of a dictionary *)

Section Dictionaries.

Lemma ownPropertyKeys_Permutation (created : list string) :
  JSObject.ownPropertyKeys created ≡ₚ created.
Proof.
  unfold JSObject.ownPropertyKeys. rewrite sort_Permutation.
  apply filter_partition_Permutation.
Qed.

Lemma createdKeys_snoc {R} (creates : string -> bool) (keyOf : R -> string)
    (rows : list R) (row : R) :
  JSObject.createdKeys creates keyOf (rows ++ [row])
  = if creates (keyOf row)
       && negb (bool_decide (keyOf row ∈ JSObject.createdKeys creates keyOf rows))
    then JSObject.createdKeys creates keyOf rows ++ [keyOf row]
    else JSObject.createdKeys creates keyOf rows.
Proof. unfold JSObject.createdKeys. rewrite foldl_snoc. reflexivity. Qed.

(** The keys created: each once, the keys of the rows that create one. *)
Lemma createdKeys_spec {R} (creates : string -> bool) (keyOf : R -> string)
    (rows : list R) :
  NoDup (JSObject.createdKeys creates keyOf rows)
  /\ forall k, k ∈ JSObject.createdKeys creates keyOf rows
               <-> creates k = true /\ exists row, row ∈ rows /\ keyOf row = k.
Proof.
  induction rows as [|row rows [IHn IHe]] using rev_ind.
  - split; [constructor |]. intros k. split.
    + intros Hk. inversion Hk.
    + intros (_ & row & Hr & _). inversion Hr.
  - rewrite createdKeys_snoc.
    destruct (creates (keyOf row)) eqn:Hc; simpl;
      [destruct (bool_decide_reflect
                   (keyOf row ∈ JSObject.createdKeys creates keyOf rows)) as [Hin|Hout];
       simpl |].
    + split; [exact IHn |]. intros k. rewrite IHe. split.
      * intros (Hk & r & Hr & E). split; [exact Hk |].
        exists r. split; [apply elem_of_app; left; exact Hr | exact E].
      * intros (Hk & r & Hr & E). split; [exact Hk |].
        apply elem_of_app in Hr as [Hr|Hr]; [eauto |].
        apply list_elem_of_singleton in Hr. subst r.
        apply IHe in Hin as (_ & r & Hr & E'). exists r. split; [exact Hr | congruence].
    + split.
      * apply NoDup_app. split; [exact IHn |]. split; [| apply NoDup_singleton].
        intros k Hk Hk'. apply list_elem_of_singleton in Hk'. subst k. contradiction.
      * intros k. rewrite elem_of_app, IHe, list_elem_of_singleton. split.
        -- intros [(Hk & r & Hr & E) | ->].
           ++ split; [exact Hk |].
              exists r. split; [apply elem_of_app; left; exact Hr | exact E].
           ++ split; [exact Hc |].
              exists row. split; [apply elem_of_app; right; apply list_elem_of_singleton |];
                reflexivity.
        -- intros (Hk & r & Hr & E). apply elem_of_app in Hr as [Hr|Hr]; [left; eauto |].
           apply list_elem_of_singleton in Hr. subst r. right. symmetry. exact E.
    + split; [exact IHn |]. intros k. rewrite IHe. split.
      * intros (Hk & r & Hr & E). split; [exact Hk |].
        exists r. split; [apply elem_of_app; left; exact Hr | exact E].
      * intros (Hk & r & Hr & E). split; [exact Hk |].
        apply elem_of_app in Hr as [Hr|Hr]; [eauto |].
        apply list_elem_of_singleton in Hr. subst r. congruence.
Qed.

Lemma entries_elem_of {V} (o : gmap string V) (created : list string) (k : string) (v : V) :
  (k, v) ∈ JSObject.entries o created <-> k ∈ created /\ o !! k = Some v.
Proof.
  unfold JSObject.entries. rewrite list_elem_of_omap. split.
  - intros (k' & Hk' & Hf). rewrite ownPropertyKeys_Permutation in Hk'.
    destruct (o !! k') as [v'|] eqn:E; [| discriminate]. simpl in Hf.
    injection Hf as <- <-. auto.
  - intros [Hk Hv]. exists k. rewrite ownPropertyKeys_Permutation, Hv. auto.
Qed.

Lemma entries_NoDup {V} (o : gmap string V) (created : list string) :
  NoDup created -> NoDup (JSObject.entries o created).
Proof.
  intros Hn. unfold JSObject.entries.
  assert (Hk : NoDup (JSObject.ownPropertyKeys created))
    by (rewrite ownPropertyKeys_Permutation; exact Hn).
  revert Hk. generalize (JSObject.ownPropertyKeys created). clear.
  intros keys. induction 1 as [|k keys Hk Hn IH]; [constructor |].
  simpl. destruct (o !! k) as [v|]; simpl; [| exact IH].
  constructor; [| exact IH].
  rewrite list_elem_of_omap. intros (k' & Hk' & Hf).
  destruct (o !! k'); [| discriminate]. simpl in Hf. injection Hf as -> _.
  contradiction.
Qed.

(** [Object.entries] lists the dictionary, each key once. *)
Lemma entries_Permutation {V} (o : gmap string V) (created : list string) :
  NoDup created -> (forall k, k ∈ created <-> is_Some (o !! k)) ->
  JSObject.entries o created ≡ₚ map_to_list o.
Proof.
  intros Hn Hdom. apply NoDup_Permutation.
  - apply entries_NoDup. exact Hn.
  - apply NoDup_map_to_list.
  - intros [k v]. rewrite entries_elem_of, elem_of_map_to_list, Hdom. split.
    + intros [_ Hv]. exact Hv.
    + intros Hv. split; [eexists; exact Hv | exact Hv].
Qed.

End Dictionaries.
Section CodeUnitOrder.

Lemma codeUnitCompare_opp (a b : string) :
  Samples.codeUnitCompare b a = - Samples.codeUnitCompare a b.
Proof.
  revert b. induction a as [|x a IH]; intros [|y b]; simpl; try reflexivity.
  rewrite (Z.eqb_sym (Str.code y)).
  destruct (Str.code x =? Str.code y); [apply IH | lia].
Qed.

Lemma codeUnitCompare_trans (a b c : string) :
  Samples.codeUnitCompare a b <= 0 -> Samples.codeUnitCompare b c <= 0 ->
  Samples.codeUnitCompare a c <= 0.
Proof.
  revert b c. induction a as [|x a IH]; intros [|y b] [|z c]; simpl; try lia.
  destruct (Z.eqb_spec (Str.code x) (Str.code y)) as [Exy|Nxy],
           (Z.eqb_spec (Str.code y) (Str.code z)) as [Eyz|Nyz],
           (Z.eqb_spec (Str.code x) (Str.code z)) as [Exz|Nxz]; try lia.
  apply IH.
Qed.

Lemma codeUnitCompare_strict (a b : string) : Samples.codeUnitCompare a b = 0 -> a = b.
Proof.
  revert b. induction a as [|x a IH]; intros [|y b]; simpl; try discriminate;
    [reflexivity |].
  destruct (Z.eqb_spec (Str.code x) (Str.code y)) as [E|N]; [| lia].
  intros Hc. rewrite (code_inj _ _ E), (IH b Hc). reflexivity.
Qed.

Lemma codeUnit_consistent : ConsistentCollator Samples.collator.
Proof.
  split.
  - intros a b. unfold localeCompare, Samples.collator.
    rewrite (codeUnitCompare_opp a b). lia.
  - exact codeUnitCompare_trans.
Qed.

End CodeUnitOrder.

Section CollatedLists.
Context `{NumberPrinter} `{collator : Collator}.
Context (consistent : ConsistentCollator collator).

Lemma localeCompare_total (a b : string) : 0 < localeCompare a b -> localeCompare b a <= 0.
Proof. intros Hab. apply localeCompare_antisym in Hab. lia. Qed.


Lemma sort_by_code_StronglySorted {V} (code : V -> string) (l : list V) :
  StronglySorted (fun a b => localeCompare (code a) (code b) <= 0)
    (JSArray.sort (fun a b => localeCompare (code a) (code b)) l).
Proof.
  apply (sort_StronglySorted (fun a b => localeCompare (code a) (code b)) (fun _ => True)).
  - intros x y _ _. apply localeCompare_total.
  - intros x y z _ _ _. apply localeCompare_trans.
  - apply Forall_forall. auto.
Qed.

(** On deposit records with valid dates the comparator of the sort is
    consistent. *)
Lemma compareDeposits_total (x y : Deposit.DepositInfoRow) :
  validDate x -> validDate y ->
  0 < State.compareDeposits x y -> State.compareDeposits y x <= 0.
Proof.
  intros [tx Hx] [ty Hy]. unfold State.compareDeposits. rewrite Hx, Hy.
  pose proof (localeCompare_antisym (Deposit.clinicCode x) (Deposit.clinicCode y)) as A1.
  pose proof (localeCompare_antisym (Deposit.clinicCode y) (Deposit.clinicCode x)) as A2.
  destruct (Z.eqb_spec (localeCompare (Deposit.clinicCode x) (Deposit.clinicCode y)) 0),
           (Z.eqb_spec (localeCompare (Deposit.clinicCode y) (Deposit.clinicCode x)) 0);
    simpl; lia.
Qed.

Lemma compareDeposits_trans (x y z : Deposit.DepositInfoRow) :
  validDate x -> validDate y -> validDate z ->
  State.compareDeposits x y <= 0 -> State.compareDeposits y z <= 0 ->
  State.compareDeposits x z <= 0.
Proof.
  intros [tx Hx] [ty Hy] [tz Hz]. unfold State.compareDeposits. rewrite Hx, Hy, Hz.
  set (a := Deposit.clinicCode x). set (b := Deposit.clinicCode y).
  set (c := Deposit.clinicCode z).
  pose proof (localeCompare_trans a b c) as T1.
  pose proof (localeCompare_trans b c a) as T2.
  pose proof (localeCompare_trans c a b) as T3.
  pose proof (localeCompare_trans a c b) as T4.
  pose proof (localeCompare_antisym a b) as A1.
  pose proof (localeCompare_antisym b a) as A2.
  pose proof (localeCompare_antisym b c) as A3.
  pose proof (localeCompare_antisym c b) as A4.
  pose proof (localeCompare_antisym a c) as A5.
  pose proof (localeCompare_antisym c a) as A6.
  destruct (Z.eqb_spec (localeCompare a b) 0), (Z.eqb_spec (localeCompare b c) 0),
           (Z.eqb_spec (localeCompare a c) 0); simpl; lia.
Qed.

Lemma compareDeposits_sym (x y : Deposit.DepositInfoRow) :
  validDate x -> validDate y ->
  State.compareDeposits x y = 0 -> State.compareDeposits y x <= 0.
Proof.
  intros [tx Hx] [ty Hy]. unfold State.compareDeposits. rewrite Hx, Hy.
  pose proof (localeCompare_antisym (Deposit.clinicCode x) (Deposit.clinicCode y)) as A1.
  pose proof (localeCompare_antisym (Deposit.clinicCode y) (Deposit.clinicCode x)) as A2.
  destruct (Z.eqb_spec (localeCompare (Deposit.clinicCode x) (Deposit.clinicCode y)) 0),
           (Z.eqb_spec (localeCompare (Deposit.clinicCode y) (Deposit.clinicCode x)) 0);
    simpl; lia.
Qed.

End CollatedLists.

Section SortedLists.
Context `{NumberPrinter} `{collator : Collator}.
Context (consistent : ConsistentCollator collator).

Lemma compareDeposits_le (a b : Deposit.DepositInfoRow) (x y : Z) :
  timeValue (Deposit.expirationDate a) = Some x ->
  timeValue (Deposit.expirationDate b) = Some y ->
  (State.compareDeposits a b <= 0
   <-> localeCompare (Deposit.clinicCode a) (Deposit.clinicCode b) < 0
       \/ (localeCompare (Deposit.clinicCode a) (Deposit.clinicCode b) = 0 /\ x <= y)).
Proof.
  intros Hx Hy. unfold State.compareDeposits. rewrite Hx, Hy.
  destruct (Z.eqb_spec (localeCompare (Deposit.clinicCode a) (Deposit.clinicCode b)) 0);
    simpl; lia.
Qed.


End SortedLists.
(** X13. The deposit records are stored sorted, so the same records
    are listed for a window as before the sort.  With a consistent collation
    and valid expiration dates the stored list, and so the list shown for a
    window, is ordered by clinic code and, within a clinic, by expiration
    date; records of the same clinic that expire at the same time keep the
    order of the upload. *)
Theorem deposit_rows_sorted `{NumberPrinter} `{collator : Collator}
    (jsonData : list AnyRow) (range : option Deposit.DateRange) :
  ConsistentCollator collator ->
  Forall validDate (Deposit.processedRows jsonData) ->
  let ordered (a b : Deposit.DepositInfoRow) :=
    localeCompare (Deposit.clinicCode a) (Deposit.clinicCode b) < 0
    \/ (localeCompare (Deposit.clinicCode a) (Deposit.clinicCode b) = 0
        /\ exists x y, timeValue (Deposit.expirationDate a) = Some x
                       /\ timeValue (Deposit.expirationDate b) = Some y /\ x <= y) in
  State.allDepositRows jsonData ≡ₚ Deposit.processedRows jsonData
  /\ (forall row, In row (Deposit.data (State.allDepositRows jsonData) range)
                  <-> In row (Deposit.data (Deposit.processedRows jsonData) range))
  /\ StronglySorted ordered (State.allDepositRows jsonData)
  /\ StronglySorted ordered (Deposit.data (State.allDepositRows jsonData) range)
  /\ (forall r : Deposit.DepositInfoRow,
        validDate r ->
        List.filter (fun y => State.compareDeposits r y =? 0)
                    (State.allDepositRows jsonData)
        = List.filter (fun y => State.compareDeposits r y =? 0)
                      (Deposit.processedRows jsonData)).
Proof.
  intros consistent Hvalid ordered.
  assert (Hperm : State.allDepositRows jsonData ≡ₚ Deposit.processedRows jsonData)
    by apply sort_Permutation.
  assert (Hsorted : StronglySorted ordered (State.allDepositRows jsonData)).
  { pose proof (sort_StronglySorted State.compareDeposits validDate
                  (Deposit.processedRows jsonData)
                  (compareDeposits_total consistent)
                  (compareDeposits_trans consistent) Hvalid) as Hs.
    fold (State.allDepositRows jsonData) in Hs.
    assert (Hv : Forall validDate (State.allDepositRows jsonData))
      by (rewrite Hperm; exact Hvalid).
    revert Hs Hv. generalize (State.allDepositRows jsonData). intros l Hs.
    induction Hs as [|a l Hs IH Ha]; intros Hv; [constructor |].
    apply Forall_cons in Hv as [[x Hx] Hv].
    constructor; [apply IH; exact Hv |].
    rewrite Forall_forall in Ha, Hv. apply Forall_forall. intros b Hb.
    destruct (Hv b Hb) as [y Hy].
    apply (compareDeposits_le a b x y Hx Hy) in Ha; [| exact Hb].
    destruct Ha as [Hlt | [Heq Hle]]; [left; exact Hlt | right].
    split; [exact Heq |]. exists x, y. auto. }
  split; [exact Hperm |]. split; [| split; [exact Hsorted | split]].
  - intros row. destruct range as [r|]; simpl; [| reflexivity].
    rewrite !filter_In, <- !list_elem_of_In, Hperm. reflexivity.
  - destruct range as [r|]; simpl; [| constructor].
    apply StronglySorted_filter. exact Hsorted.
  - intros r Hr.
    apply (sort_stable State.compareDeposits validDate r (Deposit.processedRows jsonData)
             (compareDeposits_sym consistent) (compareDeposits_trans consistent) Hr Hvalid).
Qed.

Lemma deposit_rows_sorted_witness :
  Forall validDate (@Deposit.processedRows Examples.printer Samples.depositRows)
  /\ Deposit.userId
       <$> @State.allDepositRows Examples.printer Samples.collator Samples.depositRows
     = ["u-4"; "u-3"; "u-2"; "u-1"]%string
  /\ @State.allDepositRows Examples.printer Samples.collator Samples.depositRows
     ≡ₚ @Deposit.processedRows Examples.printer Samples.depositRows.
Proof.
  assert (Hv : Forall validDate (@Deposit.processedRows Examples.printer Samples.depositRows)).
  { vm_compute. repeat constructor; eexists; reflexivity. }
  split; [exact Hv |]. split; [vm_compute; reflexivity |].
  exact (proj1 (@deposit_rows_sorted Examples.printer Samples.collator
                  Samples.depositRows None codeUnit_consistent Hv)).
Defined.

(** ** Text in a number column *)

Section TextNumbers.
Import Str.

Lemma trimEnd_cons (c : ascii) (r : string) :
  isWhiteSpace c = false -> trimEnd (String c r) = String c (trimEnd r).
Proof. intros Hc. simpl. destruct (trimEnd r); [rewrite Hc |]; reflexivity. Qed.

Lemma isDigit_false_code (c : ascii) : isDigit c = false -> code c < 48 \/ 57 < code c.
Proof.
  unfold isDigit. rewrite andb_false_iff, !Z.leb_gt. tauto.
Qed.

(** Text that begins with a character no numeric literal begins with is
    not a number. *)
Lemma Number_not_numeric (c : ascii) (r : string) :
  isWhiteSpace c = false -> isDigit c = false ->
  ~ In (code c) [43; 45; 46; 73] ->
  Number_ofString (String c r) = NaN.
Proof.
  intros Hws Hd Hc.
  assert (H43 : (code c =? 43) = false)
    by (apply Z.eqb_neq; intros E; apply Hc; rewrite E; simpl; auto).
  assert (H45 : (code c =? 45) = false)
    by (apply Z.eqb_neq; intros E; apply Hc; rewrite E; simpl; auto).
  assert (H46 : (code c =? 46) = false)
    by (apply Z.eqb_neq; intros E; apply Hc; rewrite E; simpl; auto).
  assert (H48 : (code c =? 48) = false)
    by (apply Z.eqb_neq; apply isDigit_false_code in Hd; lia).
  assert (HI : Ascii.eqb c "I" = false).
  { destruct (Ascii.eqb_spec c "I") as [->|]; [| reflexivity].
    exfalso. apply Hc. simpl. auto 6. }
  unfold Number_ofString, StringToNumber.Number, trim.
  simpl trimStart. rewrite Hws, (trimEnd_cons c r Hws).
  generalize (trimEnd r). intros t. simpl isEmpty. cbv iota.
  assert (StringToNumber.nonDecimal (String c t) = None) as ->.
  { unfold StringToNumber.nonDecimal. destruct t; [reflexivity |]. rewrite H48. reflexivity. }
  unfold StringToNumber.strDecimalLiteral, StringToNumber.signOf. rewrite H43, H45.
  assert (String.eqb (String c t) "Infinity" = false) as -> by (simpl; rewrite HI; reflexivity).
  unfold StringToNumber.unsignedDecimal. simpl spanDigits. rewrite Hd, H46. reflexivity.
Qed.

Lemma digitsValue_linear (s : string) (acc : Z) :
  digitsValue 10 digitValue acc s
  = acc * 10 ^ Z.of_nat (String.length s) + decimalValue s.
Proof.
  unfold decimalValue. revert acc. induction s as [|c r IH]; intros acc.
  - simpl. lia.
  - simpl digitsValue. rewrite (IH (10 * acc + digitValue c)), (IH (10 * 0 + digitValue c)).
    change (String.length (String c r)) with (S (String.length r)).
    rewrite Nat2Z.inj_succ, Z.pow_succ_r by lia. ring.
Qed.

Lemma decimalValue_append (a b : string) :
  decimalValue (a ++ b) = decimalValue a * 10 ^ Z.of_nat (String.length b) + decimalValue b.
Proof.
  unfold decimalValue at 1. rewrite digitsValue_append. apply digitsValue_linear.
Qed.

Lemma spanDigits_append (a : string) (c : ascii) (r : string) :
  all isDigit a = true -> isDigit c = false ->
  spanDigits (a ++ String c r) = (a, String c r).
Proof.
  intros Ha Hc. induction a as [|x a IH].
  - simpl. rewrite Hc. reflexivity.
  - simpl in Ha. apply andb_true_iff in Ha as [Hx Ha].
    change (String x a ++ String c r)%string with (String x (a ++ String c r)).
    simpl. rewrite Hx, (IH Ha). reflexivity.
Qed.

Lemma digitsOnly_digits (s : string) : all isDigit s = true -> digitsOnly s = s.
Proof.
  induction s as [|c r IH]; simpl; [reflexivity |].
  rewrite andb_true_iff. intros [Hc Hr]. rewrite Hc, (IH Hr). reflexivity.
Qed.

Lemma digitsOnly_append (s t : string) :
  digitsOnly (s ++ t) = (digitsOnly s ++ digitsOnly t)%string.
Proof.
  induction s as [|c r IH]; [reflexivity |].
  change (String c r ++ t)%string with (String c (r ++ t)). simpl.
  destruct (isDigit c); rewrite IH; reflexivity.
Qed.

Lemma trim_no_whiteSpace (s : string) :
  all (fun c => negb (isWhiteSpace c)) s = true -> trim s = s.
Proof.
  intros Hs. unfold trim.
  assert (trimStart s = s) as ->.
  { destruct s as [|c r]; simpl in *; [reflexivity |].
    apply andb_true_iff in Hs as [Hc _]. apply negb_true_iff in Hc.
    rewrite Hc. reflexivity. }
  induction s as [|c r IH]; [reflexivity |].
  simpl in Hs. apply andb_true_iff in Hs as [Hc Hr]. apply negb_true_iff in Hc.
  rewrite (trimEnd_cons c r Hc), (IH Hr). reflexivity.
Qed.

Lemma digits_no_whiteSpace (s : string) :
  all isDigit s = true -> all (fun c => negb (isWhiteSpace c)) s = true.
Proof.
  induction s as [|c r IH]; simpl; [reflexivity |].
  rewrite !andb_true_iff. intros [Hc Hr].
  rewrite (isDigit_not_whiteSpace c Hc). auto.
Qed.

Lemma scaled_Q (n k : Z) :
  0 <= k -> (scaled n k : Q) == inject_Z n / inject_Z (10 ^ k).
Proof.
  intros Hk. unfold scaled. simpl. rewrite Qred_correct, Qpower_opp.
  rewrite (Zpower_Qpower 10 k Hk). reflexivity.
Qed.

Lemma pow10_pos (k : Z) : 0 <= k -> (0 < inject_Z (10 ^ k))%Q.
Proof.
  intros Hk. change 0%Q with (inject_Z 0). rewrite <- Zlt_Qlt.
  apply Z.pow_pos_nonneg; lia.
Qed.

Lemma scaled_ge (n k a : Z) : 0 <= k -> a * 10 ^ k <= n -> (ofZ a <= scaled n k)%Qc.
Proof.
  intros Hk Ha. unfold Qcle. rewrite (scaled_Q n k Hk). unfold ofZ. simpl.
  rewrite Qred_correct. apply Qle_shift_div_l; [apply pow10_pos; exact Hk |].
  rewrite <- inject_Z_mult, <- Zle_Qle. exact Ha.
Qed.

Lemma scaled_le (n k a : Z) : 0 <= k -> n <= a * 10 ^ k -> (scaled n k <= ofZ a)%Qc.
Proof.
  intros Hk Ha. unfold Qcle. rewrite (scaled_Q n k Hk). unfold ofZ. simpl.
  rewrite Qred_correct. apply Qle_shift_div_r; [apply pow10_pos; exact Hk |].
  rewrite <- inject_Z_mult, <- Zle_Qle. exact Ha.
Qed.

Lemma scaled_exact (n k a : Z) : 0 <= k -> n = a * 10 ^ k -> scaled n k = ofZ a.
Proof.
  intros Hk Ha. apply Qcle_antisym; [apply scaled_le | apply scaled_ge]; lia.
Qed.

Lemma tiny : (underflowThreshold < Q2Qc (1 # 10 ^ 300))%Qc.
Proof. vm_compute. reflexivity. Qed.

Lemma scaled_not_tiny (n k : Z) :
  0 <= k <= 300 -> 1 <= n -> (Q2Qc (1 # 10 ^ 300) <= scaled n k)%Qc.
Proof.
  intros Hk Hn. unfold Qcle. rewrite (scaled_Q n k ltac:(lia)). simpl.
  rewrite Qred_correct. apply Qle_shift_div_l; [apply pow10_pos; lia |].
  rewrite Qmult_inject_Z_r. unfold Qle. simpl.
  assert (10 ^ k <= 10 ^ 300) by (apply Z.pow_le_mono_r; lia).
  assert (0 < 10 ^ k) by (apply Z.pow_pos_nonneg; lia).
  change (Z.pos (10 ^ 300)) with (10 ^ 300). nia.
Qed.

Lemma roundToNumber_scaled (n k : Z) :
  0 <= k <= 300 -> 0 <= n < 10 ^ 300 * 10 ^ k ->
  roundToNumber (scaled n k) = Finite (scaled n k).
Proof.
  intros Hk Hn.
  assert (H0 : (0 <= scaled n k)%Qc).
  { rewrite <- ofZ_0. apply scaled_ge; lia. }
  assert (Habs : Math_abs (scaled n k) = scaled n k).
  { unfold Math_abs. assert (Qc_ltb (scaled n k) 0 = false) as ->; [| reflexivity].
    apply Qc_ltb_false. apply Qcle_not_lt. exact H0. }
  unfold roundToNumber. rewrite Habs.
  assert (Qc_leb (ofZ overflowThreshold) (scaled n k) = false) as ->.
  { apply Qc_leb_false. apply Qclt_not_le.
    apply Qcle_lt_trans with (ofZ (10 ^ 300)); [apply scaled_le; lia |].
    apply ofZ_lt. reflexivity. }
  destruct (Qc_leb (scaled n k) underflowThreshold) eqn:E; [| reflexivity].
  apply Qc_leb_true in E. f_equal.
  destruct (Z.eq_dec n 0) as [->|Hne].
  - symmetry. rewrite <- ofZ_0. apply scaled_exact; [apply Hk | reflexivity].
  - exfalso. apply (Qclt_not_le _ _ tiny).
    destruct Hn as [Hn0 _].
    apply Qcle_trans with (scaled n k); [apply scaled_not_tiny; [exact Hk | lia] | exact E].
Qed.

(** A numeral, a decimal point and a numeral: what [Number] reads. *)
Lemma Number_decimal_point (a b : string) :
  a <> EmptyString -> b <> EmptyString ->
  all isDigit a = true -> all isDigit b = true ->
  (String.length a + String.length b <= 300)%nat ->
  Number_ofString (a ++ String "." b)
  = Finite (scaled (decimalValue (a ++ b)) (Z.of_nat (String.length b))).
Proof.
  intros Na Nb Ha Hb Hlen.
  assert (Hdot : isDigit "." = false) by reflexivity.
  unfold Number_ofString, StringToNumber.Number.
  rewrite trim_no_whiteSpace.
  2:{ rewrite all_append. rewrite (digits_no_whiteSpace a Ha). simpl.
      apply digits_no_whiteSpace. exact Hb. }
  destruct a as [|c r] eqn:Ea; [contradiction |]. rewrite <- Ea in *.
  assert (Hc : isDigit c = true).
  { rewrite Ea in Ha. simpl in Ha. apply andb_true_iff in Ha as [Hc _]. exact Hc. }
  pose proof (proj1 (isDigit_code c) Hc) as Hcode.
  assert (Hs : (a ++ String "." b)%string = String c (r ++ String "." b)).
  { rewrite Ea. reflexivity. }
  rewrite Hs. simpl isEmpty. cbv iota.
  assert (StringToNumber.nonDecimal (String c (r ++ String "." b)) = None) as ->.
  { unfold StringToNumber.nonDecimal.
    destruct r as [|c2 r2].
    - change ("" ++ String "." b)%string with (String "." b).
      destruct (negb (code c =? 48)); reflexivity.
    - change (String c2 r2 ++ String "." b)%string with (String c2 (r2 ++ String "." b)).
      assert (Hc2 : isDigit c2 = true).
      { rewrite Ea in Ha. simpl in Ha. apply andb_true_iff in Ha as [_ Ha].
        apply andb_true_iff in Ha as [Hc2 _]. exact Hc2. }
      apply isDigit_code in Hc2.
      destruct (negb (code c =? 48)); [reflexivity |].
      assert ((code c2 =? 120) = false) as -> by (apply Z.eqb_neq; lia).
      assert ((code c2 =? 88) = false) as -> by (apply Z.eqb_neq; lia).
      assert ((code c2 =? 111) = false) as -> by (apply Z.eqb_neq; lia).
      assert ((code c2 =? 79) = false) as -> by (apply Z.eqb_neq; lia).
      assert ((code c2 =? 98) = false) as -> by (apply Z.eqb_neq; lia).
      assert ((code c2 =? 66) = false) as -> by (apply Z.eqb_neq; lia).
      reflexivity. }
  unfold StringToNumber.strDecimalLiteral, StringToNumber.signOf.
  assert ((code c =? 43) = false) as -> by (apply Z.eqb_neq; lia).
  assert ((code c =? 45) = false) as -> by (apply Z.eqb_neq; lia).
  assert (String.eqb (String c (r ++ String "." b)) "Infinity" = false) as ->.
  { simpl. destruct (Ascii.eqb_spec c "I") as [->|]; [| reflexivity].
    change (code "I") with 73 in Hcode. lia. }
  rewrite <- Hs. unfold StringToNumber.unsignedDecimal.
  rewrite (spanDigits_append a "." b Ha Hdot).
  change (code "." =? 46) with true. cbv iota.
  rewrite (spanDigits_digits b Hb).
  assert (isEmpty a = false) as -> by (rewrite Ea; reflexivity).
  simpl andb. cbv iota. unfold StringToNumber.exponentPart.
  change (0 - Z.of_nat (String.length b)) with (- Z.of_nat (String.length b)).
  fold (scaled (decimalValue (a ++ b)) (Z.of_nat (String.length b))).
  apply roundToNumber_scaled; [lia |].
  split; [apply decimalValue_nonneg; rewrite all_append, Ha, Hb; reflexivity |].
  pose proof (digitsValue_bound (a ++ b) 0 ltac:(rewrite all_append, Ha, Hb; reflexivity)
                ltac:(lia)) as Hbound.
  fold (decimalValue (a ++ b)) in Hbound. rewrite length_append in Hbound.
  assert (10 ^ Z.of_nat (String.length a + String.length b) <= 10 ^ 300)
    by (apply Z.pow_le_mono_r; lia).
  assert (0 < 10 ^ Z.of_nat (String.length b)) by (apply Z.pow_pos_nonneg; lia).
  assert (0 < 10 ^ 300) by reflexivity.
  nia.
Qed.

End TextNumbers.

(** X8. A price written with a decimal point, such as 310.000, is read
    by [numberFrom] as a decimal fraction: the value lies between the numeral
    before the point and the next integer, and is that numeral when only zeros
    follow the point.  [amountFrom] reads the same text as the integer written
    by all its digits, so 310.000 counts as 310 in a price column and as
    310000 in the cash-in amount column. *)
Theorem numberFrom_decimal_point (row : AnyRow) (key a b : string) :
  get row key = CString (a ++ String "." b) ->
  isNumeral a = true -> isNumeral b = true ->
  (String.length a + String.length b <= 300)%nat ->
  Str.decimalValue (a ++ b) <= 2 ^ 53 ->
  let whole := Str.decimalValue a in
  (ofZ whole <= numberFrom row key)%Qc
  /\ (numberFrom row key <= ofZ (whole + 1))%Qc
  /\ (Str.decimalValue b = 0 -> numberFrom row key = ofZ whole)
  /\ amountFrom row key
     = ofZ (whole * 10 ^ Z.of_nat (String.length b) + Str.decimalValue b).
Proof.
  intros Hg Ha Hb Hlen Hsmall whole.
  apply isNumeral_true in Ha as (Na & Da & _), Hb as (Nb & Db & _).
  pose proof (decimalValue_append a b) as Hv. fold whole in Hv.
  pose proof (decimalValue_nonneg b Db) as Hb0.
  pose proof (digitsValue_bound b 0 Db ltac:(lia)) as Hb1.
  fold (Str.decimalValue b) in Hb1.
  assert (Hn : numberFrom row key
               = scaled (Str.decimalValue (a ++ b)) (Z.of_nat (String.length b))).
  { unfold numberFrom. rewrite Hg, (Number_decimal_point a b Na Nb Da Db Hlen). reflexivity. }
  rewrite Hn, Hv.
  split; [apply scaled_ge; lia |].
  split; [apply scaled_le; lia |].
  split; [intros Hz; apply scaled_exact; lia |].
  rewrite (amountFrom_string row key _ Hg).
  assert (Hd : Str.digitsOnly (a ++ String "." b) = (a ++ b)%string).
  { rewrite digitsOnly_append. simpl Str.digitsOnly.
    rewrite (digitsOnly_digits a Da), (digitsOnly_digits b Db). reflexivity. }
  rewrite Hd, Hv.
  assert (2 ^ 53 < overflowThreshold) by reflexivity.
  destruct (Z.ltb_spec (whole * 10 ^ Z.of_nat (String.length b) + Str.decimalValue b)
              overflowThreshold); [reflexivity | lia].
Qed.

Lemma numberFrom_decimal_point_witness :
  numberFrom {[ "Total Selling Price"%string := CString "310.000" ]} "Total Selling Price"
  = ofZ 310
  /\ amountFrom {[ "Total Selling Price"%string := CString "310.000" ]} "Total Selling Price"
     = ofZ 310000.
Proof.
  assert (Hg : get {[ "Total Selling Price"%string := CString "310.000" ]}
                 "Total Selling Price" = CString ("310" ++ String "." "000"))
    by reflexivity.
  assert (Ha : isNumeral "310" = true) by reflexivity.
  assert (Hb : isNumeral "000" = true) by reflexivity.
  assert (Hlen : (String.length "310" + String.length "000" <= 300)%nat) by (simpl; lia).
  assert (Hsmall : Str.decimalValue ("310" ++ "000") <= 2 ^ 53) by (vm_compute; discriminate).
  destruct (numberFrom_decimal_point _ _ _ _ Hg Ha Hb Hlen Hsmall) as (_ & _ & Hz & Hamount).
  split; [apply Hz; reflexivity | exact Hamount].
Defined.

(** X9. Text that begins with a character that is not a digit, a sign,
    a decimal point, white space or the letter I (as a currency prefix does)
    is no number: [numberFrom] reads it as 0, whatever digits follow, while
    [amountFrom] reads the integer written by those digits.  So Rp310.000
    counts as 0 in a price column and as 310000 in the cash-in amount
    column. *)
Theorem numberFrom_text_prefix (row : AnyRow) (key : string) (c : ascii) (r : string) :
  get row key = CString (String c r) ->
  Str.isDigit c = false -> Str.isWhiteSpace c = false ->
  ~ In (Str.code c) [43; 45; 46; 73] ->
  numberFrom row key = 0%Qc
  /\ (Str.decimalValue (Str.digitsOnly r) <= 2 ^ 53 ->
      amountFrom row key = ofZ (Str.decimalValue (Str.digitsOnly r))).
Proof.
  intros Hg Hd Hws Hc. split.
  - unfold numberFrom. rewrite Hg, (Number_not_numeric c r Hws Hd Hc). reflexivity.
  - intros Hsmall. rewrite (amountFrom_string row key _ Hg).
    simpl Str.digitsOnly. rewrite Hd.
    assert (2 ^ 53 < overflowThreshold) by reflexivity.
    destruct (Z.ltb_spec (Str.decimalValue (Str.digitsOnly r)) overflowThreshold);
      [reflexivity | lia].
Qed.

Lemma numberFrom_text_prefix_witness :
  numberFrom {[ "Total Final Price"%string := CString "Rp310.000" ]} "Total Final Price"
  = 0%Qc
  /\ amountFrom {[ "Total Final Price"%string := CString "Rp310.000" ]} "Total Final Price"
     = ofZ (Str.decimalValue "310000").
Proof.
  assert (Hg : get {[ "Total Final Price"%string := CString "Rp310.000" ]}
                 "Total Final Price" = CString (String "R" "p310.000"))
    by reflexivity.
  assert (Hd : Str.isDigit "R" = false) by reflexivity.
  assert (Hws : Str.isWhiteSpace "R" = false) by reflexivity.
  assert (Hc : ~ In (Str.code "R") [43; 45; 46; 73]).
  { vm_compute. intros [E | [E | [E | [E | []]]]]; discriminate E. }
  destruct (numberFrom_text_prefix _ _ _ _ Hg Hd Hws Hc) as (Hz & Hamount).
  split; [exact Hz |]. apply Hamount. vm_compute. discriminate.
Defined.

Lemma deposit_window_by_day_witness :
  exists row range,
    Deposit.depositDateRange "2024-01-15" = Some range
    /\ In row (@Deposit.processedRows Examples.printer [Examples.bareDepositRow])
    /\ In row (Deposit.data (@Deposit.processedRows Examples.printer
                               [Examples.bareDepositRow]) (Some range)).
Proof.
  eexists. eexists.
  assert (Hr : Deposit.depositDateRange "2024-01-15"
               = Some {| Deposit.start := DateObject.ofCivil 2024 0 15;
                         Deposit.end_ := DateObject.ofCivil 2024 2 15 |})
    by (vm_compute; reflexivity).
  assert (Hin : In {| Deposit.clinicCode := "Unknown"; Deposit.userId := "u-17";
                      Deposit.omnicareId := ""; Deposit.userName := "";
                      Deposit.phoneNumber := ""; Deposit.treatmentName := "";
                      Deposit.expirationDate := DateObject.ofCivil 2024 2 15 |}
                   (@Deposit.processedRows Examples.printer [Examples.bareDepositRow]))
    by (vm_compute; left; reflexivity).
  split; [exact Hr |]. split; [exact Hin |].
  apply (proj2 (@deposit_window_by_day Examples.printer _ _ _ _ Hr Hin)).
  eexists _, _, _. cbn [Deposit.start Deposit.end_ Deposit.expirationDate].
  split; [reflexivity |]. split; [reflexivity |]. split; [reflexivity |].
  vm_compute. repeat split; try reflexivity; intro; discriminate.
Defined.

(** ** The stored lists *)

Section StoredLists.
Context `{NumberPrinter} `{FunctionPrinter} `{Collator}.

Lemma clinicKeys_spec (rows : list AnyRow) :
  NoDup (State.clinicKeys rows)
  /\ forall k, k ∈ State.clinicKeys rows
               <-> JSObject.inherited k = false
                   /\ exists row, row ∈ rows /\ RowEffect.clinicOf row = k.
Proof.
  destruct (createdKeys_spec (fun key => negb (JSObject.inherited key))
              RowEffect.clinicOf rows) as [Hn He].
  split; [exact Hn |]. intros k. unfold State.clinicKeys, JSObject.guardedKeys.
  rewrite He, negb_true_iff. reflexivity.
Qed.

Lemma clinicMap_dom {V} (init : string -> V) (effect : AnyRow -> V -> V)
    (rows : list AnyRow) (k : string) :
  k ∈ State.clinicKeys rows
  <-> is_Some (foldl (upsert RowEffect.clinicOf init effect) ∅ (RowEffect.counted rows)
               !! k).
Proof.
  rewrite (proj2 (clinicKeys_spec rows)), run_is_Some. split.
  - intros (Hk & row & Hrow & E). exists row. split; [| exact E].
    apply counted_elem_of. split; [exact Hrow | congruence].
  - intros (row & Hrow & E). apply counted_elem_of in Hrow as [Hrow Hk].
    split; [congruence | eauto].
Qed.

Lemma values_clinicMap_Permutation {V} (init : string -> V) (effect : AnyRow -> V -> V)
    (rows : list AnyRow) :
  let m := foldl (upsert RowEffect.clinicOf init effect) ∅ (RowEffect.counted rows) in
  JSObject.entries m (State.clinicKeys rows) ≡ₚ map_to_list m.
Proof.
  intros m. apply entries_Permutation; [apply clinicKeys_spec |].
  intros k. apply clinicMap_dom.
Qed.

Lemma revenueData_Permutation (rows : list AnyRow) :
  State.revenueData rows ≡ₚ (map_to_list (Revenue.clinicMap rows)).*2.
Proof.
  unfold State.revenueData, JSObject.values. rewrite sort_Permutation.
  rewrite revenue_clinicMap_upsert, values_clinicMap_Permutation. reflexivity.
Qed.

Lemma depositPurchaseData_Permutation (rows : list AnyRow) :
  State.depositPurchaseData rows ≡ₚ (map_to_list (DepositPurchase.clinicMap rows)).*2.
Proof.
  unfold State.depositPurchaseData, JSObject.values. rewrite sort_Permutation.
  rewrite depositPurchase_clinicMap_upsert, values_clinicMap_Permutation. reflexivity.
Qed.

(** The cash-in list is stored exactly when the upload does not fail. *)
Lemma cashinData_Some (rows : list AnyRow) (l : list CashIn.CashInClinicSummary) :
  State.cashinData rows = Some l ->
  plainClinics rows = true
  /\ CashIn.clinicMap rows
     = Some (foldl (upsert RowEffect.clinicOf CashIn.newSummary RowEffect.cashIn) ∅ rows)
  /\ l ≡ₚ CashIn.withNonDepositVoucher
          <$> (map_to_list
                 (foldl (upsert RowEffect.clinicOf CashIn.newSummary RowEffect.cashIn)
                        ∅ rows)).*2.
Proof.
  unfold State.cashinData. rewrite cashIn_clinicMap_upsert.
  destruct (plainClinics rows) eqn:Hp; [| discriminate].
  intros [= <-]. split; [reflexivity |]. split; [reflexivity |].
  unfold JSObject.values. rewrite sort_Permutation.
  assert (Hv := values_clinicMap_Permutation CashIn.newSummary RowEffect.cashIn rows).
  cbv zeta in Hv. rewrite (plainClinics_counted rows Hp) in Hv. rewrite Hv. reflexivity.
Qed.

Lemma cashinData_None (rows : list AnyRow) :
  State.cashinData rows = None <-> plainClinics rows = false.
Proof.
  unfold State.cashinData. rewrite cashIn_clinicMap_upsert.
  destruct (plainClinics rows); split; congruence.
Qed.

(** Every summary carries the key it is stored under. *)
Lemma revenue_clinicCode_key (rows : list AnyRow) (k : string)
    (s : Revenue.RevenueClinicSummary) :
  Revenue.clinicMap rows !! k = Some s -> Revenue.clinicCode s = k.
Proof.
  rewrite revenue_clinicMap_upsert.
  apply (run_invariant RowEffect.clinicOf Revenue.newSummary RowEffect.revenue
           (fun k s => Revenue.clinicCode s = k)).
  - reflexivity.
  - intros row v Hv. rewrite <- Hv. apply (revenue_fields v row).
Qed.

Lemma depositPurchase_clinicCode_key (rows : list AnyRow) (k : string)
    (s : DepositPurchase.DepositPurchaseClinicSummary) :
  DepositPurchase.clinicMap rows !! k = Some s -> DepositPurchase.clinicCode s = k.
Proof.
  rewrite depositPurchase_clinicMap_upsert.
  apply (run_invariant RowEffect.clinicOf DepositPurchase.newSummary
           RowEffect.depositPurchase (fun k s => DepositPurchase.clinicCode s = k)).
  - reflexivity.
  - intros row v Hv. exact Hv.
Qed.

Lemma cashIn_clinicCode_key (rows : list AnyRow) (k : string)
    (s : CashIn.CashInClinicSummary) :
  foldl (upsert RowEffect.clinicOf CashIn.newSummary RowEffect.cashIn) ∅ rows !! k = Some s ->
  CashIn.clinicCode s = k.
Proof.
  apply (run_invariant RowEffect.clinicOf CashIn.newSummary RowEffect.cashIn
           (fun k s => CashIn.clinicCode s = k)).
  - reflexivity.
  - intros row v Hv. exact Hv.
Qed.

(** The clinic codes of the values of a dictionary are its keys. *)
Lemma codes_of_values {V} (code : V -> string) (m : gmap string V) (keys : list string) :
  (forall k v, m !! k = Some v -> code v = k) ->
  NoDup keys -> (forall k, k ∈ keys <-> is_Some (m !! k)) ->
  code <$> (map_to_list m).*2 ≡ₚ keys.
Proof.
  intros Hcode Hn Hdom.
  assert (E : code <$> (map_to_list m).*2 = (map_to_list m).*1).
  { rewrite <- list_fmap_compose. apply list_fmap_ext.
    intros i [k v] Hi. simpl. apply Hcode.
    apply elem_of_map_to_list. eapply list_elem_of_lookup_2. exact Hi. }
  rewrite E. apply NoDup_Permutation; [apply NoDup_fst_map_to_list | exact Hn |].
  intros k. rewrite Hdom, list_elem_of_fmap. split.
  - intros ([k' v] & -> & Hin). apply elem_of_map_to_list in Hin. eauto.
  - intros [v Hv]. exists (k, v). split; [reflexivity |]. apply elem_of_map_to_list. exact Hv.
Qed.

Lemma revenueData_elem_of (rows : list AnyRow) (s : Revenue.RevenueClinicSummary) :
  s ∈ State.revenueData rows <-> Revenue.clinicMap rows !! Revenue.clinicCode s = Some s.
Proof.
  rewrite revenueData_Permutation, list_elem_of_fmap. split.
  - intros ([k v] & -> & Hin). apply elem_of_map_to_list in Hin. simpl.
    rewrite (revenue_clinicCode_key rows k v Hin). exact Hin.
  - intros Hs. exists (Revenue.clinicCode s, s). split; [reflexivity |].
    apply elem_of_map_to_list. exact Hs.
Qed.

Lemma depositPurchaseData_elem_of (rows : list AnyRow)
    (s : DepositPurchase.DepositPurchaseClinicSummary) :
  s ∈ State.depositPurchaseData rows
  <-> DepositPurchase.clinicMap rows !! DepositPurchase.clinicCode s = Some s.
Proof.
  rewrite depositPurchaseData_Permutation, list_elem_of_fmap. split.
  - intros ([k v] & -> & Hin). apply elem_of_map_to_list in Hin. simpl.
    rewrite (depositPurchase_clinicCode_key rows k v Hin). exact Hin.
  - intros Hs. exists (DepositPurchase.clinicCode s, s). split; [reflexivity |].
    apply elem_of_map_to_list. exact Hs.
Qed.

Lemma cashinData_elem_of (rows : list AnyRow) (l : list CashIn.CashInClinicSummary)
    (s : CashIn.CashInClinicSummary) :
  State.cashinData rows = Some l ->
  (s ∈ l <-> exists out, CashIn.processedData rows = Some out
                         /\ out !! CashIn.clinicCode s = Some s).
Proof.
  intros Hl. destruct (cashinData_Some rows l Hl) as (Hp & Hm & Hperm).
  rewrite Hperm, list_elem_of_fmap. unfold CashIn.processedData. rewrite Hm.
  set (m := foldl _ _ rows) in *. split.
  - intros (v & -> & Hin). apply list_elem_of_fmap in Hin as ([k v'] & -> & Hin).
    apply elem_of_map_to_list in Hin. simpl.
    eexists. split; [reflexivity |]. rewrite lookup_fmap.
    change (CashIn.clinicCode (CashIn.withNonDepositVoucher v')) with (CashIn.clinicCode v').
    rewrite (cashIn_clinicCode_key rows k v' Hin), Hin. reflexivity.
  - intros (out & [= <-] & Hs). rewrite lookup_fmap in Hs.
    destruct (m !! CashIn.clinicCode s) as [v|] eqn:E; [| discriminate].
    simpl in Hs. injection Hs as Hs. exists v. split; [symmetry; exact Hs |].
    apply list_elem_of_fmap. exists (CashIn.clinicCode s, v). split; [reflexivity |].
    apply elem_of_map_to_list. exact E.
Qed.

Lemma revenueData_codes (rows : list AnyRow) :
  Revenue.clinicCode <$> State.revenueData rows ≡ₚ State.clinicKeys rows.
Proof.
  rewrite revenueData_Permutation.
  apply codes_of_values.
  - apply revenue_clinicCode_key.
  - apply clinicKeys_spec.
  - intros k. rewrite revenue_clinicMap_upsert. apply clinicMap_dom.
Qed.

Lemma depositPurchaseData_codes (rows : list AnyRow) :
  DepositPurchase.clinicCode <$> State.depositPurchaseData rows ≡ₚ State.clinicKeys rows.
Proof.
  rewrite depositPurchaseData_Permutation.
  apply codes_of_values.
  - apply depositPurchase_clinicCode_key.
  - apply clinicKeys_spec.
  - intros k. rewrite depositPurchase_clinicMap_upsert. apply clinicMap_dom.
Qed.

Lemma cashinData_codes (rows : list AnyRow) (l : list CashIn.CashInClinicSummary) :
  State.cashinData rows = Some l -> CashIn.clinicCode <$> l ≡ₚ State.clinicKeys rows.
Proof.
  intros Hl. destruct (cashinData_Some rows l Hl) as (Hp & _ & Hperm).
  rewrite Hperm, <- list_fmap_compose.
  change (CashIn.clinicCode ∘ CashIn.withNonDepositVoucher) with CashIn.clinicCode.
  apply codes_of_values.
  - apply cashIn_clinicCode_key.
  - apply clinicKeys_spec.
  - intros k.
    rewrite (clinicMap_dom CashIn.newSummary RowEffect.cashIn), (plainClinics_counted rows Hp).
    reflexivity.
Qed.

Lemma clinicKeys_nil (rows : list AnyRow) :
  State.clinicKeys rows = [] <-> RowEffect.counted rows = [].
Proof.
  split.
  - intros E. destruct (RowEffect.counted rows) as [|row l] eqn:Hc; [reflexivity |].
    exfalso.
    assert (Hin : row ∈ RowEffect.counted rows) by (rewrite Hc; left).
    apply counted_elem_of in Hin as [Hin Hk].
    assert (Hkey : RowEffect.clinicOf row ∈ State.clinicKeys rows)
      by (apply clinicKeys_spec; split; [exact Hk | eauto]).
    rewrite E in Hkey. inversion Hkey.
  - intros E. destruct (State.clinicKeys rows) as [|k keys] eqn:Hk; [reflexivity |].
    exfalso.
    assert (Hin : k ∈ State.clinicKeys rows) by (rewrite Hk; left).
    apply clinicKeys_spec in Hin as (Hinh & row & Hrow & Hcode).
    assert (Hc : row ∈ RowEffect.counted rows)
      by (apply counted_elem_of; split; [exact Hrow | congruence]).
    rewrite E in Hc. inversion Hc.
Qed.

Lemma fmap_Permutation_nil {A B} (f : A -> B) (l : list A) (keys : list B) :
  f <$> l ≡ₚ keys -> (l = [] <-> keys = []).
Proof.
  intros Hp. split.
  - intros ->. apply Permutation_nil in Hp. exact Hp.
  - intros ->. apply Permutation_nil_r in Hp. destruct l; [reflexivity | discriminate].
Qed.

Lemma revenueData_nil (rows : list AnyRow) :
  State.revenueData rows = [] <-> RowEffect.counted rows = [].
Proof.
  rewrite (fmap_Permutation_nil _ _ _ (revenueData_codes rows)). apply clinicKeys_nil.
Qed.

Lemma depositPurchaseData_nil (rows : list AnyRow) :
  State.depositPurchaseData rows = [] <-> RowEffect.counted rows = [].
Proof.
  rewrite (fmap_Permutation_nil _ _ _ (depositPurchaseData_codes rows)).
  apply clinicKeys_nil.
Qed.

Lemma cashinData_nil (rows : list AnyRow) :
  State.cashinData rows = Some [] <-> rows = [].
Proof.
  split.
  - intros Hl. destruct (cashinData_Some rows [] Hl) as (Hp & _ & _).
    apply cashinData_codes in Hl. simpl in Hl.
    apply Permutation_nil in Hl. apply clinicKeys_nil in Hl.
    rewrite (plainClinics_counted rows Hp) in Hl. exact Hl.
  - intros ->. reflexivity.
Qed.


End StoredLists.

(** X10. Each of the three clinic lists has one entry for every clinic
    code the upload mentions that is not a key a plain object inherits, and no
    other; a row with a blank or missing clinic code counts for the clinic
    "Unknown".  The entry of a clinic is the summary kept under its code.  The
    revenue and the deposit-purchase list are empty exactly when every row of
    the upload has an inherited clinic code; the cash-in upload fails, and
    stores no list, exactly when some row has one, and else its list is empty
    exactly when the upload has no row. *)
Theorem clinic_lists_one_entry_per_clinic `{NumberPrinter} `{FunctionPrinter} `{Collator}
    (jsonData : list AnyRow) :
  let codes := State.clinicKeys jsonData in
  NoDup codes
  /\ (forall code : string,
        code ∈ codes
        <-> JSObject.inherited code = false
            /\ exists row, row ∈ jsonData
                           /\ orElse (stringFrom row "Clinic Code") "Unknown" = code)
  /\ Revenue.clinicCode <$> State.revenueData jsonData ≡ₚ codes
  /\ DepositPurchase.clinicCode <$> State.depositPurchaseData jsonData ≡ₚ codes
  /\ (State.cashinData jsonData = None
      <-> exists row, row ∈ jsonData
                      /\ JSObject.inherited
                           (orElse (stringFrom row "Clinic Code") "Unknown") = true)
  /\ (forall l, State.cashinData jsonData = Some l -> CashIn.clinicCode <$> l ≡ₚ codes)
  /\ (forall s, s ∈ State.revenueData jsonData
                <-> Revenue.clinicMap jsonData !! Revenue.clinicCode s = Some s)
  /\ (forall s, s ∈ State.depositPurchaseData jsonData
                <-> DepositPurchase.clinicMap jsonData !! DepositPurchase.clinicCode s
                    = Some s)
  /\ (forall l s, State.cashinData jsonData = Some l ->
                  (s ∈ l <-> exists out, CashIn.processedData jsonData = Some out
                                         /\ out !! CashIn.clinicCode s = Some s))
  /\ (State.revenueData jsonData = [] <-> RowEffect.counted jsonData = [])
  /\ (State.depositPurchaseData jsonData = [] <-> RowEffect.counted jsonData = [])
  /\ (State.cashinData jsonData = Some [] <-> jsonData = []).
Proof.
  intros codes. destruct (clinicKeys_spec jsonData) as [Hn He].
  split; [exact Hn |]. split; [exact He |].
  split; [apply revenueData_codes |].
  split; [apply depositPurchaseData_codes |].
  split; [rewrite cashinData_None; apply plainClinics_false |].
  split; [apply cashinData_codes |].
  split; [apply revenueData_elem_of |].
  split; [apply depositPurchaseData_elem_of |].
  split; [intros l s; apply cashinData_elem_of |].
  split; [apply revenueData_nil |].
  split; [apply depositPurchaseData_nil | apply cashinData_nil].
Qed.

Lemma clinic_lists_one_entry_per_clinic_witness :
  Revenue.clinicCode
    <$> @State.revenueData Examples.printer Samples.collator
          (Examples.inheritedCodeRow :: Samples.revenueRows)
  = ["12"; "JKT"; "SBY"; "Unknown"]%string
  /\ @State.revenueData Examples.printer Samples.collator [Examples.inheritedCodeRow] = []
  /\ @State.cashinData Examples.printer Examples.functionPrinter Samples.collator
       [Examples.inheritedCodeRow] = None
  /\ Revenue.clinicCode
       <$> @State.revenueData Examples.printer Samples.collator
             (Examples.inheritedCodeRow :: Samples.revenueRows)
     ≡ₚ @State.clinicKeys Examples.printer (Examples.inheritedCodeRow :: Samples.revenueRows).
Proof.
  split; [vm_compute; reflexivity |].
  destruct (@clinic_lists_one_entry_per_clinic Examples.printer Examples.functionPrinter
              Samples.collator [Examples.inheritedCodeRow])
    as (_ & _ & _ & _ & Hnone & _ & _ & _ & _ & Hnil & _).
  split; [apply Hnil; reflexivity |].
  split.
  - apply Hnone. exists Examples.inheritedCodeRow. split; [left | reflexivity].
  - exact (proj1 (proj2 (proj2
             (@clinic_lists_one_entry_per_clinic Examples.printer Examples.functionPrinter
                Samples.collator (Examples.inheritedCodeRow :: Samples.revenueRows))))).
Defined.

(** ** Order of the stored lists *)

(** X11. With a collation that orders the strings consistently, each of
    the three clinic lists is in the order of the clinic codes: no entry is
    followed, anywhere later in the list, by one whose code collates before
    its own. *)
Theorem clinic_lists_sorted `{NumberPrinter} `{FunctionPrinter} `{collator : Collator}
    (jsonData : list AnyRow) :
  ConsistentCollator collator ->
  StronglySorted
    (fun a b => localeCompare (Revenue.clinicCode a) (Revenue.clinicCode b) <= 0)
    (State.revenueData jsonData)
  /\ StronglySorted
       (fun a b =>
          localeCompare (DepositPurchase.clinicCode a) (DepositPurchase.clinicCode b) <= 0)
       (State.depositPurchaseData jsonData)
  /\ (forall l, State.cashinData jsonData = Some l ->
        StronglySorted
          (fun a b => localeCompare (CashIn.clinicCode a) (CashIn.clinicCode b) <= 0) l).
Proof.
  intros consistent.
  split; [| split]; try apply (sort_by_code_StronglySorted consistent).
  unfold State.cashinData. intros l Hl.
  destruct (CashIn.clinicMap jsonData); [| discriminate].
  injection Hl as <-. apply (sort_by_code_StronglySorted consistent).
Qed.

Lemma clinic_lists_sorted_witness :
  StronglySorted
    (fun a b =>
       @localeCompare Samples.collator (Revenue.clinicCode a) (Revenue.clinicCode b) <= 0)
    (@State.revenueData Examples.printer Samples.collator Samples.revenueRows)
  /\ Revenue.clinicCode
       <$> @State.revenueData Examples.printer Samples.collator Samples.revenueRows
     = ["12"; "JKT"; "SBY"; "Unknown"]%string.
Proof.
  split.
  - exact (proj1 (@clinic_lists_sorted Examples.printer Examples.functionPrinter
                    Samples.collator Samples.revenueRows codeUnit_consistent)).
  - vm_compute. reflexivity.
Defined.

Section OrderIndependence.
Context `{NumberPrinter} `{FunctionPrinter} `{collator : Collator}.


End OrderIndependence.



(** ** Sums over the rows of a clinic *)

Section ClinicLookups.
Context `{NumberPrinter}.

Lemma revenue_clinicMap_Some (rows : list AnyRow) (code : string)
    (s : Revenue.RevenueClinicSummary) :
  Revenue.clinicMap rows !! code = Some s ->
  JSObject.inherited code = false /\ rowsOf code rows <> []
  /\ (wholeAmounts priceColumns (rowsOf code rows) = true ->
      s = Sums.revenue code (rowsOf code rows)).
Proof.
  intros Hs.
  assert (Hl := Hs). rewrite revenue_clinicMap_upsert, clinic_lookup in Hl.
  destruct (JSObject.inherited code); [discriminate |].
  split; [reflexivity |].
  destruct (rowsOf code rows) as [|row l] eqn:E; [discriminate |].
  split; [discriminate |].
  intros Hw. rewrite <- E in Hw. rewrite (revenue_clinicMap_lookup rows code Hw) in Hs.
  destruct (JSObject.inherited code); [discriminate |].
  rewrite E in Hs. congruence.
Qed.

Lemma depositPurchase_clinicMap_Some (rows : list AnyRow) (code : string)
    (s : DepositPurchase.DepositPurchaseClinicSummary) :
  DepositPurchase.clinicMap rows !! code = Some s ->
  JSObject.inherited code = false /\ rowsOf code rows <> []
  /\ (wholeAmounts priceColumns (rowsOf code rows) = true ->
      s = Sums.depositPurchase code (rowsOf code rows)).
Proof.
  intros Hs.
  assert (Hl := Hs). rewrite depositPurchase_clinicMap_upsert, clinic_lookup in Hl.
  destruct (JSObject.inherited code); [discriminate |].
  split; [reflexivity |].
  destruct (rowsOf code rows) as [|row l] eqn:E; [discriminate |].
  split; [discriminate |].
  intros Hw. rewrite <- E in Hw.
  rewrite (depositPurchase_clinicMap_lookup rows code Hw) in Hs.
  destruct (JSObject.inherited code); [discriminate |].
  rewrite E in Hs. congruence.
Qed.

End ClinicLookups.

(** X14. The summary the revenue pipeline keeps for a clinic whose price
    cells are whole numbers with magnitudes adding up to 2^53 at most holds,
    in each treatment subtotal, the sum of that column over the treatment rows
    of the clinic, in each product subtotal the sum over its product rows, and
    in the total the sum of the final prices of all its rows; a row whose
    clinic code is blank or missing is a row of the clinic "Unknown", and
    no summary is kept under a code that a plain object inherits. *)
Theorem revenue_clinic_sums `{NumberPrinter} (jsonData : list AnyRow) (code : string)
    (s : Revenue.RevenueClinicSummary) :
  Revenue.clinicMap jsonData !! code = Some s ->
  let rows := rowsOf code jsonData in
  wholeAmounts priceColumns rows = true ->
  JSObject.inherited code = false
  /\ Revenue.clinicCode s = code
  /\ rows <> []
  /\ Revenue.treatmentRetailPrice s
     = Finite (sumOf (inClass Treatment (fun row => numberFrom row "Total Retail Price"))
                     rows)
  /\ Revenue.treatmentSellingPrice s
     = Finite (sumOf (inClass Treatment (fun row => numberFrom row "Total Selling Price"))
                     rows)
  /\ Revenue.treatmentDiscount s
     = Finite (sumOf (inClass Treatment (fun row => numberFrom row "Total Discount")) rows)
  /\ Revenue.productRetailPrice s
     = Finite (sumOf (inClass Product (fun row => numberFrom row "Total Retail Price")) rows)
  /\ Revenue.productSellingPrice s
     = Finite (sumOf (inClass Product (fun row => numberFrom row "Total Selling Price"))
                     rows)
  /\ Revenue.productDiscount s
     = Finite (sumOf (inClass Product (fun row => numberFrom row "Total Discount")) rows)
  /\ Revenue.total s = Finite (sumOf (fun row => numberFrom row "Total Final Price") rows).
Proof.
  intros Hs rows Hw.
  destruct (revenue_clinicMap_Some jsonData code s Hs) as (Hi & Hne & Heq).
  rewrite (Heq Hw). fold rows.
  split; [exact Hi |]. split; [reflexivity |]. split; [exact Hne |].
  repeat split.
Qed.

Lemma revenue_clinic_sums_witness :
  exists s,
    @Revenue.clinicMap Examples.printer Samples.revenueRows !! "JKT"%string = Some s
    /\ Revenue.total s = Finite (ofZ 205)
    /\ Revenue.treatmentRetailPrice s = Finite (ofZ 200)
    /\ Revenue.productSellingPrice s = Finite (ofZ 50)
    /\ Revenue.total s
       = Finite (sumOf (fun row => numberFrom row "Total Final Price")
                       (@rowsOf Examples.printer "JKT" Samples.revenueRows)).
Proof.
  destruct (@Revenue.clinicMap Examples.printer Samples.revenueRows !! "JKT"%string)
    as [s|] eqn:Hs; [| vm_compute in Hs; discriminate].
  exists s. split; [reflexivity |].
  destruct (@revenue_clinic_sums Examples.printer Samples.revenueRows "JKT" s Hs eq_refl)
    as (_ & _ & _ & Hr & _ & _ & _ & Hp & _ & Ht).
  split; [rewrite Ht; number_eq |]. split; [rewrite Hr; number_eq |].
  split; [rewrite Hp; number_eq | exact Ht].
Defined.

(** X15. The summary the deposit-purchase pipeline keeps for a clinic
    whose price cells are whole numbers with magnitudes adding up to 2^53 at
    most holds the sums of the four price columns over the rows of the
    clinic. *)
Theorem depositPurchase_clinic_sums `{NumberPrinter} (jsonData : list AnyRow)
    (code : string) (s : DepositPurchase.DepositPurchaseClinicSummary) :
  DepositPurchase.clinicMap jsonData !! code = Some s ->
  let rows := rowsOf code jsonData in
  wholeAmounts priceColumns rows = true ->
  JSObject.inherited code = false
  /\ DepositPurchase.clinicCode s = code
  /\ rows <> []
  /\ DepositPurchase.totalRetailPrice s
     = Finite (sumOf (fun row => numberFrom row "Total Retail Price") rows)
  /\ DepositPurchase.totalSellingPrice s
     = Finite (sumOf (fun row => numberFrom row "Total Selling Price") rows)
  /\ DepositPurchase.totalDiscount s
     = Finite (sumOf (fun row => numberFrom row "Total Discount") rows)
  /\ DepositPurchase.total s
     = Finite (sumOf (fun row => numberFrom row "Total Final Price") rows).
Proof.
  intros Hs rows Hw.
  destruct (depositPurchase_clinicMap_Some jsonData code s Hs) as (Hi & Hne & Heq).
  rewrite (Heq Hw). fold rows.
  split; [exact Hi |]. split; [reflexivity |]. split; [exact Hne |].
  repeat split.
Qed.

Lemma depositPurchase_clinic_sums_witness :
  exists s,
    @DepositPurchase.clinicMap Examples.printer Samples.revenueRows !! "JKT"%string = Some s
    /\ DepositPurchase.total s = Finite (ofZ 205)
    /\ DepositPurchase.total s
       = Finite (sumOf (fun row => numberFrom row "Total Final Price")
                       (@rowsOf Examples.printer "JKT" Samples.revenueRows)).
Proof.
  destruct (@DepositPurchase.clinicMap Examples.printer Samples.revenueRows !! "JKT"%string)
    as [s|] eqn:Hs; [| vm_compute in Hs; discriminate].
  exists s. split; [reflexivity |].
  destruct (@depositPurchase_clinic_sums Examples.printer Samples.revenueRows "JKT" s Hs
              eq_refl) as (_ & _ & _ & _ & _ & _ & Ht).
  split; [rewrite Ht; number_eq | exact Ht].
Defined.

(** X16. In the entry the cash-in pipeline puts out for a clinic whose
    amounts are whole numbers with magnitudes adding up to 2^53 at most, the
    total is the sum of the amounts of all the rows of the clinic, the deposit
    and the voucher are the sums over its rows paid by "Treatment Deposit" and
    by one of the two voucher labels, and nonDepositVoucher is the sum of the
    amounts of its other rows; deposit, voucher and nonDepositVoucher add up
    to the total. *)
Theorem cashin_clinic_sums `{NumberPrinter} `{FunctionPrinter} (jsonData : list AnyRow)
    (out : gmap string CashIn.CashInClinicSummary) (code : string)
    (clinic : CashIn.CashInClinicSummary) :
  CashIn.processedData jsonData = Some out ->
  out !! code = Some clinic ->
  let rows := rowsOf code jsonData in
  let amount row := amountFrom row "Amount" in
  let labelled (p : string -> bool) :=
    List.filter (fun row => p (orElse (stringFrom row "Payment Method") "Unknown")) rows in
  wholeAmounts amountColumns rows = true ->
  let deposit := sumOf amount (labelled (fun label => String.eqb label "Treatment Deposit")) in
  let voucher := sumOf amount (labelled CashIn.isVoucher) in
  let other :=
    sumOf amount
      (labelled (fun label =>
                   negb (String.eqb label "Treatment Deposit")
                   && negb (CashIn.isVoucher label))) in
  CashIn.clinicCode clinic = code
  /\ rows <> []
  /\ CashIn.total clinic = Finite (sumOf amount rows)
  /\ CashIn.deposit clinic = Finite deposit
  /\ CashIn.voucher clinic = Finite voucher
  /\ CashIn.nonDepositVoucher clinic = Finite other
  /\ sumOf amount rows = (deposit + voucher + other)%Qc.
Proof.
  intros Hout Hl rows amount labelled Hw deposit voucher other.
  destruct (cashIn_processedData_numbers jsonData out code clinic Hout Hl) as [Hne Hnum].
  destruct (Hnum Hw) as (Hc & Ht & Hd & Hv & Hn).
  split; [exact Hc |]. split; [exact Hne |]. split; [exact Ht |].
  split; [exact Hd |]. split; [exact Hv |]. split; [exact Hn |].
  change deposit with (sumOf amountOf (Sums.depositRows rows)).
  change voucher with (sumOf amountOf (Sums.voucherRows rows)).
  change other with (sumOf amountOf (Sums.otherRows rows)).
  rewrite <- (sumOf_other rows). change amount with amountOf. ring.
Qed.

Lemma cashin_clinic_sums_witness :
  @CashIn.processedData Examples.printer Examples.functionPrinter Examples.cashInRows
  = Some Examples.cashInOutput
  /\ Examples.cashInOutput !! "JKT"%string = Some Examples.cashInClinic
  /\ CashIn.nonDepositVoucher Examples.cashInClinic = Finite (ofZ 500)
  /\ CashIn.total Examples.cashInClinic
     = Finite (sumOf (fun row => amountFrom row "Amount")
                     (@rowsOf Examples.printer "JKT" Examples.cashInRows)).
Proof.
  assert (Hout : @CashIn.processedData Examples.printer Examples.functionPrinter
                   Examples.cashInRows = Some Examples.cashInOutput)
    by (vm_compute; reflexivity).
  assert (Hp : Examples.cashInOutput !! "JKT"%string = Some Examples.cashInClinic)
    by (vm_compute; reflexivity).
  split; [exact Hout |]. split; [exact Hp |].
  destruct (@cashin_clinic_sums Examples.printer Examples.functionPrinter _ _ _ _ Hout Hp
              eq_refl) as (_ & _ & Ht & _ & _ & Hn & _).
  split; [rewrite Hn; number_eq | exact Ht].
Defined.

(** ** Grand totals *)

(** A grand total adds up, clinic after clinic, a field that holds the sum
    of a column over the rows of the clinic: whole amounts make it the sum
    of the column over all the rows. *)
Section GrandTotal.
Context `{NumberPrinter}.
Context {S T : Type} (code : S -> string) (step : T -> S -> T).
Context (f : T -> NumberValue) (x : S -> NumberValue).
Context (col : AnyRow -> Qc) (p : AnyRow -> bool).
Hypothesis f_step : forall t s, f (step t s) = Binary64.add (f t) (x s).

Lemma grand_total (data : list S) (rows : list AnyRow) (t0 : T) :
  f t0 = Finite 0 ->
  NoDup (code <$> data) ->
  (forall row, row ∈ rows -> RowEffect.clinicOf row ∈ code <$> data) ->
  (forall s, s ∈ data ->
     x s = Finite (sumOf (fun r => if p r then col r else 0%Qc) (rowsOf (code s) rows))) ->
  Forall (fun row => integral (col row) = true) rows ->
  (sumOf (fun row => Math_abs (col row)) rows <= ofZ (2 ^ 53))%Qc ->
  f (foldl step t0 data) = Finite (sumOf (fun r => if p r then col r else 0%Qc) rows).
Proof.
  intros Ht0 Hn Hcover Hx Hi Hb.
  set (c := fun s => sumOf (fun r => if p r then col r else 0%Qc) (rowsOf (code s) rows)).
  rewrite (foldl_field_whole step f x c (fun _ => true)
             (fun t s => f_step t s) data t0 0%Qc Ht0 integral_0).
  - f_equal.
    transitivity (sumOf (fun k => sumOf (fun r => if p r then col r else 0%Qc)
                                        (rowsOf k rows)) (code <$> data)).
    + rewrite (sumOf_fmap code
                 (fun k => sumOf (fun r => if p r then col r else 0%Qc) (rowsOf k rows))
                 data).
      unfold c. ring.
    + apply (sumOf_by_key RowEffect.clinicOf (code <$> data)
               (fun r => if p r then col r else 0%Qc) rows Hn Hcover).
  - apply Forall_forall. intros s Hs. split; [| apply Hx, Hs].
    apply integral_sumOf_some, Forall_filter_list, Hi.
  - rewrite Math_abs_0.
    assert (Hle : (sumOf (fun s => Math_abs (c s)) data
                   <= sumOf (fun row => Math_abs (col row)) rows)%Qc).
    { eapply Qcle_trans.
      - apply (sumOf_le _ (fun s => (fun k => sumOf (fun row => Math_abs (col row))
                                                     (rowsOf k rows)) (code s))).
        intros s. apply abs_sumOf_some.
      - rewrite <- (sumOf_by_key RowEffect.clinicOf (code <$> data)
                      (fun row => Math_abs (col row)) rows Hn Hcover).
        rewrite (sumOf_fmap code
                   (fun k => sumOf (fun row => Math_abs (col row))
                                   (List.filter
                                      (fun row => String.eqb (RowEffect.clinicOf row) k)
                                      rows)) data).
        apply Qcle_refl. }
    clear -Hle Hb. to_Q. lra.
Qed.

End GrandTotal.

Lemma revenue_totals_eq (t t' : Revenue.RevenueTotals) :
  Revenue.Totals.treatmentRetailPrice t = Revenue.Totals.treatmentRetailPrice t' ->
  Revenue.Totals.treatmentSellingPrice t = Revenue.Totals.treatmentSellingPrice t' ->
  Revenue.Totals.treatmentDiscount t = Revenue.Totals.treatmentDiscount t' ->
  Revenue.Totals.productRetailPrice t = Revenue.Totals.productRetailPrice t' ->
  Revenue.Totals.productSellingPrice t = Revenue.Totals.productSellingPrice t' ->
  Revenue.Totals.productDiscount t = Revenue.Totals.productDiscount t' ->
  Revenue.Totals.total t = Revenue.Totals.total t' ->
  t = t'.
Proof. destruct t, t'; simpl; intros; subst; reflexivity. Qed.

Lemma depositPurchase_totals_eq (t t' : DepositPurchaseTotals.Totals) :
  DepositPurchaseTotals.totalRetailPrice t = DepositPurchaseTotals.totalRetailPrice t' ->
  DepositPurchaseTotals.totalSellingPrice t = DepositPurchaseTotals.totalSellingPrice t' ->
  DepositPurchaseTotals.totalDiscount t = DepositPurchaseTotals.totalDiscount t' ->
  DepositPurchaseTotals.total t = DepositPurchaseTotals.total t' ->
  t = t'.
Proof. destruct t, t'; simpl; intros; subst; reflexivity. Qed.

Lemma cashin_totals_eq (t t' : CashInTotals.Totals) :
  CashInTotals.nonDepositVoucher t = CashInTotals.nonDepositVoucher t' ->
  CashInTotals.total t = CashInTotals.total t' ->
  t = t'.
Proof. destruct t, t'; simpl; intros; subst; reflexivity. Qed.

Section GrandTotals.
Context `{NumberPrinter} `{FunctionPrinter} `{Collator}.

Lemma counted_covered (jsonData : list AnyRow) (row : AnyRow) :
  row ∈ RowEffect.counted jsonData ->
  RowEffect.clinicOf row ∈ State.clinicKeys jsonData.
Proof.
  intros Hrow. apply counted_elem_of in Hrow as [Hrow Hk].
  apply clinicKeys_spec. split; [exact Hk | eauto].
Qed.

Lemma rowsOf_counted_own (code : string) (jsonData : list AnyRow) :
  JSObject.inherited code = false ->
  rowsOf code (RowEffect.counted jsonData) = rowsOf code jsonData.
Proof. intros Hk. rewrite rowsOf_counted, Hk. reflexivity. Qed.

(** The summaries of the revenue list, over the rows that are counted. *)
Lemma revenueData_summary (jsonData : list AnyRow) (s : Revenue.RevenueClinicSummary) :
  wholeAmounts priceColumns (RowEffect.counted jsonData) = true ->
  s ∈ State.revenueData jsonData ->
  s = Sums.revenue (Revenue.clinicCode s)
        (rowsOf (Revenue.clinicCode s) (RowEffect.counted jsonData)).
Proof.
  intros Hw Hs. apply revenueData_elem_of in Hs.
  destruct (revenue_clinicMap_Some jsonData _ s Hs) as (Hk & _ & Heq).
  rewrite (rowsOf_counted_own _ _ Hk). apply Heq.
  rewrite <- (rowsOf_counted_own _ _ Hk). apply wholeAmounts_filter. exact Hw.
Qed.

Lemma depositPurchaseData_summary (jsonData : list AnyRow)
    (s : DepositPurchase.DepositPurchaseClinicSummary) :
  wholeAmounts priceColumns (RowEffect.counted jsonData) = true ->
  s ∈ State.depositPurchaseData jsonData ->
  s = Sums.depositPurchase (DepositPurchase.clinicCode s)
        (rowsOf (DepositPurchase.clinicCode s) (RowEffect.counted jsonData)).
Proof.
  intros Hw Hs. apply depositPurchaseData_elem_of in Hs.
  destruct (depositPurchase_clinicMap_Some jsonData _ s Hs) as (Hk & _ & Heq).
  rewrite (rowsOf_counted_own _ _ Hk). apply Heq.
  rewrite <- (rowsOf_counted_own _ _ Hk). apply wholeAmounts_filter. exact Hw.
Qed.

Lemma revenue_totals_fold (data : list Revenue.RevenueClinicSummary) :
  Revenue.totals data
  = match data with
    | [] => None
    | _ =>
        Some (foldl
          (fun acc clinic =>
             {| Revenue.Totals.treatmentRetailPrice :=
                  Binary64.add (Revenue.Totals.treatmentRetailPrice acc)
                               (Revenue.treatmentRetailPrice clinic);
                Revenue.Totals.treatmentSellingPrice :=
                  Binary64.add (Revenue.Totals.treatmentSellingPrice acc)
                               (Revenue.treatmentSellingPrice clinic);
                Revenue.Totals.treatmentDiscount :=
                  Binary64.add (Revenue.Totals.treatmentDiscount acc)
                               (Revenue.treatmentDiscount clinic);
                Revenue.Totals.productRetailPrice :=
                  Binary64.add (Revenue.Totals.productRetailPrice acc)
                               (Revenue.productRetailPrice clinic);
                Revenue.Totals.productSellingPrice :=
                  Binary64.add (Revenue.Totals.productSellingPrice acc)
                               (Revenue.productSellingPrice clinic);
                Revenue.Totals.productDiscount :=
                  Binary64.add (Revenue.Totals.productDiscount acc)
                               (Revenue.productDiscount clinic);
                Revenue.Totals.total :=
                  Binary64.add (Revenue.Totals.total acc) (Revenue.total clinic) |})
          {| Revenue.Totals.treatmentRetailPrice := Finite 0;
             Revenue.Totals.treatmentSellingPrice := Finite 0;
             Revenue.Totals.treatmentDiscount := Finite 0;
             Revenue.Totals.productRetailPrice := Finite 0;
             Revenue.Totals.productSellingPrice := Finite 0;
             Revenue.Totals.productDiscount := Finite 0;
             Revenue.Totals.total := Finite 0 |}
          data)
    end.
Proof. destruct data; reflexivity. Qed.

(** The grand totals of the revenue view, as sums over the counted rows. *)
Lemma revenue_totals_whole (jsonData : list AnyRow) :
  let rows := RowEffect.counted jsonData in
  wholeAmounts priceColumns rows = true ->
  Revenue.totals (State.revenueData jsonData)
  = match rows with
    | [] => None
    | _ =>
        Some {| Revenue.Totals.treatmentRetailPrice :=
                  Finite (sumOf (inClass Treatment retailPriceOf) rows);
                Revenue.Totals.treatmentSellingPrice :=
                  Finite (sumOf (inClass Treatment sellingPriceOf) rows);
                Revenue.Totals.treatmentDiscount :=
                  Finite (sumOf (inClass Treatment discountOf) rows);
                Revenue.Totals.productRetailPrice :=
                  Finite (sumOf (inClass Product retailPriceOf) rows);
                Revenue.Totals.productSellingPrice :=
                  Finite (sumOf (inClass Product sellingPriceOf) rows);
                Revenue.Totals.productDiscount :=
                  Finite (sumOf (inClass Product discountOf) rows);
                Revenue.Totals.total := Finite (sumOf finalPriceOf rows) |}
    end.
Proof.
  intros rows0 Hw. subst rows0. rewrite revenue_totals_fold.
  assert (Hnil := revenueData_nil jsonData).
  destruct (State.revenueData jsonData) as [|s0 data0] eqn:Hdata.
  { rewrite (proj1 Hnil eq_refl). reflexivity. }
  destruct (RowEffect.counted jsonData) as [|r0 rows0] eqn:Hrows;
    [discriminate (proj2 Hnil eq_refl) |].
  rewrite <- Hrows, <- Hdata in *. clear Hnil. f_equal.
  set (rows := RowEffect.counted jsonData) in *.
  assert (Hn : NoDup (Revenue.clinicCode <$> State.revenueData jsonData))
    by (rewrite revenueData_codes; apply clinicKeys_spec).
  assert (Hcover : forall row, row ∈ rows ->
            RowEffect.clinicOf row ∈ Revenue.clinicCode <$> State.revenueData jsonData).
  { intros row Hrow. rewrite revenueData_codes. apply counted_covered. exact Hrow. }
  assert (Hsum := fun s Hs => revenueData_summary jsonData s Hw Hs).
  fold rows in Hsum.
  destruct (wholeAmounts_column _ _ retailPriceOf Hw ltac:(simpl; auto)) as [Hr1 Hr2].
  destruct (wholeAmounts_column _ _ sellingPriceOf Hw ltac:(simpl; auto)) as [Hs1 Hs2].
  destruct (wholeAmounts_column _ _ discountOf Hw ltac:(simpl; auto)) as [Hd1 Hd2].
  destruct (wholeAmounts_column _ _ finalPriceOf Hw ltac:(simpl; auto)) as [Hf1 Hf2].
  apply revenue_totals_eq;
    cbn [Revenue.Totals.treatmentRetailPrice Revenue.Totals.treatmentSellingPrice
         Revenue.Totals.treatmentDiscount Revenue.Totals.productRetailPrice
         Revenue.Totals.productSellingPrice Revenue.Totals.productDiscount
         Revenue.Totals.total].
  - rewrite <- inClass_Treatment.
    apply (grand_total Revenue.clinicCode _ Revenue.Totals.treatmentRetailPrice
             Revenue.treatmentRetailPrice);
      [reflexivity | reflexivity | exact Hn | exact Hcover | | assumption..].
    intros s Hs. rewrite (Hsum s Hs) at 1. simpl. rewrite inClass_Treatment. reflexivity.
  - rewrite <- inClass_Treatment.
    apply (grand_total Revenue.clinicCode _ Revenue.Totals.treatmentSellingPrice
             Revenue.treatmentSellingPrice);
      [reflexivity | reflexivity | exact Hn | exact Hcover | | assumption..].
    intros s Hs. rewrite (Hsum s Hs) at 1. simpl. rewrite inClass_Treatment. reflexivity.
  - rewrite <- inClass_Treatment.
    apply (grand_total Revenue.clinicCode _ Revenue.Totals.treatmentDiscount
             Revenue.treatmentDiscount);
      [reflexivity | reflexivity | exact Hn | exact Hcover | | assumption..].
    intros s Hs. rewrite (Hsum s Hs) at 1. simpl. rewrite inClass_Treatment. reflexivity.
  - rewrite <- inClass_Product.
    apply (grand_total Revenue.clinicCode _ Revenue.Totals.productRetailPrice
             Revenue.productRetailPrice);
      [reflexivity | reflexivity | exact Hn | exact Hcover | | assumption..].
    intros s Hs. rewrite (Hsum s Hs) at 1. simpl. rewrite inClass_Product. reflexivity.
  - rewrite <- inClass_Product.
    apply (grand_total Revenue.clinicCode _ Revenue.Totals.productSellingPrice
             Revenue.productSellingPrice);
      [reflexivity | reflexivity | exact Hn | exact Hcover | | assumption..].
    intros s Hs. rewrite (Hsum s Hs) at 1. simpl. rewrite inClass_Product. reflexivity.
  - rewrite <- inClass_Product.
    apply (grand_total Revenue.clinicCode _ Revenue.Totals.productDiscount
             Revenue.productDiscount);
      [reflexivity | reflexivity | exact Hn | exact Hcover | | assumption..].
    intros s Hs. rewrite (Hsum s Hs) at 1. simpl. rewrite inClass_Product. reflexivity.
  - apply (grand_total Revenue.clinicCode _ Revenue.Totals.total Revenue.total
             finalPriceOf (fun _ => true));
      [reflexivity | reflexivity | exact Hn | exact Hcover | | assumption..].
    intros s Hs. rewrite (Hsum s Hs) at 1. reflexivity.
Qed.

End GrandTotals.

(** X17. When the price cells of the rows whose clinic code is not
    inherited are whole numbers with magnitudes adding up to 2^53 at most,
    the grand totals of the revenue view are the sums over those rows: each
    treatment total over the treatment rows, each product total over the
    product rows, the total over every row.  There are none when no row is
    counted. *)
Theorem revenue_totals_over_rows `{NumberPrinter} `{Collator} (jsonData : list AnyRow) :
  let rows := RowEffect.counted jsonData in
  wholeAmounts priceColumns rows = true ->
  Revenue.totals (State.revenueData jsonData)
  = match rows with
    | [] => None
    | _ =>
        Some {| Revenue.Totals.treatmentRetailPrice :=
                  Finite (sumOf (inClass Treatment
                                   (fun row => numberFrom row "Total Retail Price")) rows);
                Revenue.Totals.treatmentSellingPrice :=
                  Finite (sumOf (inClass Treatment
                                   (fun row => numberFrom row "Total Selling Price")) rows);
                Revenue.Totals.treatmentDiscount :=
                  Finite (sumOf (inClass Treatment
                                   (fun row => numberFrom row "Total Discount")) rows);
                Revenue.Totals.productRetailPrice :=
                  Finite (sumOf (inClass Product
                                   (fun row => numberFrom row "Total Retail Price")) rows);
                Revenue.Totals.productSellingPrice :=
                  Finite (sumOf (inClass Product
                                   (fun row => numberFrom row "Total Selling Price")) rows);
                Revenue.Totals.productDiscount :=
                  Finite (sumOf (inClass Product
                                   (fun row => numberFrom row "Total Discount")) rows);
                Revenue.Totals.total :=
                  Finite (sumOf (fun row => numberFrom row "Total Final Price") rows) |}
    end.
Proof.
  intros rows Hw. rewrite (revenue_totals_whole jsonData Hw). reflexivity.
Qed.

Lemma revenue_totals_over_rows_witness :
  exists t,
    Revenue.totals (@State.revenueData Examples.printer Samples.collator
                      (Examples.inheritedCodeRow :: Samples.revenueRows)) = Some t
    /\ Revenue.Totals.total t = Finite (ofZ 325)
    /\ Revenue.Totals.treatmentSellingPrice t = Finite (ofZ 300)
    /\ Revenue.Totals.productDiscount t = Finite (ofZ 5).
Proof.
  eexists. split.
  - apply (@revenue_totals_over_rows Examples.printer Samples.collator
             (Examples.inheritedCodeRow :: Samples.revenueRows)).
    vm_compute. reflexivity.
  - split; [number_eq |]. split; number_eq.
Defined.

Section Validation.
Context `{NumberPrinter}.

Lemma sumOf_rowDiscrepancy (rows : list AnyRow) :
  (sumOf finalPriceOf rows
   - ((sumOf (inClass Treatment sellingPriceOf) rows
       + sumOf (inClass Product sellingPriceOf) rows)
      - (sumOf (inClass Treatment discountOf) rows
         + sumOf (inClass Product discountOf) rows)))%Qc
  = sumOf rowDiscrepancy rows.
Proof.
  induction rows as [|row rows IH]; simpl; [ring |].
  rewrite <- IH. unfold inClass, rowDiscrepancy, finalPriceOf, sellingPriceOf, discountOf.
  destruct (itemClass row); ring.
Qed.

Lemma integral_inClass (c : ItemClass) (col : AnyRow -> Qc) (rows : list AnyRow) :
  Forall (fun row => integral (col row) = true) rows ->
  integral (sumOf (inClass c col) rows) = true.
Proof.
  intros Hi. apply integral_sumOf. eapply Forall_impl; [exact Hi |].
  intros row Hrow. simpl. unfold inClass. destruct (itemClass row), c; auto.
Qed.

(** The magnitudes the validation goes through stay within those of the
    four price columns. *)
Lemma validation_magnitudes (rows : list AnyRow) :
  (Math_abs (sumOf (inClass Treatment sellingPriceOf) rows)
   + Math_abs (sumOf (inClass Product sellingPriceOf) rows)
   + Math_abs (sumOf (inClass Treatment discountOf) rows)
   + Math_abs (sumOf (inClass Product discountOf) rows)
   + Math_abs (sumOf finalPriceOf rows)
   <= sumOf (fun row => sumOf (fun column => Math_abs (column row)) priceColumns) rows)%Qc.
Proof.
  induction rows as [|row rows IH].
  - simpl. rewrite Math_abs_0. apply Qc_leb_true. reflexivity.
  - rewrite !sumOf_cons.
    change (sumOf (fun column => Math_abs (column row)) priceColumns)
      with (Math_abs (retailPriceOf row)
            + (Math_abs (sellingPriceOf row)
               + (Math_abs (discountOf row) + (Math_abs (finalPriceOf row) + 0))))%Qc.
    assert (T1 := Math_abs_triangle (inClass Treatment sellingPriceOf row)
                    (sumOf (inClass Treatment sellingPriceOf) rows)).
    assert (T2 := Math_abs_triangle (inClass Product sellingPriceOf row)
                    (sumOf (inClass Product sellingPriceOf) rows)).
    assert (T3 := Math_abs_triangle (inClass Treatment discountOf row)
                    (sumOf (inClass Treatment discountOf) rows)).
    assert (T4 := Math_abs_triangle (inClass Product discountOf row)
                    (sumOf (inClass Product discountOf) rows)).
    assert (T5 := Math_abs_triangle (finalPriceOf row) (sumOf finalPriceOf rows)).
    assert (P1 := Math_abs_nonneg (retailPriceOf row)).
    assert (P2 := Math_abs_nonneg (sellingPriceOf row)).
    assert (P3 := Math_abs_nonneg (discountOf row)).
    assert (Hrow : (Math_abs (inClass Treatment sellingPriceOf row)
                    + Math_abs (inClass Product sellingPriceOf row)
                    + Math_abs (inClass Treatment discountOf row)
                    + Math_abs (inClass Product discountOf row)
                    <= Math_abs (sellingPriceOf row) + Math_abs (discountOf row))%Qc).
    { unfold inClass. destruct (itemClass row); rewrite ?Math_abs_0;
        clear -P2 P3; to_Q; lra. }
    revert IH T1 T2 T3 T4 T5 P1 P2 P3 Hrow.
    generalize (Math_abs (inClass Treatment sellingPriceOf row
                          + sumOf (inClass Treatment sellingPriceOf) rows)).
    generalize (Math_abs (inClass Product sellingPriceOf row
                          + sumOf (inClass Product sellingPriceOf) rows)).
    generalize (Math_abs (inClass Treatment discountOf row
                          + sumOf (inClass Treatment discountOf) rows)).
    generalize (Math_abs (inClass Product discountOf row
                          + sumOf (inClass Product discountOf) rows)).
    generalize (Math_abs (finalPriceOf row + sumOf finalPriceOf rows)).
    generalize (Math_abs (sumOf (inClass Treatment sellingPriceOf) rows)).
    generalize (Math_abs (sumOf (inClass Product sellingPriceOf) rows)).
    generalize (Math_abs (sumOf (inClass Treatment discountOf) rows)).
    generalize (Math_abs (sumOf (inClass Product discountOf) rows)).
    generalize (Math_abs (sumOf finalPriceOf rows)).
    generalize (sumOf (fun row0 => sumOf (fun column => Math_abs (column row0)) priceColumns)
                      rows).
    generalize (Math_abs (inClass Treatment sellingPriceOf row)).
    generalize (Math_abs (inClass Product sellingPriceOf row)).
    generalize (Math_abs (inClass Treatment discountOf row)).
    generalize (Math_abs (inClass Product discountOf row)).
    generalize (Math_abs (retailPriceOf row)) (Math_abs (sellingPriceOf row))
               (Math_abs (discountOf row)) (Math_abs (finalPriceOf row)).
    intros. to_Q. lra.
Qed.

End Validation.

(** X18. When the price cells of the counted rows are whole numbers with
    magnitudes adding up to 2^53 at most, the revenue validation compares sums
    over those rows: the total less the second checksum is the sum of the
    discrepancies of the rows, and the validation reads PASS exactly when that
    sum is 0, as it is when every row's final price is its selling price less
    its discount (treatments and products) or 0 (other rows). *)
Theorem revenue_validation_over_rows `{NumberPrinter} `{Collator}
    (jsonData : list AnyRow) (t : Revenue.RevenueTotals) :
  let rows := RowEffect.counted jsonData in
  wholeAmounts priceColumns rows = true ->
  Revenue.totals (State.revenueData jsonData) = Some t ->
  Binary64.sub (Revenue.Totals.total t) (Revenue.checksum2 t)
  = Finite (sumOf rowDiscrepancy rows)
  /\ (Revenue.validation t = "PASS"%string <-> sumOf rowDiscrepancy rows = 0%Qc)
  /\ ((forall row, In row rows -> rowDiscrepancy row = 0%Qc) ->
      Revenue.validation t = "PASS"%string).
Proof.
  intros rows Hw Ht. rewrite (revenue_totals_whole jsonData Hw) in Ht. fold rows in Ht.
  destruct rows as [|r0 rows0] eqn:Hrows; [discriminate |]. rewrite <- Hrows in *.
  injection Ht as <-.
  destruct (wholeAmounts_column _ _ sellingPriceOf Hw ltac:(simpl; auto)) as [Hs1 _].
  destruct (wholeAmounts_column _ _ discountOf Hw ltac:(simpl; auto)) as [Hd1 _].
  destruct (wholeAmounts_column _ _ finalPriceOf Hw ltac:(simpl; auto)) as [Hf1 _].
  assert (Hbound : (sumOf (fun row => sumOf (fun column => Math_abs (column row))
                                            priceColumns) rows <= ofZ (2 ^ 53))%Qc).
  { unfold wholeAmounts in Hw. apply andb_true_iff in Hw as [_ Hw].
    apply Qc_leb_true. exact Hw. }
  match goal with
  | |- context [Revenue.validation ?r] =>
      destruct (validation_whole r _ _ _ _ _ eq_refl eq_refl eq_refl eq_refl eq_refl
                  (integral_inClass Treatment sellingPriceOf rows Hs1)
                  (integral_inClass Product sellingPriceOf rows Hs1)
                  (integral_inClass Treatment discountOf rows Hd1)
                  (integral_inClass Product discountOf rows Hd1)
                  (integral_sumOf finalPriceOf rows Hf1)
                  (Qcle_trans _ _ _ (validation_magnitudes rows) Hbound))
        as (_ & Hsub & _ & Hpass)
  end.
  rewrite sumOf_rowDiscrepancy in Hsub, Hpass.
  split; [exact Hsub |]. split; [exact Hpass |].
  intros Hz. apply Hpass. apply sumOf_zero. exact Hz.
Qed.

Lemma revenue_validation_over_rows_witness :
  exists t,
    Revenue.totals (@State.revenueData Examples.printer Samples.collator
                      Samples.revenueRows) = Some t
    /\ sumOf (@rowDiscrepancy Examples.printer) Samples.revenueRows = ofZ 10
    /\ Binary64.sub (Revenue.Totals.total t) (Revenue.checksum2 t) = Finite (ofZ 10)
    /\ Revenue.validation t = "FAIL"%string.
Proof.
  destruct (Revenue.totals (@State.revenueData Examples.printer Samples.collator
                              Samples.revenueRows)) as [t|] eqn:Ht;
    [| vm_compute in Ht; discriminate].
  exists t. split; [reflexivity |].
  assert (Hs : sumOf (@rowDiscrepancy Examples.printer) Samples.revenueRows = ofZ 10)
    by number_eq.
  destruct (@revenue_validation_over_rows Examples.printer Samples.collator
              Samples.revenueRows t eq_refl Ht) as (Hsub & Hpass & _).
  change (@RowEffect.counted Examples.printer Samples.revenueRows)
    with Samples.revenueRows in Hsub, Hpass.
  split; [exact Hs |]. split; [rewrite Hsub, Hs; reflexivity |].
  destruct (proj2 (validation_cases t)) as [_ Hfail]. apply Hfail.
  destruct (Revenue.withinTolerance t) eqn:Hwt; [| reflexivity].
  apply (proj1 (validation_cases t)) in Hwt. apply Hpass in Hwt.
  rewrite Hs in Hwt. apply (f_equal (fun q : Qc => Qnum q)) in Hwt.
  vm_compute in Hwt. discriminate.
Defined.

Section MoreTotals.
Context `{NumberPrinter} `{FunctionPrinter} `{Collator}.

Lemma depositPurchase_totals_fold
    (data : list DepositPurchase.DepositPurchaseClinicSummary) :
  DepositPurchaseTotals.depositPurchaseTotals data
  = match data with
    | [] => None
    | _ =>
        Some (foldl
          (fun acc clinic =>
             {| DepositPurchaseTotals.totalRetailPrice :=
                  Binary64.add (DepositPurchaseTotals.totalRetailPrice acc)
                               (DepositPurchase.totalRetailPrice clinic);
                DepositPurchaseTotals.totalSellingPrice :=
                  Binary64.add (DepositPurchaseTotals.totalSellingPrice acc)
                               (DepositPurchase.totalSellingPrice clinic);
                DepositPurchaseTotals.totalDiscount :=
                  Binary64.add (DepositPurchaseTotals.totalDiscount acc)
                               (DepositPurchase.totalDiscount clinic);
                DepositPurchaseTotals.total :=
                  Binary64.add (DepositPurchaseTotals.total acc)
                               (DepositPurchase.total clinic) |})
          {| DepositPurchaseTotals.totalRetailPrice := Finite 0;
             DepositPurchaseTotals.totalSellingPrice := Finite 0;
             DepositPurchaseTotals.totalDiscount := Finite 0;
             DepositPurchaseTotals.total := Finite 0 |}
          data)
    end.
Proof. destruct data; reflexivity. Qed.

Lemma depositPurchase_totals_whole (jsonData : list AnyRow) :
  let rows := RowEffect.counted jsonData in
  wholeAmounts priceColumns rows = true ->
  DepositPurchaseTotals.depositPurchaseTotals (State.depositPurchaseData jsonData)
  = match rows with
    | [] => None
    | _ =>
        Some {| DepositPurchaseTotals.totalRetailPrice := Finite (sumOf retailPriceOf rows);
                DepositPurchaseTotals.totalSellingPrice :=
                  Finite (sumOf sellingPriceOf rows);
                DepositPurchaseTotals.totalDiscount := Finite (sumOf discountOf rows);
                DepositPurchaseTotals.total := Finite (sumOf finalPriceOf rows) |}
    end.
Proof.
  intros rows0 Hw. subst rows0. rewrite depositPurchase_totals_fold.
  assert (Hnil := depositPurchaseData_nil jsonData).
  destruct (State.depositPurchaseData jsonData) as [|s0 data0] eqn:Hdata.
  { rewrite (proj1 Hnil eq_refl). reflexivity. }
  destruct (RowEffect.counted jsonData) as [|r0 rows0] eqn:Hrows;
    [discriminate (proj2 Hnil eq_refl) |].
  rewrite <- Hrows, <- Hdata in *. clear Hnil. f_equal.
  set (rows := RowEffect.counted jsonData) in *.
  assert (Hn : NoDup (DepositPurchase.clinicCode <$> State.depositPurchaseData jsonData))
    by (rewrite depositPurchaseData_codes; apply clinicKeys_spec).
  assert (Hcover : forall row, row ∈ rows ->
            RowEffect.clinicOf row
            ∈ DepositPurchase.clinicCode <$> State.depositPurchaseData jsonData).
  { intros row Hrow. rewrite depositPurchaseData_codes. apply counted_covered. exact Hrow. }
  assert (Hsum := fun s Hs => depositPurchaseData_summary jsonData s Hw Hs).
  fold rows in Hsum.
  destruct (wholeAmounts_column _ _ retailPriceOf Hw ltac:(simpl; auto)) as [Hr1 Hr2].
  destruct (wholeAmounts_column _ _ sellingPriceOf Hw ltac:(simpl; auto)) as [Hs1 Hs2].
  destruct (wholeAmounts_column _ _ discountOf Hw ltac:(simpl; auto)) as [Hd1 Hd2].
  destruct (wholeAmounts_column _ _ finalPriceOf Hw ltac:(simpl; auto)) as [Hf1 Hf2].
  apply depositPurchase_totals_eq;
    cbn [DepositPurchaseTotals.totalRetailPrice DepositPurchaseTotals.totalSellingPrice
         DepositPurchaseTotals.totalDiscount DepositPurchaseTotals.total].
  - apply (grand_total DepositPurchase.clinicCode _ DepositPurchaseTotals.totalRetailPrice
             DepositPurchase.totalRetailPrice retailPriceOf (fun _ => true));
      [reflexivity | reflexivity | exact Hn | exact Hcover | | assumption..].
    intros s Hs. rewrite (Hsum s Hs) at 1. reflexivity.
  - apply (grand_total DepositPurchase.clinicCode _ DepositPurchaseTotals.totalSellingPrice
             DepositPurchase.totalSellingPrice sellingPriceOf (fun _ => true));
      [reflexivity | reflexivity | exact Hn | exact Hcover | | assumption..].
    intros s Hs. rewrite (Hsum s Hs) at 1. reflexivity.
  - apply (grand_total DepositPurchase.clinicCode _ DepositPurchaseTotals.totalDiscount
             DepositPurchase.totalDiscount discountOf (fun _ => true));
      [reflexivity | reflexivity | exact Hn | exact Hcover | | assumption..].
    intros s Hs. rewrite (Hsum s Hs) at 1. reflexivity.
  - apply (grand_total DepositPurchase.clinicCode _ DepositPurchaseTotals.total
             DepositPurchase.total finalPriceOf (fun _ => true));
      [reflexivity | reflexivity | exact Hn | exact Hcover | | assumption..].
    intros s Hs. rewrite (Hsum s Hs) at 1. reflexivity.
Qed.

Lemma cashin_totals_fold (data : list CashIn.CashInClinicSummary) :
  CashInTotals.cashinTotals data
  = match data with
    | [] => None
    | _ =>
        Some (foldl
          (fun acc clinic =>
             {| CashInTotals.nonDepositVoucher :=
                  Binary64.add (CashInTotals.nonDepositVoucher acc)
                               (CashIn.nonDepositVoucher clinic);
                CashInTotals.total :=
                  Binary64.add (CashInTotals.total acc) (CashIn.total clinic) |})
          {| CashInTotals.nonDepositVoucher := Finite 0; CashInTotals.total := Finite 0 |}
          data)
    end.
Proof. destruct data; reflexivity. Qed.

Lemma cashin_totals_whole (jsonData : list AnyRow)
    (data : list CashIn.CashInClinicSummary) :
  State.cashinData jsonData = Some data ->
  wholeAmounts amountColumns jsonData = true ->
  CashInTotals.cashinTotals data
  = match jsonData with
    | [] => None
    | _ =>
        Some {| CashInTotals.nonDepositVoucher :=
                  Finite (sumOf amountOf (Sums.otherRows jsonData));
                CashInTotals.total := Finite (sumOf amountOf jsonData) |}
    end.
Proof.
  intros Hdata Hw. rewrite cashin_totals_fold.
  destruct (cashinData_Some jsonData data Hdata) as (Hplain & _ & _).
  assert (Hnil : data = [] <-> jsonData = []).
  { rewrite <- cashinData_nil, Hdata. split; congruence. }
  destruct data as [|s0 data0] eqn:Edata.
  { rewrite (proj1 Hnil eq_refl). reflexivity. }
  destruct jsonData as [|r0 rows0] eqn:Erows; [discriminate (proj2 Hnil eq_refl) |].
  rewrite <- Erows, <- Edata in *. clear Hnil. f_equal.
  assert (Hcodes := cashinData_codes jsonData data Hdata).
  assert (Hn : NoDup (CashIn.clinicCode <$> data))
    by (rewrite Hcodes; apply clinicKeys_spec).
  assert (Hcover : forall row, row ∈ jsonData ->
            RowEffect.clinicOf row ∈ CashIn.clinicCode <$> data).
  { intros row Hrow. rewrite Hcodes. apply counted_covered.
    rewrite (plainClinics_counted jsonData Hplain). exact Hrow. }
  assert (Hnum : forall s, s ∈ data ->
            CashIn.total s = Finite (sumOf amountOf (rowsOf (CashIn.clinicCode s) jsonData))
            /\ CashIn.nonDepositVoucher s
               = Finite (sumOf amountOf
                           (Sums.otherRows (rowsOf (CashIn.clinicCode s) jsonData)))).
  { intros s Hs. apply (cashinData_elem_of jsonData data s Hdata) in Hs as (out & Ho & Hs).
    destruct (cashIn_processedData_numbers jsonData out _ s Ho Hs) as [_ Hnum].
    destruct (Hnum ltac:(apply wholeAmounts_filter; exact Hw)) as (_ & Ht & _ & _ & Hnd).
    split; assumption. }
  destruct (wholeAmounts_column _ _ amountOf Hw ltac:(simpl; auto)) as [Hi Hb].
  apply cashin_totals_eq; cbn [CashInTotals.nonDepositVoucher CashInTotals.total].
  - unfold Sums.otherRows at 1. rewrite <- sumOf_filter.
    apply (grand_total CashIn.clinicCode _ CashInTotals.nonDepositVoucher
             CashIn.nonDepositVoucher amountOf isOtherPayment);
      [reflexivity | reflexivity | exact Hn | exact Hcover | | assumption..].
    intros s Hs. rewrite (proj2 (Hnum s Hs)). unfold Sums.otherRows.
    rewrite <- sumOf_filter. reflexivity.
  - apply (grand_total CashIn.clinicCode _ CashInTotals.total CashIn.total amountOf
             (fun _ => true));
      [reflexivity | reflexivity | exact Hn | exact Hcover | | assumption..].
    intros s Hs. rewrite (proj1 (Hnum s Hs)). reflexivity.
Qed.

End MoreTotals.

(** X19. When the price cells of the rows whose clinic code is not
    inherited are whole numbers with magnitudes adding up to 2^53 at most,
    the grand totals of the deposit-purchase view are the sums of the four
    price columns over those rows, and there are none when no row is
    counted. *)
Theorem depositPurchase_totals_over_rows `{NumberPrinter} `{Collator}
    (jsonData : list AnyRow) :
  let rows := RowEffect.counted jsonData in
  wholeAmounts priceColumns rows = true ->
  DepositPurchaseTotals.depositPurchaseTotals (State.depositPurchaseData jsonData)
  = match rows with
    | [] => None
    | _ :: _ =>
        Some {| DepositPurchaseTotals.totalRetailPrice :=
                  Finite (sumOf (fun row => numberFrom row "Total Retail Price") rows);
                DepositPurchaseTotals.totalSellingPrice :=
                  Finite (sumOf (fun row => numberFrom row "Total Selling Price") rows);
                DepositPurchaseTotals.totalDiscount :=
                  Finite (sumOf (fun row => numberFrom row "Total Discount") rows);
                DepositPurchaseTotals.total :=
                  Finite (sumOf (fun row => numberFrom row "Total Final Price") rows) |}
    end.
Proof.
  intros rows Hw. rewrite (depositPurchase_totals_whole jsonData Hw). reflexivity.
Qed.

Lemma depositPurchase_totals_over_rows_witness :
  exists t,
    DepositPurchaseTotals.depositPurchaseTotals
      (@State.depositPurchaseData Examples.printer Samples.collator
         (Examples.inheritedCodeRow :: Samples.revenueRows)) = Some t
    /\ DepositPurchaseTotals.total t = Finite (ofZ 325)
    /\ DepositPurchaseTotals.totalRetailPrice t = Finite (ofZ 390).
Proof.
  eexists. split.
  - apply (@depositPurchase_totals_over_rows Examples.printer Samples.collator
             (Examples.inheritedCodeRow :: Samples.revenueRows)).
    vm_compute. reflexivity.
  - split; number_eq.
Defined.

(** X20. When the cash-in upload does not fail and its amounts are whole
    numbers with magnitudes adding up to 2^53 at most, the grand totals of
    the cash-in view are sums over all the rows of the upload: the total of
    every amount, and the total of the amounts paid by a method that is
    neither "Treatment Deposit" nor a voucher; there are none for an upload
    without rows. *)
Theorem cashin_totals_over_rows `{NumberPrinter} `{FunctionPrinter} `{Collator}
    (jsonData : list AnyRow) (cashinData : list CashIn.CashInClinicSummary) :
  State.cashinData jsonData = Some cashinData ->
  wholeAmounts amountColumns jsonData = true ->
  CashInTotals.cashinTotals cashinData
  = match jsonData with
    | [] => None
    | _ :: _ =>
        Some {| CashInTotals.nonDepositVoucher :=
                  Finite (sumOf (fun row => amountFrom row "Amount")
                                (List.filter isOtherPayment jsonData));
                CashInTotals.total :=
                  Finite (sumOf (fun row => amountFrom row "Amount") jsonData) |}
    end.
Proof.
  intros Hdata Hw. rewrite (cashin_totals_whole jsonData cashinData Hdata Hw). reflexivity.
Qed.

Lemma cashin_totals_over_rows_witness :
  exists data t,
    @State.cashinData Examples.printer Examples.functionPrinter Samples.collator
      Samples.cashInRows = Some data
    /\ CashInTotals.cashinTotals data = Some t
    /\ CashInTotals.total t = Finite (ofZ 1775)
    /\ CashInTotals.nonDepositVoucher t = Finite (ofZ 1225).
Proof.
  destruct (@State.cashinData Examples.printer Examples.functionPrinter Samples.collator
              Samples.cashInRows) as [data|] eqn:Hdata; [| vm_compute in Hdata; discriminate].
  exists data. eexists. split; [reflexivity |]. split.
  - apply (@cashin_totals_over_rows Examples.printer Examples.functionPrinter
             Samples.collator Samples.cashInRows data Hdata).
    vm_compute. reflexivity.
  - split; number_eq.
Defined.

(** ** Payment methods of a clinic *)

Section PaymentMethods.
Context `{NumberPrinter} `{FunctionPrinter} `{collator : Collator}.

Lemma plainMethods_not_proto (rows : list AnyRow) (row : AnyRow) :
  plainMethods rows = true -> row ∈ rows ->
  negb (String.eqb (RowEffect.paymentMethodOf row) "__proto__") = true.
Proof.
  unfold plainMethods. rewrite forallb_forall. intros Hp Hrow.
  apply list_elem_of_In in Hrow. specialize (Hp row Hrow).
  destruct (String.eqb_spec (RowEffect.paymentMethodOf row) "__proto__") as [E|_];
    [| reflexivity].
  rewrite E in Hp. discriminate.
Qed.

Lemma labelRows_nonempty (label : string) (rows : list AnyRow) :
  labelRows label rows <> []
  <-> exists row, row ∈ rows /\ RowEffect.paymentMethodOf row = label.
Proof.
  unfold labelRows. split.
  - destruct (List.filter _ rows) as [|row l] eqn:E; [congruence |]. intros _.
    assert (Hin : In row (List.filter
                            (fun r => String.eqb (RowEffect.paymentMethodOf r) label) rows))
      by (rewrite E; left; reflexivity).
    apply filter_In in Hin as [Hin Hl]. exists row.
    split; [apply list_elem_of_In; exact Hin | apply String.eqb_eq; exact Hl].
  - intros (row & Hrow & Hl) E.
    assert (Hin : In row (List.filter
                            (fun r => String.eqb (RowEffect.paymentMethodOf r) label) rows)).
    { apply filter_In. split; [apply list_elem_of_In; exact Hrow |].
      apply String.eqb_eq. exact Hl. }
    rewrite E in Hin. destruct Hin.
Qed.

(** The methods listed are the entries kept. *)
Lemma methods_Permutation (rows : list AnyRow) :
  plainMethods rows = true ->
  JSObject.entries ((fun q => CashIn.Amount (Finite q)) <$> Sums.amountsByLabel rows)
                   (JSObject.writtenKeys RowEffect.paymentMethodOf rows)
  ≡ₚ map_to_list ((fun q => CashIn.Amount (Finite q)) <$> Sums.amountsByLabel rows).
Proof.
  intros Hp.
  destruct (createdKeys_spec (fun key => negb (String.eqb key "__proto__"))
              RowEffect.paymentMethodOf rows) as [Hn He].
  apply entries_Permutation; [exact Hn |].
  intros label. unfold JSObject.writtenKeys. rewrite He, lookup_fmap, fmap_is_Some.
  rewrite amountsByLabel_lookup. split.
  - intros (_ & Hrow). apply labelRows_nonempty in Hrow.
    destruct (labelRows label rows); [congruence | eauto].
  - intros Hs.
    assert (Hne : labelRows label rows <> [])
      by (destruct (labelRows label rows); [destruct Hs; discriminate | discriminate]).
    apply labelRows_nonempty in Hne as (row & Hrow & <-).
    split; [apply (plainMethods_not_proto rows row Hp Hrow) | eauto].
Qed.

End PaymentMethods.

(** X21. For a clinic whose payment methods are not keys that a plain
    object inherits and whose amounts are whole numbers with magnitudes adding
    up to 2^53 at most, the payment methods listed in the cash-in table are
    the entries of its paymentMethodTotals: every payment method of a row of
    the clinic once (a blank one as "Unknown"), each with the sum of the
    amounts of the rows of the clinic that carry it.  With a consistent
    collation they are listed in the order of their labels. *)
Theorem cashin_methods `{NumberPrinter} `{FunctionPrinter} `{collator : Collator}
    (jsonData : list AnyRow) (out : gmap string CashIn.CashInClinicSummary)
    (code : string) (clinic : CashIn.CashInClinicSummary) :
  CashIn.processedData jsonData = Some out ->
  out !! code = Some clinic ->
  plainMethods (rowsOf code jsonData) = true ->
  wholeAmounts amountColumns (rowsOf code jsonData) = true ->
  let methods := State.methods jsonData clinic in
  methods ≡ₚ map_to_list (CashIn.paymentMethodTotals clinic)
  /\ NoDup (fst <$> methods)
  /\ (forall label : string,
        label ∈ fst <$> methods
        <-> exists row, row ∈ jsonData
                        /\ orElse (stringFrom row "Clinic Code") "Unknown" = code
                        /\ orElse (stringFrom row "Payment Method") "Unknown" = label)
  /\ (forall (label : string) (entry : CashIn.Entry),
        (label, entry) ∈ methods ->
        entry
        = CashIn.Amount
            (Finite (sumOf (fun row => amountFrom row "Amount")
                       (List.filter
                          (fun row => String.eqb (RowEffect.paymentMethodOf row) label)
                          (rowsOf code jsonData)))))
  /\ (ConsistentCollator collator ->
      StronglySorted (fun a b => localeCompare (fst a) (fst b) <= 0) methods).
Proof.
  intros Hout Hl Hm Hw methods.
  rewrite (cashIn_processedData_lookup jsonData out code Hout Hm Hw) in Hl.
  assert (Hc : clinic = Sums.cashIn code (rowsOf code jsonData))
    by (destruct (rowsOf code jsonData); [discriminate | congruence]).
  assert (Hperm : methods ≡ₚ map_to_list (CashIn.paymentMethodTotals clinic)).
  { unfold methods, State.methods. rewrite sort_Permutation, Hc.
    cbn [Sums.cashIn CashIn.clinicCode CashIn.paymentMethodTotals].
    apply methods_Permutation. exact Hm. }
  assert (Hlookup : forall label entry,
            (label, entry) ∈ methods
            <-> labelRows label (rowsOf code jsonData) <> []
                /\ entry = CashIn.Amount
                             (Finite (sumOf amountOf
                                        (labelRows label (rowsOf code jsonData))))).
  { intros label entry. rewrite Hperm, elem_of_map_to_list, Hc.
    cbn [Sums.cashIn CashIn.paymentMethodTotals].
    rewrite lookup_fmap, amountsByLabel_lookup.
    destruct (labelRows label (rowsOf code jsonData)) as [|r l]; simpl.
    - split; [discriminate | intros [Hne _]; congruence].
    - split; [intros [= <-]; split; [discriminate | reflexivity] |].
      intros [_ ->]. reflexivity. }
  split; [exact Hperm |]. split; [| split; [| split]].
  - rewrite Hperm. apply NoDup_fst_map_to_list.
  - intros label. rewrite list_elem_of_fmap. split.
    + intros ([l entry] & -> & Hin). apply Hlookup in Hin as [Hne _].
      apply labelRows_nonempty in Hne as (row & Hrow & Hlabel).
      apply rowsOf_elem_of in Hrow as [Hrow Hcode]. simpl. eauto.
    + intros (row & Hrow & Hcode & Hlabel).
      eexists (label, _). split; [reflexivity |]. apply Hlookup. split; [| reflexivity].
      apply labelRows_nonempty. exists row. split; [| exact Hlabel].
      apply rowsOf_elem_of. auto.
  - intros label entry Hin. apply Hlookup in Hin as [_ ->]. reflexivity.
  - intros consistent. apply (sort_by_code_StronglySorted consistent).
Qed.

Lemma cashin_methods_witness :
  @CashIn.processedData Examples.printer Examples.functionPrinter Examples.cashInRows
  = Some Examples.cashInOutput
  /\ Examples.cashInOutput !! "JKT"%string = Some Examples.cashInClinic
  /\ fst <$> @State.methods Examples.printer Samples.collator Examples.cashInRows
               Examples.cashInClinic
     = ["Cash"; "Clinic Voucher - Value"; "Treatment Deposit"]%string
  /\ @State.methods Examples.printer Samples.collator Examples.cashInRows
       Examples.cashInClinic
     ≡ₚ map_to_list (CashIn.paymentMethodTotals Examples.cashInClinic).
Proof.
  assert (Hout : @CashIn.processedData Examples.printer Examples.functionPrinter
                   Examples.cashInRows = Some Examples.cashInOutput)
    by (vm_compute; reflexivity).
  assert (Hp : Examples.cashInOutput !! "JKT"%string = Some Examples.cashInClinic)
    by (vm_compute; reflexivity).
  split; [exact Hout |]. split; [exact Hp |]. split; [vm_compute; reflexivity |].
  exact (proj1 (@cashin_methods Examples.printer Examples.functionPrinter Samples.collator
                  _ _ _ _ Hout Hp eq_refl eq_refl)).
Defined.

